(** * ThumbGen: the thumbnail compositing and layout engine

    A shallow embedding of [core/thumbnail.py] (class ThumbnailGenerator),
    [resources/resource_manager.py] (class ResourceManager) and the parts of
    [app.py] that name batch entries and load an uploaded background.

    Conventions of the embedding:
    - a Python [int] is a [Z]; a Python [str] is a [string] whose characters
      are the code points below 256; a Python [float] is a binary64
      primitive float;
    - a raised exception is the [Raise] case of [result];
    - [self._fonts], a dict whose insertion order the eviction loop reads,
      is an association list in insertion order; [self._images] and
      [self._font_paths], whose order is never read, are [gmap]s;
    - what the code asks of its host (the font engine and rasteriser of
      Pillow, the file system, the platform name) is the class [Host];
    - an RGBA bitmap is its size and its pixels in row-major order. *)

From Stdlib Require Import ZArith List String Ascii Bool Lia Floats.
From Stdlib Require Import DecimalString DecimalPos DecimalZ.
From stdpp Require Import gmap strings sorting.
Import ListNotations.

Local Open Scope Z_scope.

(** ** Exceptions *)

Inductive exn : Type :=
| OSError | ValueError | OverflowError | ZeroDivisionError | KeyError.

Inductive result (A : Type) : Type :=
| Ok (a : A)
| Raise (e : exn).
Arguments Ok {A} a.
Arguments Raise {A} e.

#[global] Instance result_ret : MRet result := fun _ a => Ok a.

#[global] Instance result_bind : MBind result := fun _ _ k m =>
  match m with
  | Ok a => k a
  | Raise e => Raise e
  end.

#[global] Instance result_fmap : FMap result := fun _ _ f m =>
  match m with
  | Ok a => Ok (f a)
  | Raise e => Raise e
  end.

(** ** Python strings *)

Module PyStr.

(** [str.isspace] on the code points below 256. *)
Definition isspace (c : ascii) : bool :=
  let n := Z.of_N (N_of_ascii c) in
  ((9 <=? n) && (n <=? 13)) || ((28 <=? n) && (n <=? 32))
  || (n =? 133) || (n =? 160).

Definition is_empty (s : string) : bool :=
  match s with EmptyString => true | String _ _ => false end.

(** [s.split()]: the maximal runs of characters that are not white space.
    [cur] is the word being read. *)
Fixpoint split_from (cur : string) (s : string) : list string :=
  match s with
  | EmptyString => if is_empty cur then [] else [cur]
  | String c s' =>
      if isspace c
      then (if is_empty cur then split_from EmptyString s'
            else cur :: split_from EmptyString s')
      else split_from (cur +:+ String c EmptyString) s'
  end.

Definition split (s : string) : list string := split_from EmptyString s.

(** [s.split(sep)] for a separator of one character: never empty. *)
Fixpoint split_on (sep : ascii) (s : string) : list string :=
  match s with
  | EmptyString => [EmptyString]
  | String c s' =>
      if Ascii.eqb c sep then EmptyString :: split_on sep s'
      else match split_on sep s' with
           | [] => [String c EmptyString]
           | w :: ws => String c w :: ws
           end
  end.

(** [sep.join(l)]. *)
Definition join (sep : string) (l : list string) : string :=
  String.concat sep l.

(** [s.replace(c, r)] for a pattern [c] of one character. *)
Fixpoint replace (c : ascii) (r : string) (s : string) : string :=
  match s with
  | EmptyString => EmptyString
  | String d s' =>
      if Ascii.eqb d c then r +:+ replace c r s'
      else String d (replace c r s')
  end.

(** [str(n)] for an int. *)
Definition str (n : Z) : string := NilZero.string_of_int (Z.to_int n).

(** [s.lower()] on the code points below 256. *)
Definition lower_char (c : ascii) : ascii :=
  let n := Z.of_N (N_of_ascii c) in
  if ((65 <=? n) && (n <=? 90))
     || ((192 <=? n) && (n <=? 222) && negb (n =? 215))
  then ascii_of_N (Z.to_N (n + 32)) else c.

Fixpoint lower (s : string) : string :=
  match s with
  | EmptyString => EmptyString
  | String c s' => String (lower_char c) (lower s')
  end.

Definition all_space (s : string) : bool :=
  forallb isspace (list_ascii_of_string s).

Definition has_space (s : string) : bool :=
  existsb isspace (list_ascii_of_string s).

End PyStr.

Definition newline : ascii := ascii_of_N 10.
Definition caret : ascii := "^"%char.


(** ** Python floats (binary64) *)

Module PyFloat.

Definition hundred : float := 100%float.
Definition one : float := 1%float.

(** [float(n)] for an int: the nearest double, ties to even; an int too
    large for a double raises. *)
Definition of_int (n : Z) : result float :=
  let f := SF2Prim (binary_normalize prec emax n 0 false) in
  if PrimFloat.is_infinity f then Raise OverflowError else Ok f.

(** [int(f)]: truncation towards zero. *)
Definition to_int (f : float) : result Z :=
  match Prim2SF f with
  | S754_zero _ => Ok 0
  | S754_finite s m e =>
      let a := if 0 <=? e then Z.shiftl (Z.pos m) e
               else Z.shiftr (Z.pos m) (- e) in
      Ok (if s then - a else a)
  | S754_infinity _ => Raise OverflowError
  | S754_nan => Raise ValueError
  end.

(** [n / d] for an int [n] and a float [d] that is not zero. *)
Definition int_truediv (n : Z) (d : float) : result float :=
  x ← of_int n; mret (PrimFloat.div x d).

(** [n * f] for an int [n] and a float [f]. *)
Definition int_mul (n : Z) (f : float) : result float :=
  x ← of_int n; mret (PrimFloat.mul x f).

(** [int(n * f)]. *)
Definition int_of_mul (n : Z) (f : float) : result Z :=
  x ← int_mul n f; to_int x.

End PyFloat.

(** ** Pillow bitmaps

    What the generator uses of [PIL.Image], on the one mode it ever builds
    ("RGBA"): the size and failure behaviour of each operation, and the
    integer pixel kernels of alpha compositing and masked pasting. *)

Module PIL.

Definition rgba : Type := Z * Z * Z * Z.

Record image : Type := Image {
  width : Z;
  height : Z;
  data : list rgba   (* row-major, [width * height] pixels *)
}.

Definition wf (im : image) : Prop :=
  0 <= width im /\ 0 <= height im
  /\ length (data im) = Z.to_nat (width im * height im).

Inductive Resampling : Type := LANCZOS | BILINEAR.

Definition transparent : rgba := (0, 0, 0, 0).

(** An ink channel is clipped to a byte. *)
Definition clip8 (v : Z) : Z := Z.max 0 (Z.min 255 v).

Definition ink (c : rgba) : rgba :=
  let '(r, g, b, a) := c in (clip8 r, clip8 g, clip8 b, clip8 a).

Definition alpha (p : rgba) : Z := let '(_, _, _, a) := p in a.

(** [Image.new("RGBA", (w, h), color)]. *)
Definition new (w h : Z) (color : rgba) : result image :=
  if (w <? 0) || (h <? 0) then Raise ValueError
  else Ok (Image w h (replicate (Z.to_nat (w * h)) (ink color))).

(** A division by 255, rounded, in shifts. *)
Definition shift_for_div255 (a : Z) : Z :=
  Z.shiftr (Z.shiftr a 8 + a) 8.

Definition precision_bits : Z := 7.

(** One band of a composited pixel: the source and the destination
    weighted by the two coefficients, divided by 255 and rounded. *)
Definition over_channel (coef1 coef2 s d : Z) : Z :=
  Z.shiftr
    (shift_for_div255 (s * coef1 + d * coef2 + Z.shiftl 128 precision_bits))
    precision_bits.

(** One pixel of [Image.alpha_composite(dst, src)]. *)
Definition over (dst src : rgba) : rgba :=
  let '(dr, dg, db, da) := dst in
  let '(sr, sg, sb, sa) := src in
  if sa =? 0 then dst
  else
    let blend := da * (255 - sa) in
    let outa255 := sa * 255 + blend in
    let coef1 := sa * 255 * 255 * Z.shiftl 1 precision_bits / outa255 in
    let coef2 := 255 * Z.shiftl 1 precision_bits - coef1 in
    (over_channel coef1 coef2 sr dr, over_channel coef1 coef2 sg dg,
     over_channel coef1 coef2 sb db, shift_for_div255 (outa255 + 128)).

Fixpoint zip_pixels (f : rgba -> rgba -> rgba) (l1 l2 : list rgba)
  : list rgba :=
  match l1, l2 with
  | p :: l1', q :: l2' => f p q :: zip_pixels f l1' l2'
  | _, _ => []
  end.

(** [Image.alpha_composite(dst, src)]: the sizes must agree. *)
Definition alpha_composite (dst src : image) : result image :=
  if (width dst =? width src) && (height dst =? height src)
  then Ok (Image (width dst) (height dst)
             (zip_pixels over (data dst) (data src)))
  else Raise ValueError.

Definition div255 (a : Z) : Z := shift_for_div255 (a + 128).

(** One pixel of a paste through an RGBA mask: every band, alpha
    included, moves towards the pasted pixel by the mask's alpha. *)
Definition paste_pixel (out inp : rgba) (mask : Z) : rgba :=
  let '(r1, g1, b1, a1) := out in
  let '(r2, g2, b2, a2) := inp in
  let mix o i := div255 (o * (255 - mask) + i * mask) in
  (mix r1 r2, mix g1 g2, mix b1 b2, mix a1 a2).

Definition pixel_at (im : image) (x y : Z) : rgba :=
  nth (Z.to_nat (y * width im + x)) (data im) transparent.

Definition inside (im : image) (x y : Z) : bool :=
  (0 <=? x) && (x <? width im) && (0 <=? y) && (y <? height im).

(** [dst.paste(src, (px, py), mask)] with [mask] of the size of [src]:
    the part of [src] that falls outside [dst] is clipped. *)
Definition paste (dst src : image) (pos : Z * Z) (mask : image) : image :=
  let '(px, py) := pos in
  Image (width dst) (height dst)
    (imap (fun i p =>
             let x := Z.of_nat i mod width dst in
             let y := Z.of_nat i / width dst in
             if inside src (x - px) (y - py)
             then paste_pixel p (pixel_at src (x - px) (y - py))
                    (alpha (pixel_at mask (x - px) (y - py)))
             else p)
       (data dst)).

(** [r, g, b, a = im.split(); a = a.point(lut);
    Image.merge("RGBA", (r, g, b, a))]: the table is read at the
    pixel's alpha and its entry clipped to a byte. *)
Definition point_alpha (lut : list Z) (im : image) : image :=
  Image (width im) (height im)
    (map (fun p : rgba =>
            let '(r, g, b, a) := p in
            (r, g, b, clip8 (nth (Z.to_nat a) lut 0)))
       (data im)).

(** [t = Image.new("RGBA", im.size, color); t.putalpha(a)] where [a] is
    the alpha band of [im]. *)
Definition tint (color : rgba) (im : image) : image :=
  let '(tr, tg, tb, _) := ink color in
  Image (width im) (height im)
    (map (fun p : rgba => (tr, tg, tb, alpha p)) (data im)).

(** [max(min(floor(q), ceil(q), key=key), 1)] for the quotient
    [q = num / den], [den > 0]; [le_key f c] says [key(f) <= key(c)]. *)
Definition round_aspect (num den : Z) (le_key : Z -> Z -> bool) : Z :=
  let f := num / den in
  let c := - ((- num) / den) in
  Z.max (if le_key f c then f else c) 1.

(** The size [im.thumbnail((x, y), ...)] resizes to, [None] when the
    image already fits. Pillow evaluates the aspect ratio in binary64;
    here the same comparisons are made on the exact quotients. *)
Definition thumbnail_size (w h x y : Z) : result (option (Z * Z)) :=
  if (w <=? x) && (h <=? y) then Ok None
  else if (h <=? 0) || (y <=? 0) then Raise ZeroDivisionError
  else if w * y <=? x * h
  then
    (* x / y >= aspect: the width follows the height *)
    Ok (Some (round_aspect (y * w) h
                (fun n1 n2 => Z.abs (w * y - n1 * h) <=? Z.abs (w * y - n2 * h)),
              y))
  else
    Ok (Some (x,
              round_aspect (x * h) w
                (fun n1 n2 =>
                   (n1 =? 0)
                   || (negb (n2 =? 0)
                       && (Z.abs (w * n1 - x * h) * Z.abs n2
                           <=? Z.abs (w * n2 - x * h) * Z.abs n1))))).

End PIL.

(** ** The host

    What the program calls and does not define: FreeType font loading and
    glyph metrics, the rasterisers of [ImageDraw], the resampling filters,
    the file system and [platform.system()]. *)

Class Host : Type := {
  (** a loaded, sized font *)
  font : Type;
  (** [ImageFont.truetype(name_or_path, size)] *)
  truetype : string -> Z -> result font;
  (** [ImageFont.load_default()] *)
  load_default : font;
  (** [draw.textbbox((0, 0), text, font=font)]: left, top, right, bottom *)
  textbbox : font -> string -> Z * Z * Z * Z;
  (** [draw.text(xy, text, font=, fill=, stroke_width=, stroke_fill=)] *)
  draw_text : PIL.image -> Z * Z -> string -> font -> PIL.rgba -> Z ->
              PIL.rgba -> result PIL.image;
  (** [draw.rectangle([x0, y0, x1, y1], fill=)] *)
  draw_rectangle : PIL.image -> Z * Z * Z * Z -> PIL.rgba ->
                   result PIL.image;
  (** the pixels of [im.resize((w, h), resample)] *)
  resize_data : PIL.image -> Z -> Z -> PIL.Resampling -> list PIL.rgba;
  (** [platform.system().lower()] *)
  system : string;
  (** [Path(__file__).parent.parent.absolute()] *)
  base_path : string;
  (** [directory / name] *)
  joinpath : string -> string -> string;
  (** [path.exists()] *)
  path_exists : string -> bool;
  (** [Image.open(path).convert("RGBA")] *)
  open_rgba : string -> result PIL.image
}.

Section Resize.
Context `{Host}.

(** [im.resize((w, h), resample)]: a copy when the size is unchanged,
    an error for an empty target. *)
Definition resize (im : PIL.image) (w h : Z) (resample : PIL.Resampling)
  : result PIL.image :=
  if (PIL.width im =? w) && (PIL.height im =? h) then Ok im
  else if (w <? 1) || (h <? 1) then Raise ValueError
  else Ok (PIL.Image w h (resize_data im w h resample)).

(** [im.thumbnail((x, y), resample)], as a function. *)
Definition thumbnail (im : PIL.image) (x y : Z)
    (resample : PIL.Resampling) : result PIL.image :=
  size ← PIL.thumbnail_size (PIL.width im) (PIL.height im) x y;
  match size with
  | None => Ok im
  | Some (w, h) => resize im w h resample
  end.

End Resize.

(** ** ResourceManager *)

(** An insertion-ordered dict. *)
Module Dict.
Section Dict.
Context {V : Type}.

Fixpoint get (k : string) (d : list (string * V)) : option V :=
  match d with
  | [] => None
  | (k', v) :: d' => if String.eqb k k' then Some v else get k d'
  end.

(** [d[k] = v]: a present key keeps its place, a new one goes last. *)
Fixpoint set (k : string) (v : V) (d : list (string * V))
  : list (string * V) :=
  match d with
  | [] => [(k, v)]
  | (k', v') :: d' =>
      if String.eqb k k' then (k, v) :: d' else (k', v') :: set k v d'
  end.

(** [del d[k]] for a present key. *)
Fixpoint del (k : string) (d : list (string * V)) : list (string * V) :=
  match d with
  | [] => []
  | (k', v') :: d' =>
      if String.eqb k k' then d' else (k', v') :: del k d'
  end.

Definition keys (d : list (string * V)) : list string := map fst d.
End Dict.
End Dict.

(** The memo of [functools.lru_cache(maxsize)], most recently used first. *)
Module Lru.
Section Lru.
Context {K V : Type} `{EqDecision K}.

Fixpoint find (k : K) (memo : list (K * V)) : option V :=
  match memo with
  | [] => None
  | (k', v) :: memo' => if decide (k = k') then Some v else find k memo'
  end.

Fixpoint remove (k : K) (memo : list (K * V)) : list (K * V) :=
  match memo with
  | [] => []
  | (k', v) :: memo' =>
      if decide (k = k') then memo' else (k', v) :: remove k memo'
  end.

(** A hit moves the entry to the front. *)
Definition touch (k : K) (v : V) (memo : list (K * V)) : list (K * V) :=
  (k, v) :: remove k memo.

(** A miss stores the result and drops the least recently used entry
    of a full memo. *)
Definition store (maxsize : nat) (k : K) (v : V) (memo : list (K * V))
  : list (K * V) :=
  take maxsize ((k, v) :: memo).
End Lru.
End Lru.

Section ResourceManager.
Context `{Host}.

Record ResourceManager : Type := {
  _images : gmap string PIL.image;
  _fonts : list (string * font);
  _font_paths : gmap string string;
  (** the memo of the decorated [get_image] *)
  get_image_memo : list (string * string * option PIL.image);
  (** the memo of the decorated [get_pil_font] *)
  get_pil_font_memo : list (string * Z * font)
}.

Definition set_images (rm : ResourceManager) (m : gmap string PIL.image)
  : ResourceManager :=
  {| _images := m; _fonts := _fonts rm; _font_paths := _font_paths rm;
     get_image_memo := get_image_memo rm;
     get_pil_font_memo := get_pil_font_memo rm |}.

Definition set_fonts (rm : ResourceManager) (d : list (string * font))
  : ResourceManager :=
  {| _images := _images rm; _fonts := d; _font_paths := _font_paths rm;
     get_image_memo := get_image_memo rm;
     get_pil_font_memo := get_pil_font_memo rm |}.

Definition set_get_image_memo (rm : ResourceManager)
    (memo : list (string * string * option PIL.image)) : ResourceManager :=
  {| _images := _images rm; _fonts := _fonts rm;
     _font_paths := _font_paths rm;
     get_image_memo := memo;
     get_pil_font_memo := get_pil_font_memo rm |}.

Definition set_get_pil_font_memo (rm : ResourceManager)
    (memo : list (string * Z * font)) : ResourceManager :=
  {| _images := _images rm; _fonts := _fonts rm;
     _font_paths := _font_paths rm;
     get_image_memo := get_image_memo rm;
     get_pil_font_memo := memo |}.

(** The manager before any request, with the font index of the scan. *)
Definition fresh (font_paths : gmap string string) : ResourceManager :=
  {| _images := ∅; _fonts := []; _font_paths := font_paths;
     get_image_memo := []; get_pil_font_memo := [] |}.

(** [self.paths[key]] *)
Definition paths (key : string) : result string :=
  let static := joinpath base_path "static" in
  if String.eqb key "backgrounds" then Ok (joinpath static "backgrounds")
  else if String.eqb key "patterns" then Ok (joinpath static "patterns")
  else if String.eqb key "fonts" then Ok (joinpath static "fonts")
  else Raise KeyError.

Definition image_extensions : list string :=
  [".png"; ".jpg"; ".jpeg"; ".gif"]%string.

(** The first [directory / f"{name}{ext}"] that exists. *)
Fixpoint first_existing (directory name : string) (exts : list string)
  : option string :=
  match exts with
  | [] => None
  | ext :: rest =>
      let file_path := joinpath directory (name +:+ ext) in
      if path_exists file_path then Some file_path
      else first_existing directory name rest
  end.

Definition max_size : Z := 2048.

(** The body of the [try] of [get_image], up to the store. *)
Definition load_image (name image_type : string)
  : result (option PIL.image) :=
  directory ← paths (image_type +:+ "s");
  match first_existing directory name image_extensions with
  | None => Ok None
  | Some file_path =>
      image ← open_rgba file_path;
      (* Only optimize background images, not patterns *)
      image ← (if String.eqb image_type "background"
               then if (max_size <? PIL.width image)
                       || (max_size <? PIL.height image)
                    then thumbnail image max_size max_size PIL.LANCZOS
                    else Ok image
               else Ok image);
      Ok (Some image)
  end.

(** [get_image], undecorated. *)
Definition get_image_body (rm : ResourceManager) (name image_type : string)
  : option PIL.image * ResourceManager :=
  if PyStr.is_empty name || String.eqb name "None" then (None, rm)
  else
    let cache_key := image_type +:+ "_" +:+ name in
    match _images rm !! cache_key with
    | Some image => (Some image, rm)
    | None =>
        match load_image name image_type with
        | Ok (Some image) =>
            (Some image, set_images rm (<[cache_key := image]> (_images rm)))
        | Ok None | Raise _ => (None, rm)
        end
    end.

(** [get_image] under [@lru_cache(maxsize=64)]. *)
Definition get_image (rm : ResourceManager) (name image_type : string)
  : option PIL.image * ResourceManager :=
  match Lru.find (name, image_type) (get_image_memo rm) with
  | Some r =>
      (r, set_get_image_memo rm
            (Lru.touch (name, image_type) r (get_image_memo rm)))
  | None =>
      let '(r, rm') := get_image_body rm name image_type in
      (r, set_get_image_memo rm'
            (Lru.store 64 (name, image_type) r (get_image_memo rm')))
  end.

Definition get_background_image (rm : ResourceManager) (name : string) :=
  get_image rm name "background".

Definition get_pattern_image (rm : ResourceManager) (name : string) :=
  get_image rm name "pattern".

(** [_get_platform_fallbacks]: a pure function, so its memo is not
    modelled. *)
Definition _get_platform_fallbacks (system font_name : string)
  : list string :=
  if String.eqb system "windows" then
    let fallbacks :=
      ["arial.ttf"; "calibri.ttf"; "segoeui.ttf"; "tahoma.ttf";
       "C:/Windows/Fonts/arial.ttf"; "C:/Windows/Fonts/calibri.ttf"]%string in
    if String.eqb (PyStr.lower font_name) "impact"
    then "C:/Windows/Fonts/impact.ttf"%string
         :: "impact.ttf"%string :: fallbacks
    else fallbacks
  else if String.eqb system "darwin" then
    let fallbacks :=
      ["Arial.ttc"; "Helvetica.ttc"; "Arial.ttf";
       "/System/Library/Fonts/Arial.ttf";
       "/System/Library/Fonts/Helvetica.ttc"]%string in
    if String.eqb (PyStr.lower font_name) "impact"
    then "Impact.ttf"%string :: fallbacks
    else fallbacks
  else
    ["DejaVuSans.ttf"; "liberation-sans.ttf"; "Ubuntu-R.ttf";
     "/usr/share/fonts/truetype/dejavu/DejaVuSans.ttf";
     "/usr/share/fonts/truetype/liberation/LiberationSans-Regular.ttf"
    ]%string.

(** The loop of [_get_system_font]: only [OSError] moves on to the next
    candidate. *)
Fixpoint try_fallbacks (fallbacks : list string) (size : Z) : result font :=
  match fallbacks with
  | [] => Ok load_default
  | fallback :: rest =>
      match truetype fallback size with
      | Ok f => Ok f
      | Raise OSError => try_fallbacks rest size
      | Raise e => Raise e
      end
  end.

Definition _get_system_font (font_name : string) (size : Z) : result font :=
  match truetype font_name size with
  | Ok f => Ok f
  | Raise OSError =>
      try_fallbacks (_get_platform_fallbacks system font_name) size
  | Raise e => Raise e
  end.

(** The [try] of [get_pil_font] with its [except Exception]. *)
Definition load_font (rm : ResourceManager) (font_name : string) (size : Z)
  : font :=
  match (match _font_paths rm !! font_name with
         | Some path => truetype path size
         | None => _get_system_font font_name size
         end) with
  | Ok f => f
  | Raise _ => load_default
  end.

(** [for key in list(d.keys())[:n]: del d[key]] *)
Definition evict_oldest (n : nat) (d : list (string * font))
  : list (string * font) :=
  fold_left (fun d key => Dict.del key d) (take n (Dict.keys d)) d.

(** [get_pil_font], undecorated. *)
Definition get_pil_font_body (rm : ResourceManager) (font_name : string)
    (size : Z) : font * ResourceManager :=
  let cache_key := font_name +:+ "_" +:+ PyStr.str size in
  match Dict.get cache_key (_fonts rm) with
  | Some f => (f, rm)
  | None =>
      let f := load_font rm font_name size in
      let fonts := Dict.set cache_key f (_fonts rm) in
      (* Limit cache size *)
      let fonts :=
        if (150 <? length fonts)%nat then evict_oldest 50 fonts
        else fonts in
      (f, set_fonts rm fonts)
  end.

(** [get_pil_font] under [@lru_cache(maxsize=128)]. *)
Definition get_pil_font (rm : ResourceManager) (font_name : string)
    (size : Z) : font * ResourceManager :=
  match Lru.find (font_name, size) (get_pil_font_memo rm) with
  | Some f =>
      (f, set_get_pil_font_memo rm
            (Lru.touch (font_name, size) f (get_pil_font_memo rm)))
  | None =>
      let '(f, rm') := get_pil_font_body rm font_name size in
      (f, set_get_pil_font_memo rm'
            (Lru.store 128 (font_name, size) f (get_pil_font_memo rm')))
  end.

End ResourceManager.

Arguments ResourceManager : clear implicits.
Arguments ResourceManager {_}.

(** ** ThumbnailGenerator *)

(** The canvas of a render: its pixels, and (a ghost field, read by no
    operation) the layers written onto it so far, oldest first. *)
Inductive layer : Type :=
| BackgroundFill | BackgroundImage | PatternOverlay | TextBox | TextGlyphs.

Record canvas : Type := Canvas {
  pixels : PIL.image;
  history : list layer
}.

Definition painted (l : layer) (img : canvas) (out : PIL.image) : canvas :=
  Canvas out (history img ++ [l]).

(** [s in (a, b, ...)] *)
Definition str_in (s : string) (l : list string) : bool :=
  existsb (String.eqb s) l.

(** [c[:3] + (255,)] *)
Definition opaque (c : PIL.rgba) : PIL.rgba :=
  let '(r, g, b, _) := c in (r, g, b, 255).

(** [c[:3] + (0,)] *)
Definition clear (c : PIL.rgba) : PIL.rgba :=
  let '(r, g, b, _) := c in (r, g, b, 0).

(** The fields of [self]. *)
Record ThumbnailGenerator : Type := {
  background_image : option PIL.image;
  background_color : PIL.rgba;
  background_opacity : Z;
  bg_image_scale : Z;
  bg_image_x_offset : Z;
  bg_image_y_offset : Z;
  current_pattern : option PIL.image;
  pattern_opacity : Z;
  pattern_scale : Z;
  pattern_x_offset : Z;
  pattern_y_offset : Z;
  pattern_color : PIL.rgba;
  pattern_color_enabled : bool;
  text_color : PIL.rgba;
  text_alignment : string;
  text_margins : Z;
  text_x_offset : Z;
  text_y_offset : Z;
  line_spacing_factor : float;
  text_stroke_width : Z;
  text_stroke_color : PIL.rgba;
  text_box_enabled : bool;
  text_box_color : PIL.rgba;
  text_box_padding : Z;
  font_name : string;
  font_size : Z;
  filename_base : string
}.

Definition _initialize_defaults : ThumbnailGenerator := {|
  background_image := None;
  background_color := (215, 63, 9, 255);
  background_opacity := 100;
  bg_image_scale := 100;
  bg_image_x_offset := 0;
  bg_image_y_offset := 0;
  current_pattern := None;
  pattern_opacity := 100;
  pattern_scale := 40;
  pattern_x_offset := 0;
  pattern_y_offset := 0;
  pattern_color := (255, 255, 255, 255);
  pattern_color_enabled := false;
  text_color := (255, 255, 255, 255);
  text_alignment := "center";
  text_margins := 100;
  text_x_offset := 0;
  text_y_offset := 0;
  line_spacing_factor := 0x1.3333333333333p-2%float;  (* 0.3 *)
  text_stroke_width := 0;
  text_stroke_color := (0, 0, 0, 255);
  text_box_enabled := false;
  text_box_color := (0, 0, 0, 255);
  text_box_padding := 20;
  font_name := "Arial";
  font_size := 100;
  filename_base := "output"
|}.

(** [a.point(lambda i: int(i * opacity_factor))]: the table Pillow builds
    from the lambda, one entry per byte value. *)
Definition opacity_lut (opacity_factor : float) : result (list Z) :=
  mapM (fun i => PyFloat.int_of_mul (Z.of_nat i) opacity_factor) (seq 0 256).

(** The block "Apply opacity" of both image layers. *)
Definition apply_opacity (opacity : Z) (layer_canvas : PIL.image)
  : result PIL.image :=
  if opacity <? 100 then
    opacity_factor ← PyFloat.int_truediv opacity PyFloat.hundred;
    lut ← opacity_lut opacity_factor;
    mret (PIL.point_alpha lut layer_canvas)
  else Ok layer_canvas.

Section Wrap.
Context `{Host}.

(** [right - left] of [draw.textbbox((0, 0), text, font=font)]. *)
Definition text_width (f : font) (text : string) : Z :=
  let '(x0, y0, x1, y1) := textbbox f text in x1 - x0.

(** One turn of the loop over the words of a paragraph; the state is
    [(processed_lines, current_line)]. *)
Definition wrap_word (f : font) (max_width : Z)
    (st : list string * list string) (word : string)
  : list string * list string :=
  let '(processed_lines, current_line) := st in
  let test_line := current_line ++ [word] in
  let test_text := PyStr.join " " test_line in
  if (max_width <? text_width f test_text)
     && negb (bool_decide (current_line = []))
  then (processed_lines ++ [PyStr.join " " current_line], [word])
  else (processed_lines, test_line).

(** One turn of the loop over the paragraphs. *)
Definition wrap_paragraph (f : font) (max_width : Z)
    (processed_lines : list string) (line : string) : list string :=
  let words := PyStr.split line in
  let '(processed_lines, current_line) :=
    fold_left (wrap_word f max_width) words (processed_lines, []) in
  if bool_decide (current_line = []) then processed_lines
  else processed_lines ++ [PyStr.join " " current_line].

(** The body of [_wrap_text] once the font is resolved. *)
Definition wrap_lines (f : font) (text : string) (max_width : Z)
  : list string :=
  fold_left (wrap_paragraph f max_width) (PyStr.split_on newline text) [].

(** [_wrap_text]. Its own [lru_cache] memoises a function of its
    arguments and of the resolved font alone, so it is not modelled. *)
Definition _wrap_text (rm : ResourceManager) (text font_name : string)
    (font_size max_width : Z) : list string * ResourceManager :=
  let '(f, rm) := get_pil_font rm font_name font_size in
  (wrap_lines f text max_width, rm).

End Wrap.

Section Generator.
Context `{Host}.
Variable self : ThumbnailGenerator.

Definition _add_background_color (img : canvas) (width height : Z)
  : result canvas :=
  bg_color_img ← PIL.new width height (opaque (background_color self));
  out ← PIL.alpha_composite (pixels img) bg_color_img;
  mret (painted BackgroundFill img out).

Definition _add_background_image (img : canvas) (width height : Z)
  : result canvas :=
  match background_image self with
  | None => Ok img
  | Some bg =>
      scale_factor ← PyFloat.int_truediv (bg_image_scale self) PyFloat.hundred;
      bg_width ← PyFloat.int_of_mul width scale_factor;
      bg_height ← PyFloat.int_of_mul height scale_factor;
      let resample := if PrimFloat.ltb scale_factor PyFloat.one
                      then PIL.LANCZOS else PIL.BILINEAR in
      resized_bg ← resize bg bg_width bg_height resample;
      bg_canvas ← PIL.new width height PIL.transparent;
      let x_pos := (width - bg_width) / 2 + bg_image_x_offset self in
      let y_pos := (height - bg_height) / 2 + bg_image_y_offset self in
      let bg_canvas := PIL.paste bg_canvas resized_bg (x_pos, y_pos) resized_bg in
      bg_canvas ← apply_opacity (background_opacity self) bg_canvas;
      out ← PIL.alpha_composite (pixels img) bg_canvas;
      mret (painted BackgroundImage img out)
  end.

(** The block "Calculate new dimensions" of [_add_pattern]: the pattern
    at its scale, with the size that positions it. *)
Definition scaled_pattern (current : PIL.image)
  : result (PIL.image * Z * Z) :=
  let orig_width := PIL.width current in
  let orig_height := PIL.height current in
  scale_factor ← PyFloat.int_truediv (pattern_scale self) PyFloat.hundred;
  if negb (PrimFloat.eqb scale_factor PyFloat.one) then
    new_width ← PyFloat.int_of_mul orig_width scale_factor;
    new_height ← PyFloat.int_of_mul orig_height scale_factor;
    let resample := if PrimFloat.ltb scale_factor PyFloat.one
                    then PIL.LANCZOS else PIL.BILINEAR in
    pattern ← resize current new_width new_height resample;
    mret (pattern, new_width, new_height)
  else Ok (current, orig_width, orig_height).

Definition _add_pattern (img : canvas) (width height : Z) : result canvas :=
  match current_pattern self with
  | None => Ok img
  | Some current =>
      '(pattern, new_width, new_height) ← scaled_pattern current;
      pattern_canvas ← PIL.new width height PIL.transparent;
      (* Position relative to frame size, not pattern size *)
      let x_pos := (width - new_width) / 2 + pattern_x_offset self in
      let y_pos := (height - new_height) / 2 + pattern_y_offset self in
      let pattern_canvas := PIL.paste pattern_canvas pattern (x_pos, y_pos) pattern in
      let pattern_canvas :=
        if pattern_color_enabled self
        then PIL.tint (clear (pattern_color self)) pattern_canvas
        else pattern_canvas in
      pattern_canvas ← apply_opacity (pattern_opacity self) pattern_canvas;
      out ← PIL.alpha_composite (pixels img) pattern_canvas;
      mret (painted PatternOverlay img out)
  end.

Definition left_group : list string :=
  ["top_left"; "left"; "bottom_left"]%string.
Definition center_group : list string :=
  ["top_center"; "center"; "bottom_center"]%string.
Definition right_group : list string :=
  ["top_right"; "right"; "bottom_right"]%string.

Definition _calculate_text_x_position (line : string) (f : font)
    (width : Z) (align : option string) : Z :=
  let align := match align with
               | None => text_alignment self
               | Some a => a
               end in
  let line_width := text_width f line in
  if str_in align left_group then
    text_margins self + text_x_offset self
  else if str_in align center_group then
    (width - line_width) / 2 + text_x_offset self
  else if str_in align right_group then
    width - text_margins self - line_width + text_x_offset self
  else
    (width - line_width) / 2 + text_x_offset self.

(** [box_x] of [_draw_text_box]. *)
Definition box_x (max_line_width width : Z) : Z :=
  if String.eqb (text_alignment self) "center" then
    (width - max_line_width) / 2 - text_box_padding self + text_x_offset self
  else if String.eqb (text_alignment self) "left" then
    text_margins self - text_box_padding self + text_x_offset self
  else (* right *)
    width - text_margins self - max_line_width - text_box_padding self
    + text_x_offset self.

Definition _draw_text_box (img : canvas) (lines : list string)
    (max_line_width width height y_position : Z) : result canvas :=
  let box_x := box_x max_line_width width in
  let box_y := y_position - text_box_padding self in
  let box_width := max_line_width + 2 * text_box_padding self in
  spacing ← PyFloat.int_of_mul (font_size self) (line_spacing_factor self);
  let box_height :=
    Z.of_nat (length lines) * (font_size self + spacing) - spacing
    + 2 * text_box_padding self in
  if PIL.alpha (text_box_color self) <? 255 then
    (* Semi-transparent box *)
    overlay ← PIL.new box_width box_height (text_box_color self);
    mret (painted TextBox img
            (PIL.paste (pixels img) overlay (box_x, box_y) overlay))
  else
    (* Opaque box *)
    out ← draw_rectangle (pixels img)
            (box_x, box_y, box_x + box_width, box_y + box_height)
            (text_box_color self);
    mret (painted TextBox img out).

(** [len(lines) * (font_size + line_spacing) - line_spacing] *)
Definition text_height (lines : list string) (line_spacing : Z) : Z :=
  Z.of_nat (length lines) * (font_size self + line_spacing) - line_spacing.

(** [y_position] of [_add_text] before the first line. *)
Definition first_y_position (text_height height : Z) : Z :=
  let align := text_alignment self in
  if str_in align ["top_left"; "top_center"; "top_right"]%string then
    text_margins self + text_y_offset self
  else if str_in align ["bottom_left"; "bottom_center"; "bottom_right"]%string then
    height - text_margins self - text_height + text_y_offset self
  else (* center, left, right *)
    (height - text_height) / 2 + text_y_offset self.

(** One turn of the loop "Draw text with stroke"; the state is the
    canvas and [y_position]. *)
Definition draw_line (f : font) (width line_spacing : Z)
    (st : result (canvas * Z)) (line : string) : result (canvas * Z) :=
  '(img, y_position) ← st;
  let x_position :=
    _calculate_text_x_position line f width (Some (text_alignment self)) in
  out ← draw_text (pixels img) (x_position, y_position) line f
          (opaque (text_color self)) (text_stroke_width self)
          (opaque (text_stroke_color self));
  mret (painted TextGlyphs img out, y_position + (font_size self + line_spacing)).

(** [_add_text] after the font and the wrapped lines are known. *)
Definition draw_text_block (img : canvas) (f : font) (lines : list string)
    (width height : Z) : result canvas :=
  line_spacing ← PyFloat.int_of_mul (font_size self) (line_spacing_factor self);
  let text_height := text_height lines line_spacing in
  let y_position := first_y_position text_height height in
  let max_line_width :=
    if text_box_enabled self
    then fold_left (fun m line => Z.max m (text_width f line)) lines 0
    else 0 in
  img ← (if text_box_enabled self
         then _draw_text_box img lines max_line_width width height y_position
         else Ok img);
  st ← fold_left (draw_line f width line_spacing) lines (Ok (img, y_position));
  mret (fst st).

Definition _add_text (rm : ResourceManager) (img : canvas)
    (display_text : string) (width height : Z)
  : result canvas * ResourceManager :=
  let '(f, rm) := get_pil_font rm (font_name self) (font_size self) in
  let max_text_width := width - text_margins self * 2 in
  let '(lines, rm) :=
    _wrap_text rm display_text (font_name self) (font_size self)
      max_text_width in
  (draw_text_block img f lines width height, rm).

(** The three image layers of [generate_thumbnail], on the fresh canvas. *)
Definition image_layers (width height : Z) : result canvas :=
  base ← PIL.new width height PIL.transparent;
  img ← _add_background_color (Canvas base []) width height;
  img ← _add_background_image img width height;
  _add_pattern img width height.

Definition generate_thumbnail (rm : ResourceManager) (text : string)
    (number width height : Z)
  : result (canvas * string) * ResourceManager :=
  let display_text := PyStr.replace caret (PyStr.str number) text in
  match image_layers width height with
  | Raise e => (Raise e, rm)
  | Ok img =>
      let '(r, rm) := _add_text rm img display_text width height in
      (img ← r;
       let filename := filename_base self +:+ PyStr.str number in
       mret (img, filename), rm)
  end.

End Generator.

(** Copies of [self] with the background fields, or the pattern fields,
    assigned. *)
Definition with_background (self : ThumbnailGenerator)
    (image : option PIL.image) (color : PIL.rgba) (opacity : Z)
  : ThumbnailGenerator := {|
  background_image := image;
  background_color := color;
  background_opacity := opacity;
  bg_image_scale := bg_image_scale self;
  bg_image_x_offset := bg_image_x_offset self;
  bg_image_y_offset := bg_image_y_offset self;
  current_pattern := current_pattern self;
  pattern_opacity := pattern_opacity self;
  pattern_scale := pattern_scale self;
  pattern_x_offset := pattern_x_offset self;
  pattern_y_offset := pattern_y_offset self;
  pattern_color := pattern_color self;
  pattern_color_enabled := pattern_color_enabled self;
  text_color := text_color self;
  text_alignment := text_alignment self;
  text_margins := text_margins self;
  text_x_offset := text_x_offset self;
  text_y_offset := text_y_offset self;
  line_spacing_factor := line_spacing_factor self;
  text_stroke_width := text_stroke_width self;
  text_stroke_color := text_stroke_color self;
  text_box_enabled := text_box_enabled self;
  text_box_color := text_box_color self;
  text_box_padding := text_box_padding self;
  font_name := font_name self;
  font_size := font_size self;
  filename_base := filename_base self
|}.

Definition with_pattern (self : ThumbnailGenerator)
    (pattern : option PIL.image) (opacity : Z) : ThumbnailGenerator := {|
  background_image := background_image self;
  background_color := background_color self;
  background_opacity := background_opacity self;
  bg_image_scale := bg_image_scale self;
  bg_image_x_offset := bg_image_x_offset self;
  bg_image_y_offset := bg_image_y_offset self;
  current_pattern := pattern;
  pattern_opacity := opacity;
  pattern_scale := pattern_scale self;
  pattern_x_offset := pattern_x_offset self;
  pattern_y_offset := pattern_y_offset self;
  pattern_color := pattern_color self;
  pattern_color_enabled := pattern_color_enabled self;
  text_color := text_color self;
  text_alignment := text_alignment self;
  text_margins := text_margins self;
  text_x_offset := text_x_offset self;
  text_y_offset := text_y_offset self;
  line_spacing_factor := line_spacing_factor self;
  text_stroke_width := text_stroke_width self;
  text_stroke_color := text_stroke_color self;
  text_box_enabled := text_box_enabled self;
  text_box_color := text_box_color self;
  text_box_padding := text_box_padding self;
  font_name := font_name self;
  font_size := font_size self;
  filename_base := filename_base self
|}.

Definition with_text (self : ThumbnailGenerator) (alignment : string)
    (box_enabled : bool) (base : string) : ThumbnailGenerator := {|
  background_image := background_image self;
  background_color := background_color self;
  background_opacity := background_opacity self;
  bg_image_scale := bg_image_scale self;
  bg_image_x_offset := bg_image_x_offset self;
  bg_image_y_offset := bg_image_y_offset self;
  current_pattern := current_pattern self;
  pattern_opacity := pattern_opacity self;
  pattern_scale := pattern_scale self;
  pattern_x_offset := pattern_x_offset self;
  pattern_y_offset := pattern_y_offset self;
  pattern_color := pattern_color self;
  pattern_color_enabled := pattern_color_enabled self;
  text_color := text_color self;
  text_alignment := alignment;
  text_margins := text_margins self;
  text_x_offset := text_x_offset self;
  text_y_offset := text_y_offset self;
  line_spacing_factor := line_spacing_factor self;
  text_stroke_width := text_stroke_width self;
  text_stroke_color := text_stroke_color self;
  text_box_enabled := box_enabled;
  text_box_color := text_box_color self;
  text_box_padding := text_box_padding self;
  font_name := font_name self;
  font_size := font_size self;
  filename_base := base
|}.

(** ** The routes of app.py that reach the core *)

Section App.
Context `{Host}.

(** The name of one archive entry of [generate_batch]. *)
Definition batch_filename (filename_base : string) (number : Z) : string :=
  let current_filename := PyStr.replace caret (PyStr.str number) filename_base in
  current_filename +:+ "_" +:+ PyStr.str number +:+ ".png".

(** The loop of [generate_batch] over [i in range(batch_count)]: the
    archive entries, each a name and the rendered canvas. *)
Fixpoint generate_batch_loop (self : ThumbnailGenerator)
    (rm : ResourceManager) (text_template filename_base : string)
    (start_number : Z) (indices : list Z)
  : result (list (string * canvas)) * ResourceManager :=
  match indices with
  | [] => (Ok [], rm)
  | i :: rest =>
      let current_text :=
        PyStr.replace caret (PyStr.str (start_number + i)) text_template in
      match generate_thumbnail self rm current_text (start_number + i) 1280 720 with
      | (Raise e, rm) => (Raise e, rm)
      | (Ok (thumbnail, _), rm) =>
          let filename := batch_filename filename_base (start_number + i) in
          let '(r, rm) :=
            generate_batch_loop self rm text_template filename_base
              start_number rest in
          (entries ← r; mret ((filename, thumbnail) :: entries), rm)
      end
  end.

Definition generate_batch (self : ThumbnailGenerator) (rm : ResourceManager)
    (text_template filename_base : string) (start_number batch_count : Z) :=
  generate_batch_loop self rm text_template filename_base start_number
    (seqZ 0 batch_count).

(** [upload_background] from the saved file on: the image assigned to
    [generator.background_image]. *)
Definition upload_background (filepath : string) : result PIL.image :=
  img ← open_rgba filepath;
  if (max_size <? PIL.width img) || (max_size <? PIL.height img)
  then thumbnail img max_size max_size PIL.LANCZOS
  else Ok img.

End App.

(** ** A concrete host for the examples

    Fonts are named by the file they were loaded from and every glyph is
    ten pixels wide; the rasterisers leave the bitmap as it is; the file
    system and the installed fonts are finite tables. *)

Module Demo.

Fixpoint lookup {V : Type} (k : string) (table : list (string * V))
  : option V :=
  match table with
  | [] => None
  | (k', v) :: rest => if String.eqb k k' then Some v else lookup k rest
  end.

Definition host (installed : list (string * result string))
    (platform : string) (files : list (string * result PIL.image))
  : Host := {|
  font := string;
  truetype name size :=
    match lookup name installed with
    | Some r => r
    | None => Raise OSError
    end;
  load_default := "<default>"%string;
  textbbox f text := (0, 0, 10 * Z.of_nat (String.length text), 10);
  draw_text im xy text f fill stroke_width stroke_fill := Ok im;
  draw_rectangle im box fill := Ok im;
  resize_data im w h resample :=
    replicate (Z.to_nat (w * h)) (hd PIL.transparent (PIL.data im));
  system := platform;
  base_path := "/srv/app"%string;
  joinpath a b := a +:+ "/" +:+ b;
  path_exists p :=
    match lookup p files with Some _ => true | None => false end;
  open_rgba p :=
    match lookup p files with
    | Some r => r
    | None => Raise OSError
    end
|}.

(** A Linux host with one system font and no asset files. *)
Definition plain : Host := host [("Arial"%string, Ok "Arial"%string)] "linux" [].

End Demo.


(** ** Predicates of the specification *)

(** A word: not empty, no white space. *)
Definition is_word (w : string) : Prop :=
  w <> EmptyString /\ PyStr.has_space w = false.

Section WrapSpec.
Context `{Host}.

(** A wrapped line is within the width, or is one word that is wider. *)
Definition fits_or_single_word (f : font) (max_width : Z) (line : string)
  : Prop :=
  text_width f line <= max_width
  \/ (is_word line /\ max_width < text_width f line).

(** The invariant of the loop over the words of a paragraph. *)
Definition wrap_inv (f : font) (max_width : Z)
    (st : list string * list string) : Prop :=
  Forall (fits_or_single_word f max_width) (fst st)
  /\ (snd st = [] \/ fits_or_single_word f max_width (PyStr.join " " (snd st))).

End WrapSpec.

(** The layers of a render in their order, for a text of [n] lines. *)
Definition expected_layers (self : ThumbnailGenerator) (n : nat) : list layer :=
  [BackgroundFill]
  ++ match background_image self with
     | Some _ => [BackgroundImage]
     | None => []
     end
  ++ match current_pattern self with
     | Some _ => [PatternOverlay]
     | None => []
     end
  ++ (if text_box_enabled self then [TextBox] else [])
  ++ replicate n TextGlyphs.

(** Bitmaps of the examples. *)
Definition dot (w h : Z) (p : PIL.rgba) : PIL.image :=
  PIL.Image w h (replicate (Z.to_nat (w * h)) p).

(** The defaults with a background image, a tinted pattern and the text
    box switched on. *)
Definition all_layers : ThumbnailGenerator :=
  with_text
    (with_pattern
       (with_background _initialize_defaults
          (Some (dot 2 2 (10, 20, 30, 255))) (215, 63, 9, 255) 50)
       (Some (dot 10 10 (0, 0, 0, 128))) 30)
    "top_left" true "output".

(** Neither side of the bitmap exceeds [max_size]. *)
Definition fits_max_size (im : PIL.image) : Prop :=
  Z.max (PIL.width im) (PIL.height im) <= max_size.

(** Every background the manager holds, in the image cache or in the
    memo of [get_image], fits. *)
Definition backgrounds_fit `{Host} (rm : ResourceManager) : Prop :=
  (forall name im,
      _images rm !! ("background" +:+ "_" +:+ name) = Some im ->
      fits_max_size im)
  /\ (forall name im,
        Lru.find (name, "background"%string) (get_image_memo rm)
        = Some (Some im) ->
        fits_max_size im).

(** Asset files of the examples: a background and a pattern, each 2049
    pixels wide and one pixel high. *)
Definition wide_assets : Host :=
  Demo.host [] "linux"
    [("/srv/app/static/backgrounds/wide.png"%string,
      Ok (dot 2049 1 (9, 9, 9, 255)));
     ("/srv/app/static/patterns/wide.png"%string,
      Ok (dot 2049 1 (9, 9, 9, 255)));
     ("uploads/wide.png"%string, Ok (dot 2049 1 (9, 9, 9, 255)))].

(** ** The font resolution order in the words of the spec

    "(1) exact match in the custom-font index; (2) system font lookup by
    the literal name; (3) an ordered, platform-keyed fallback table;
    (4) a deterministic built-in default if all else fails": the
    candidates are tried in this order and the first one that loads is
    the font. *)

Section ResolutionSpec.
Context `{Host}.

Fixpoint first_loadable (candidates : list string) (size : Z) : font :=
  match candidates with
  | [] => load_default
  | candidate :: rest =>
      match truetype candidate size with
      | Ok f => f
      | Raise _ => first_loadable rest size
      end
  end.

Definition resolution_order_spec (rm : ResourceManager) (font_name : string)
    (size : Z) : font :=
  first_loadable
    (match _font_paths rm !! font_name with
     | Some path => [path]
     | None => []
     end
     ++ font_name :: _get_platform_fallbacks system font_name)
    size.

End ResolutionSpec.

(** A host whose custom font file "Brand.ttf" does not decode, while a
    system font of the same name is installed. *)
Definition broken_custom_font : Host :=
  Demo.host
    [("/srv/app/static/fonts/Brand.ttf"%string, Raise OSError);
     ("Brand"%string, Ok "Brand"%string)]
    "linux" [].

Definition brand_index : gmap string string :=
  {["Brand"%string := "/srv/app/static/fonts/Brand.ttf"%string]}.

(** A Linux host with the second fallback font installed and nothing
    else. *)
Definition liberation_only : Host :=
  Demo.host [("liberation-sans.ttf"%string, Ok "liberation-sans.ttf"%string)]
    "linux" [].

(** ** Cache bounds *)

(** A catalogue of 151 one-pixel backgrounds named "0" to "150". *)
Definition many_backgrounds : Host :=
  Demo.host [] "linux"
    (map (fun i =>
            ("/srv/app/static/backgrounds/" +:+ PyStr.str i +:+ ".png",
             Ok (dot 1 1 (9, 9, 9, 255))))
       (seqZ 0 151)).

(** [get_background_image] on each name in turn. *)
Definition load_backgrounds `{Host} (names : list string)
    (rm : ResourceManager) : ResourceManager :=
  fold_left (fun rm name => snd (get_background_image rm name)) names rm.

(** A manager whose font cache holds 150 entries, keyed "0" to "149". *)
Definition full_font_cache : @ResourceManager Demo.plain :=
  @set_fonts Demo.plain (@fresh Demo.plain ∅)
    (map (fun i => (PyStr.str i, "cached"%string)) (seqZ 0 150)).

(** ** Further definitions: strings *)

(** [c in s] for a character [c]. *)
Definition has_char (c : ascii) (s : string) : bool :=
  existsb (Ascii.eqb c) (list_ascii_of_string s).

(** The words of a sequence of lines or paragraphs, in reading order. *)
Definition words_of (lines : list string) : list string :=
  concat (map PyStr.split lines).

(** ** Further definitions: the canvas *)

(** A canvas of the frame's size with all its pixels. *)
Definition framed (width height : Z) (img : canvas) : Prop :=
  PIL.width (pixels img) = width /\ PIL.height (pixels img) = height
  /\ PIL.wf (pixels img).

(** The call returned, it did not raise. *)
Definition is_ok {A : Type} (r : result A) : bool :=
  match r with Ok _ => true | Raise _ => false end.

(** ** Further definitions: the resource manager *)

(** The reasons for which [get_image] finds no image: the name is empty
    or "None"; the kind has no directory; no file of the name exists
    with one of the four extensions; the first such file does not
    decode. *)
Definition image_unavailable `{Host} (name image_type : string) : Prop :=
  PyStr.is_empty name || String.eqb name "None" = true
  \/ (exists e, paths (image_type +:+ "s") = Raise e)
  \/ (exists directory,
        paths (image_type +:+ "s") = Ok directory
        /\ (first_existing directory name image_extensions = None
            \/ exists file_path e,
                 first_existing directory name image_extensions
                 = Some file_path
                 /\ open_rgba file_path = Raise e)).

(** ** SimpleCache (app.py)

    The preview cache: two dicts over the same keys, the values and the
    times of last access. The clock [time.time()] is an argument of each
    operation, one per reading; the lock is not modelled (one caller at a
    time). *)

Module SimpleCache.
Section SimpleCache.
Context {V : Type}.

Record t : Type := {
  cache : list (string * V);
  access_times : list (string * float);
  max_size : Z;
  ttl : float
}.

(** [SimpleCache(max_size, ttl)] *)
Definition init (max_size : Z) (ttl : float) : t :=
  {| cache := []; access_times := []; max_size := max_size; ttl := ttl |}.

Definition with_dicts (self : t) (c : list (string * V))
    (a : list (string * float)) : t :=
  {| cache := c; access_times := a;
     max_size := max_size self; ttl := ttl self |}.

(** [d[key]] *)
Definition item {W : Type} (key : string) (d : list (string * W))
  : result W :=
  match Dict.get key d with
  | Some w => Ok w
  | None => Raise KeyError
  end.

(** [del d[key]] *)
Definition delitem {W : Type} (key : string) (d : list (string * W))
  : result (list (string * W)) :=
  match Dict.get key d with
  | Some _ => Ok (Dict.del key d)
  | None => Raise KeyError
  end.

(** [get(key)]; [now] is the clock at the test, [now'] at the update. *)
Definition get (self : t) (key : string) (now now' : float)
  : result (option V) * t :=
  match Dict.get key (cache self) with
  | Some v =>
      match item key (access_times self) with
      | Raise e => (Raise e, self)
      | Ok accessed =>
          if PrimFloat.ltb (PrimFloat.sub now accessed) (ttl self) then
            (Ok (Some v),
             with_dicts self (cache self)
               (Dict.set key now' (access_times self)))
          else
            match delitem key (cache self) with
            | Raise e => (Raise e, self)
            | Ok c =>
                match delitem key (access_times self) with
                | Raise e => (Raise e, with_dicts self c (access_times self))
                | Ok a => (Ok None, with_dicts self c a)
                end
            end
      end
  | None => (Ok None, self)
  end.

(** [min(keys, key=lambda k: times[k])]: the first key whose time no
    other key's time is less than. *)
Fixpoint min_from (best : string) (best_time : float)
    (rest : list (string * float)) : string :=
  match rest with
  | [] => best
  | (k, time) :: rest' =>
      if PrimFloat.ltb time best_time then min_from k time rest'
      else min_from best best_time rest'
  end.

Definition oldest_key (times : list (string * float)) : result string :=
  match times with
  | [] => Raise ValueError
  | (k, time) :: rest => Ok (min_from k time rest)
  end.

(** [set(key, value)]; [now] is the clock at the update. *)
Definition set (self : t) (key : string) (value : V) (now : float)
  : result unit * t :=
  let store (c : list (string * V)) (a : list (string * float)) :=
    (Ok tt, with_dicts self (Dict.set key value c) (Dict.set key now a)) in
  if Z.of_nat (length (cache self)) >=? max_size self then
    match oldest_key (access_times self) with
    | Raise e => (Raise e, self)
    | Ok oldest =>
        match delitem oldest (cache self) with
        | Raise e => (Raise e, self)
        | Ok c =>
            match delitem oldest (access_times self) with
            | Raise e => (Raise e, with_dicts self c (access_times self))
            | Ok a => store c a
            end
        end
    end
  else store (cache self) (access_times self).

Definition clear (self : t) : t := with_dicts self [] [].

(** The two dicts hold the same keys in the same order, each once. *)
Definition aligned (self : t) : Prop :=
  Dict.keys (cache self) = Dict.keys (access_times self)
  /\ NoDup (Dict.keys (cache self)).

End SimpleCache.
Arguments t : clear implicits.
End SimpleCache.

(** ** Python's [int(str, base)] and [int / int]

    [PyLong_FromUnicodeObject] and [PyLong_FromString] of CPython, on the
    strings of code points below 256 and for an explicit base. Every
    failure is a [ValueError]. *)

Module PyInt.

(** [Py_ISSPACE] *)
Definition c_isspace (c : ascii) : bool :=
  let n := Z.of_N (N_of_ascii c) in
  ((9 <=? n) && (n <=? 13)) || (n =? 32).

(** [_PyLong_DigitValue]: 37 for a character that is a digit in no base. *)
Definition digit_value (c : ascii) : Z :=
  let n := Z.of_N (N_of_ascii c) in
  if (48 <=? n) && (n <=? 57) then n - 48
  else if (97 <=? n) && (n <=? 122) then n - 87
  else if (65 <=? n) && (n <=? 90) then n - 55
  else 37.

Fixpoint is_ascii (s : string) : bool :=
  match s with
  | EmptyString => true
  | String c s' => (Z.of_N (N_of_ascii c) <? 128) && is_ascii s'
  end.

(** The loop of [_PyUnicode_TransformDecimalAndSpaceToASCII]: a space
    becomes " "; below 256 no other character from 127 on is a decimal
    digit, so it becomes "?" and the rest is cut. *)
Fixpoint transform (s : string) : string :=
  match s with
  | EmptyString => EmptyString
  | String c s' =>
      if Z.of_N (N_of_ascii c) <? 127 then String c (transform s')
      else if PyStr.isspace c then String " " (transform s')
      else String "?" EmptyString
  end.

Definition to_ascii (s : string) : string :=
  if is_ascii s then s else transform s.

Fixpoint skip_space (s : string) : string :=
  match s with
  | String c s' => if c_isspace c then skip_space s' else s
  | EmptyString => s
  end.

(** The scan of digits and underscores: the value and the number of the
    digits read and the rest of the string; no result for an underscore
    that follows an underscore or ends the scan. *)
Fixpoint scan (base : Z) (prev_underscore : bool) (value digits : Z)
    (s : string) : option (Z * Z * string) :=
  let stop := if prev_underscore then None else Some (value, digits, s) in
  match s with
  | EmptyString => stop
  | String c s' =>
      if Ascii.eqb c "_" then
        if prev_underscore then None else scan base true value digits s'
      else if digit_value c <? base then
        scan base false (value * base + digit_value c) (digits + 1) s'
      else stop
  end.

Definition sign (s : string) : bool * string :=
  match s with
  | String "+" s' => (false, s')
  | String "-" s' => (true, s')
  | _ => (false, s)
  end.

(** The prefix "0x" of base 16, and the one underscore allowed after it. *)
Definition prefix (base : Z) (s : string) : string :=
  match s with
  | String "0" (String c s') =>
      if (base =? 16) && (Ascii.eqb c "x" || Ascii.eqb c "X") then
        match s' with
        | String "_" s'' => s''
        | _ => s'
        end
      else s
  | _ => s
  end.

Definition leading_underscore (s : string) : bool :=
  match s with
  | String "_" _ => true
  | _ => false
  end.

(** [_PY_LONG_MAX_STR_DIGITS_THRESHOLD] *)
Definition max_str_digits_threshold : Z := 640.

(** The limit on the digits of a base that is no power of two;
    [max_str_digits] is [sys.get_int_max_str_digits()], 0 for no limit. *)
Definition too_many_digits (max_str_digits base digits : Z) : bool :=
  negb (Z.land base (base - 1) =? 0)
  && (max_str_digits_threshold <? digits)
  && (0 <? max_str_digits) && (max_str_digits <? digits).

(** [PyLong_FromString(s, &end, base)] with the test that [end] is the
    end of the string, for a base from 2 to 36. *)
Definition from_string (max_str_digits base : Z) (s : string) : result Z :=
  let '(negative, s1) := sign (skip_space s) in
  let s2 := prefix base s1 in
  if leading_underscore s2 then Raise ValueError
  else
    match scan base false 0 0 s2 with
    | None => Raise ValueError
    | Some (value, digits, rest) =>
        if digits =? 0 then Raise ValueError
        else if negb (PyStr.is_empty (skip_space rest)) then Raise ValueError
        else if too_many_digits max_str_digits base digits
        then Raise ValueError
        else Ok (if negative then - value else value)
    end.

(** [int(s, base)] and [int(s)] for a [str]. *)
Definition of_str (max_str_digits base : Z) (s : string) : result Z :=
  from_string max_str_digits base (to_ascii s).

Definition Z2SF (n : Z) : spec_float :=
  match n with
  | Z0 => S754_zero false
  | Zpos p => S754_finite false p 0
  | Zneg p => S754_finite true p 0
  end.

(** [a / b] for two ints, [b] positive: the double nearest to the
    quotient, ties to even. *)
Definition truediv (a b : Z) : result float :=
  let f := SF2Prim (SFdiv prec emax (Z2SF a) (Z2SF b)) in
  if PrimFloat.is_infinity f then Raise OverflowError else Ok f.

End PyInt.

(** ** The settings of a request (app.py)

    [form_data] is the dict of the posted form, a [gmap] from field names
    to strings. The generator and the resource manager, globals of the
    module, are arguments and results. *)

Class Interpreter : Type := {
  (** [sys.get_int_max_str_digits()], 0 for no limit *)
  int_max_str_digits : Z
}.

Module Settings.
Record t : Type := {
  text : string;
  filename_base : string;
  text_color : PIL.rgba;
  text_alignment : string;
  font_name : string;
  font_size : Z;
  text_margins : Z;
  text_x_offset : Z;
  text_y_offset : Z;
  line_spacing_factor : float;
  text_stroke_enabled : bool;
  text_stroke_width : Z;
  text_stroke_color : PIL.rgba;
  text_box_enabled : bool;
  text_box_color : PIL.rgba;
  text_box_padding : Z;
  text_box_opacity : Z;
  background_color : PIL.rgba;
  background_opacity : Z;
  background_image_enabled : bool;
  background_image : string;
  bg_image_scale : Z;
  bg_image_x_offset : Z;
  bg_image_y_offset : Z;
  pattern_enabled : bool;
  pattern_overlay : string;
  pattern_color_enabled : bool;
  pattern_color : PIL.rgba;
  pattern_opacity : Z;
  pattern_scale : Z;
  pattern_x_offset : Z;
  pattern_y_offset : Z;
  start_number : Z;
  batch_count : Z
}.
End Settings.

(** The lists of names that [_scan_resources] leaves in the resource
    manager. *)
Record ResourceLists : Type := {
  _background_names : list string;
  _pattern_names : list string;
  _font_names : list string
}.

Definition get_background_names (names : ResourceLists) : list string :=
  _background_names names.

Definition get_pattern_names (names : ResourceLists) : list string :=
  _pattern_names names.

Definition get_font_names (names : ResourceLists) : list string :=
  _font_names names.

(** [form_data.get(key, default)] *)
Definition form_get (form_data : gmap string string) (key default : string)
  : string :=
  match form_data !! key with
  | Some value => value
  | None => default
  end.

(** [form_data.get(key) == 'on'] *)
Definition form_on (form_data : gmap string string) (key : string) : bool :=
  match form_data !! key with
  | Some value => String.eqb value "on"
  | None => false
  end.

(** [s[i:j]] for [0 <= i <= j] *)
Definition slice (i j : nat) (s : string) : string :=
  String.substring i (j - i) s.

Definition white : PIL.rgba := (255, 255, 255, 255).

Section Settings.
Context `{Interpreter}.

(** [safe_int]; [int(None)] raises a [TypeError]. *)
Definition safe_int (value : option string) (default : Z) : result Z :=
  match value with
  | None => Ok default
  | Some s =>
      match PyInt.of_str int_max_str_digits 10 s with
      | Raise ValueError => Ok default
      | r => r
      end
  end.

Definition hex_to_rgba (hex_color : string) : result PIL.rgba :=
  match hex_color with
  | String "#" hex_color =>
      match
        r ← PyInt.of_str int_max_str_digits 16 (slice 0 2 hex_color);
        g ← PyInt.of_str int_max_str_digits 16 (slice 2 4 hex_color);
        b ← PyInt.of_str int_max_str_digits 16 (slice 4 6 hex_color);
        mret (r, g, b, 255)
      with
      | Raise ValueError => Ok white
      | rgba => rgba
      end
  | _ => Ok white
  end.

Definition parse_settings (form_data : gmap string string)
  : result Settings.t :=
  let get := form_get form_data in
  text_color ← hex_to_rgba (get "text_color" "#ffffff");
  font_size ← safe_int (form_data !! "font_size") 100;
  text_margins ← safe_int (form_data !! "text_margins") 100;
  text_x_offset ← safe_int (form_data !! "text_x_offset") 0;
  text_y_offset ← safe_int (form_data !! "text_y_offset") 0;
  line_spacing ← safe_int (form_data !! "line_spacing_factor") 30;
  line_spacing_factor ← PyFloat.int_truediv line_spacing PyFloat.hundred;
  text_stroke_width ← safe_int (form_data !! "text_stroke_width") 2;
  text_stroke_color ← hex_to_rgba (get "text_stroke_color" "#000000");
  text_box_color ← hex_to_rgba (get "text_box_color" "#000000");
  text_box_padding ← safe_int (form_data !! "text_box_padding") 20;
  text_box_opacity ← safe_int (form_data !! "text_box_opacity") 100;
  background_color ← hex_to_rgba (get "background_color" "#d73f09");
  background_opacity ← safe_int (form_data !! "background_opacity") 100;
  bg_image_scale ← safe_int (form_data !! "bg_image_scale") 100;
  bg_image_x_offset ← safe_int (form_data !! "bg_image_x_offset") 0;
  bg_image_y_offset ← safe_int (form_data !! "bg_image_y_offset") 0;
  pattern_color ← hex_to_rgba (get "pattern_color" "#ffffff");
  pattern_opacity ← safe_int (form_data !! "pattern_opacity") 100;
  pattern_scale ← safe_int (form_data !! "pattern_scale") 300;
  pattern_x_offset ← safe_int (form_data !! "pattern_x_offset") 0;
  pattern_y_offset ← safe_int (form_data !! "pattern_y_offset") 0;
  start_number ← safe_int (form_data !! "start_number") 1;
  batch_count ← safe_int (form_data !! "batch_count") 1;
  mret {|
    Settings.text := get "text" "Week ^ Overview";
    Settings.filename_base := get "filename_base" "output";
    Settings.text_color := text_color;
    Settings.text_alignment := get "text_alignment" "center";
    Settings.font_name := get "font_name" "Arial";
    Settings.font_size := font_size;
    Settings.text_margins := text_margins;
    Settings.text_x_offset := text_x_offset;
    Settings.text_y_offset := text_y_offset;
    Settings.line_spacing_factor := line_spacing_factor;
    Settings.text_stroke_enabled := form_on form_data "text_stroke_enabled";
    Settings.text_stroke_width := text_stroke_width;
    Settings.text_stroke_color := text_stroke_color;
    Settings.text_box_enabled := form_on form_data "text_box_enabled";
    Settings.text_box_color := text_box_color;
    Settings.text_box_padding := text_box_padding;
    Settings.text_box_opacity := text_box_opacity;
    Settings.background_color := background_color;
    Settings.background_opacity := background_opacity;
    Settings.background_image_enabled :=
      form_on form_data "background_image_enabled";
    Settings.background_image := get "background_image" "None";
    Settings.bg_image_scale := bg_image_scale;
    Settings.bg_image_x_offset := bg_image_x_offset;
    Settings.bg_image_y_offset := bg_image_y_offset;
    Settings.pattern_enabled := form_on form_data "pattern_enabled";
    Settings.pattern_overlay := get "pattern_overlay" "None";
    Settings.pattern_color_enabled :=
      form_on form_data "pattern_color_enabled";
    Settings.pattern_color := pattern_color;
    Settings.pattern_opacity := pattern_opacity;
    Settings.pattern_scale := pattern_scale;
    Settings.pattern_x_offset := pattern_x_offset;
    Settings.pattern_y_offset := pattern_y_offset;
    Settings.start_number := start_number;
    Settings.batch_count := batch_count
  |}.

End Settings.

(** [int(255 * opacity / 100)] *)
Definition box_alpha (opacity : Z) : result Z :=
  x ← PyInt.truediv (255 * opacity) 100; PyFloat.to_int x.

Section Apply.
Context `{Host}.

(** The generator when the text settings and the first three of the
    accessibility settings have been assigned. *)
Definition text_settings_applied (settings : Settings.t)
    (generator : ThumbnailGenerator) : ThumbnailGenerator := {|
  background_image := background_image generator;
  background_color := background_color generator;
  background_opacity := background_opacity generator;
  bg_image_scale := bg_image_scale generator;
  bg_image_x_offset := bg_image_x_offset generator;
  bg_image_y_offset := bg_image_y_offset generator;
  current_pattern := current_pattern generator;
  pattern_opacity := pattern_opacity generator;
  pattern_scale := pattern_scale generator;
  pattern_x_offset := pattern_x_offset generator;
  pattern_y_offset := pattern_y_offset generator;
  pattern_color := pattern_color generator;
  pattern_color_enabled := pattern_color_enabled generator;
  text_color := Settings.text_color settings;
  text_alignment := Settings.text_alignment settings;
  text_margins := Settings.text_margins settings;
  text_x_offset := Settings.text_x_offset settings;
  text_y_offset := Settings.text_y_offset settings;
  line_spacing_factor := Settings.line_spacing_factor settings;
  text_stroke_width :=
    if Settings.text_stroke_enabled settings
    then Settings.text_stroke_width settings else 0;
  text_stroke_color := Settings.text_stroke_color settings;
  text_box_enabled := Settings.text_box_enabled settings;
  text_box_color := text_box_color generator;
  text_box_padding := text_box_padding generator;
  font_name := Settings.font_name settings;
  font_size := Settings.font_size settings;
  filename_base := filename_base generator
|}.

(** The image [apply_settings] assigns to [generator.background_image]. *)
Definition chosen_background (settings : Settings.t) (names : ResourceLists)
    (rm : ResourceManager) : option PIL.image * ResourceManager :=
  if Settings.background_image_enabled settings then
    let bg_img := Settings.background_image settings in
    if negb (PyStr.is_empty bg_img)
       && negb (str_in bg_img ["None"; "Custom"; ""]%string)
    then get_background_image rm bg_img
    else
      match get_background_names names with
      | first :: _ => get_background_image rm first
      | [] => (None, rm)
      end
  else (None, rm).

(** The image [apply_settings] assigns to [generator.current_pattern]. *)
Definition chosen_pattern (settings : Settings.t) (rm : ResourceManager)
  : option PIL.image * ResourceManager :=
  if Settings.pattern_enabled settings then
    let pattern := Settings.pattern_overlay settings in
    if negb (PyStr.is_empty pattern) then get_pattern_image rm pattern
    else (None, rm)
  else (None, rm).

(** [apply_settings]: the outcome, the generator and the resource manager
    it leaves. The one statement that can raise is the alpha of the text
    box. *)
Definition apply_settings (settings : Settings.t)
    (generator : ThumbnailGenerator) (names : ResourceLists)
    (rm : ResourceManager)
  : result unit * ThumbnailGenerator * ResourceManager :=
  let generator := text_settings_applied settings generator in
  let box_color := Settings.text_box_color settings in
  let opacity := Settings.text_box_opacity settings in
  match box_alpha opacity with
  | Raise e => (Raise e, generator, rm)
  | Ok alpha =>
      let '(background, rm) := chosen_background settings names rm in
      let '(pattern, rm) := chosen_pattern settings rm in
      (Ok tt,
       {| background_image := background;
          background_color := Settings.background_color settings;
          background_opacity := Settings.background_opacity settings;
          bg_image_scale := Settings.bg_image_scale settings;
          bg_image_x_offset := Settings.bg_image_x_offset settings;
          bg_image_y_offset := Settings.bg_image_y_offset settings;
          current_pattern := pattern;
          pattern_opacity := Settings.pattern_opacity settings;
          pattern_scale := Settings.pattern_scale settings;
          pattern_x_offset := Settings.pattern_x_offset settings;
          pattern_y_offset := Settings.pattern_y_offset settings;
          pattern_color := Settings.pattern_color settings;
          pattern_color_enabled := Settings.pattern_color_enabled settings;
          text_color := text_color generator;
          text_alignment := text_alignment generator;
          text_margins := text_margins generator;
          text_x_offset := text_x_offset generator;
          text_y_offset := text_y_offset generator;
          line_spacing_factor := line_spacing_factor generator;
          text_stroke_width := text_stroke_width generator;
          text_stroke_color := text_stroke_color generator;
          text_box_enabled := text_box_enabled generator;
          text_box_color :=
            (let '(r, g, b, _) := box_color in (r, g, b, alpha));
          text_box_padding := Settings.text_box_padding settings;
          font_name := font_name generator;
          font_size := font_size generator;
          filename_base := Settings.filename_base settings |},
       rm)
  end.

Context `{Interpreter}.

(** The route [/preview] up to the encoding of the image: the canvas or
    the error of the response, and the globals it leaves. *)
Definition preview (form_data : gmap string string)
    (generator : ThumbnailGenerator) (names : ResourceLists)
    (rm : ResourceManager)
  : result canvas * ThumbnailGenerator * ResourceManager :=
  match parse_settings form_data with
  | Raise e => (Raise e, generator, rm)
  | Ok settings =>
      match apply_settings settings generator names rm with
      | (Raise e, generator, rm) => (Raise e, generator, rm)
      | (Ok _, generator, rm) =>
          let text := Settings.text settings in
          let '(r, rm) := generate_thumbnail generator rm text 1 1280 720 in
          (fst <$> r, generator, rm)
      end
  end.

(** [int(form_data.get(key, default))] for an int [default]. *)
Definition form_int (form_data : gmap string string) (key : string)
    (default : Z) : result Z :=
  match form_data !! key with
  | Some value => PyInt.of_str int_max_str_digits 10 value
  | None => Ok default
  end.

(** The route [/generate] up to the archive: its entries or the error of
    the response, and the globals it leaves. *)
Definition generate_batch_route (form_data : gmap string string)
    (generator : ThumbnailGenerator) (names : ResourceLists)
    (rm : ResourceManager)
  : result (list (string * canvas)) * ThumbnailGenerator * ResourceManager :=
  match
    settings ← parse_settings form_data;
    start_number ← form_int form_data "start_number" 1;
    batch_count ← form_int form_data "batch_count" 1;
    mret (settings, start_number, batch_count)
  with
  | Raise e => (Raise e, generator, rm)
  | Ok (settings, start_number, batch_count) =>
      let filename_base := form_get form_data "filename_base" "Thumbnail" in
      let text_template := form_get form_data "text" "Week Overview" in
      match apply_settings settings generator names rm with
      | (Raise e, generator, rm) => (Raise e, generator, rm)
      | (Ok _, generator, rm) =>
          let '(r, rm) :=
            generate_batch generator rm text_template filename_base
              start_number batch_count in
          (r, generator, rm)
      end
  end.

End Apply.

(** ** Forms for the examples *)

(** The literal of 10 ^ 400. *)
Definition huge_number : string :=
  String "1" (string_of_list_ascii (repeat "0"%char 400)).

Definition huge_spacing_form : gmap string string :=
  {[ "line_spacing_factor"%string := huge_number ]}.

Definition malformed_count_form : gmap string string :=
  {[ "batch_count"%string := "3.0"%string ]}.

Definition python_3_11 : Interpreter := {| int_max_str_digits := 4300 |}.

(** The settings of the empty form: every default of [parse_settings]. *)
Definition default_settings : Settings.t := {|
  Settings.text := "Week ^ Overview";
  Settings.filename_base := "output";
  Settings.text_color := (255, 255, 255, 255);
  Settings.text_alignment := "center";
  Settings.font_name := "Arial";
  Settings.font_size := 100;
  Settings.text_margins := 100;
  Settings.text_x_offset := 0;
  Settings.text_y_offset := 0;
  Settings.line_spacing_factor := 0x1.3333333333333p-2%float;
  Settings.text_stroke_enabled := false;
  Settings.text_stroke_width := 2;
  Settings.text_stroke_color := (0, 0, 0, 255);
  Settings.text_box_enabled := false;
  Settings.text_box_color := (0, 0, 0, 255);
  Settings.text_box_padding := 20;
  Settings.text_box_opacity := 100;
  Settings.background_color := (215, 63, 9, 255);
  Settings.background_opacity := 100;
  Settings.background_image_enabled := false;
  Settings.background_image := "None";
  Settings.bg_image_scale := 100;
  Settings.bg_image_x_offset := 0;
  Settings.bg_image_y_offset := 0;
  Settings.pattern_enabled := false;
  Settings.pattern_overlay := "None";
  Settings.pattern_color_enabled := false;
  Settings.pattern_color := (255, 255, 255, 255);
  Settings.pattern_opacity := 100;
  Settings.pattern_scale := 300;
  Settings.pattern_x_offset := 0;
  Settings.pattern_y_offset := 0;
  Settings.start_number := 1;
  Settings.batch_count := 1
|}.

Definition no_resources : ResourceLists :=
  {| _background_names := []; _pattern_names := []; _font_names := [] |}.

(** ** Scanning the resource directories (resource_manager.py)

    [pathlib]'s [suffix] and [stem] of a file name, the listing of a
    directory, and the scan that fills the lists of names and the index of
    font paths. *)

Module Pathlib.

(** [name.rfind('.')], when there is a dot *)
Fixpoint rfind_dot (name : string) : option nat :=
  match name with
  | EmptyString => None
  | String c rest =>
      match rfind_dot rest with
      | Some i => Some (S i)
      | None => if Ascii.eqb c "." then Some 0%nat else None
      end
  end.

(** [0 < i < len(name) - 1] for [i = name.rfind('.')] *)
Definition splits (name : string) : option nat :=
  match rfind_dot name with
  | Some i =>
      if (0 <? i)%nat && (i <? String.length name - 1)%nat then Some i
      else None
  | None => None
  end.

(** [PurePath(name).suffix] *)
Definition suffix (name : string) : string :=
  match splits name with
  | Some i => String.substring i (String.length name - i) name
  | None => ""
  end.

(** [PurePath(name).stem] *)
Definition stem (name : string) : string :=
  match splits name with
  | Some i => String.substring 0 i name
  | None => name
  end.

End Pathlib.

(** The order of [str]: by code point, a proper prefix first. *)
Definition str_le (a b : string) : Prop := String.leb a b = true.

#[global] Instance str_le_dec : RelDecision str_le :=
  fun a b => decide (String.leb a b = true).

(** [sorted(names)] *)
Definition sorted (names : list string) : list string :=
  merge_sort str_le names.

Class Listing : Type := {
  (** the names of the entries that [directory.glob("*")] yields, in the
      order of the file system, up to the entry at which the listing
      fails, if it does *)
  glob : string -> list string
}.

Definition font_extensions : list string := [".ttf"; ".otf"]%string.

Section Scan.
Context `{Host} `{Listing}.

Definition set_font_paths (rm : ResourceManager) (m : gmap string string)
  : ResourceManager :=
  {| _images := _images rm; _fonts := _fonts rm; _font_paths := m;
     get_image_memo := get_image_memo rm;
     get_pil_font_memo := get_pil_font_memo rm |}.

(** [self.paths[key]] for one of the three keys *)
Definition directory (key : string) : string :=
  joinpath (joinpath base_path "static") key.

(** The loop of [_scan_directory] over the listing. *)
Definition scan_names (files extensions : list string) : list string :=
  map Pathlib.stem
    (filter (fun file_name =>
               str_in (PyStr.lower (Pathlib.suffix file_name)) extensions)
       files).

(** [_scan_directory]; a directory that cannot be tested for existence
    counts as missing. *)
Definition _scan_directory (directory_path : string)
    (extensions : list string) : list string :=
  sorted (if path_exists directory_path
          then scan_names (glob directory_path) extensions
          else []).

(** One turn of the loop over [self._font_names]. *)
Definition store_font_path (font_paths : gmap string string)
    (font_name : string) : gmap string string :=
  match first_existing (directory "fonts") font_name font_extensions with
  | Some font_path => <[font_name := font_path]> font_paths
  | None => font_paths
  end.

Definition _scan_resources (rm : ResourceManager)
  : ResourceLists * ResourceManager :=
  let names := {|
    _background_names :=
      _scan_directory (directory "backgrounds") image_extensions;
    _pattern_names := _scan_directory (directory "patterns") image_extensions;
    _font_names := _scan_directory (directory "fonts") font_extensions
  |} in
  (names,
   set_font_paths rm
     (fold_left store_font_path (_font_names names) (_font_paths rm))).

(** [ResourceManager()] *)
Definition init : ResourceLists * ResourceManager := _scan_resources (fresh ∅).

Definition refresh_resources (rm : ResourceManager)
  : ResourceLists * ResourceManager :=
  let rm := set_fonts (set_images rm ∅) [] in
  let '(names, rm) := _scan_resources rm in
  (names, set_get_pil_font_memo (set_get_image_memo rm []) []).

End Scan.

(** A directory of fonts for the examples: two files of one font, one
    with an upper-case extension, and a text file. *)
Definition demo_listing : Listing :=
  {| glob := fun directory =>
       if String.eqb directory "/srv/app/static/fonts"
       then ["Lato.otf"; "notes.txt"; "Lato.ttf"; "Bebas.TTF"]%string
       else [] |}.

(** The files of [demo_listing] as the file system of the host. *)
Definition demo_font_files : list (string * result PIL.image) :=
  [("/srv/app/static/fonts"%string, Raise OSError);
   ("/srv/app/static/fonts/Lato.otf"%string, Raise OSError);
   ("/srv/app/static/fonts/notes.txt"%string, Raise OSError);
   ("/srv/app/static/fonts/Lato.ttf"%string, Raise OSError);
   ("/srv/app/static/fonts/Bebas.TTF"%string, Raise OSError)].
(** * Properties *)

(** ** Python strings *)

Example str_7 : PyStr.str 7 = "7"%string.
Proof. reflexivity. Qed.

Example str_0 : PyStr.str 0 = "0"%string.
Proof. reflexivity. Qed.

Example str_neg : PyStr.str (-12) = "-12"%string.
Proof. reflexivity. Qed.

Example split_ex : PyStr.split "  ab  c d "%string = ["ab"; "c"; "d"]%string.
Proof. reflexivity. Qed.

Example split_on_ex :
  PyStr.split_on "/"%char "a//b/"%string = ["a"; ""; "b"; ""]%string.
Proof. reflexivity. Qed.

Example lower_ex : PyStr.lower "ImPaCt"%string = "impact"%string.
Proof. reflexivity. Qed.

Lemma has_space_snoc (s : string) (c : ascii) :
  PyStr.has_space (s +:+ String c EmptyString)
  = PyStr.has_space s || PyStr.isspace c.
Proof.
  unfold PyStr.has_space.
  induction s as [|d s IH]; simpl.
  - now rewrite orb_false_r.
  - rewrite IH. now rewrite orb_assoc.
Qed.

Lemma snoc_not_empty (s : string) (c : ascii) :
  s +:+ String c EmptyString <> EmptyString.
Proof. destruct s; discriminate. Qed.

Lemma split_from_words (s cur : string) :
  PyStr.has_space cur = false ->
  Forall is_word (PyStr.split_from cur s).
Proof.
  revert cur.
  induction s as [|c s IH]; intros cur Hcur; simpl.
  - destruct cur; simpl; constructor; [|constructor].
    split; [discriminate | exact Hcur].
  - destruct (PyStr.isspace c) eqn:Hc.
    + destruct cur; simpl.
      * now apply IH.
      * constructor; [split; [discriminate | exact Hcur] | now apply IH].
    + apply IH. rewrite has_space_snoc, Hcur, Hc. reflexivity.
Qed.

Lemma split_words (s : string) : Forall is_word (PyStr.split s).
Proof. now apply split_from_words. Qed.

Lemma split_all_space (s : string) :
  PyStr.all_space s = true -> PyStr.split s = [].
Proof.
  unfold PyStr.all_space, PyStr.split.
  induction s as [|c s IH]; simpl; [reflexivity|].
  intros [Hc Hs]%andb_true_iff. rewrite Hc. simpl. now apply IH.
Qed.

Lemma split_on_not_nil (sep : ascii) (s : string) : PyStr.split_on sep s <> [].
Proof.
  induction s as [|c s IH]; simpl; [discriminate|].
  destruct (Ascii.eqb c sep); [discriminate|].
  destruct (PyStr.split_on sep s); [contradiction | discriminate].
Qed.

(** Splitting at a separator splits the list of pieces. *)
Lemma split_on_app (sep : ascii) (a b : string) :
  PyStr.split_on sep (a +:+ String sep b)
  = PyStr.split_on sep a ++ PyStr.split_on sep b.
Proof.
  induction a as [|c a IH]; simpl.
  - now rewrite Ascii.eqb_refl.
  - destruct (Ascii.eqb c sep); [now rewrite IH|].
    rewrite IH.
    pose proof (split_on_not_nil sep a) as Hne.
    destruct (PyStr.split_on sep a); [contradiction | reflexivity].
Qed.

Lemma split_on_all_space (s : string) :
  PyStr.all_space s = true ->
  Forall (fun p => PyStr.all_space p = true) (PyStr.split_on newline s).
Proof.
  unfold PyStr.all_space.
  induction s as [|c s IH]; simpl.
  - intros _. now constructor.
  - intros [Hc Hs]%andb_true_iff. specialize (IH Hs).
    destruct (Ascii.eqb c newline).
    + now constructor.
    + destruct (PyStr.split_on newline s) as [|w ws].
      * constructor; [simpl; now rewrite Hc | constructor].
      * inversion IH as [|? ? Hw Hws]; subst.
        constructor; [|assumption]. simpl. now rewrite Hc.
Qed.

(** ** Text wrapping *)

Section WrapFacts.
Context `{Host}.
Variables (f : font) (max_width : Z).

Lemma word_line_ok (w : string) : is_word w -> fits_or_single_word f max_width w.
Proof.
  intros Hw. unfold fits_or_single_word.
  destruct (Z_le_gt_dec (text_width f w) max_width); [left | right]; auto.
  split; [assumption | lia].
Qed.

Lemma wrap_word_inv (st : list string * list string) (word : string) :
  is_word word -> wrap_inv f max_width st -> wrap_inv f max_width (wrap_word f max_width st word).
Proof.
  intros Hw [Hp Hc]. destruct st as [processed current]. simpl in *.
  unfold wrap_word.
  destruct (max_width <? text_width f (PyStr.join " " (current ++ [word])))
    eqn:Hwide; simpl.
  - case_bool_decide as Hcur; simpl.
    + subst current. split; [assumption|]. right. simpl.
      now apply word_line_ok.
    + split.
      * apply Forall_app. split; [assumption|].
        constructor; [|constructor]. destruct Hc; [contradiction | assumption].
      * right. simpl. now apply word_line_ok.
  - split; [assumption|]. right. left. apply Z.ltb_ge. exact Hwide.
Qed.

Lemma wrap_words_inv (words : list string) (st : list string * list string) :
  Forall is_word words -> wrap_inv f max_width st ->
  wrap_inv f max_width (fold_left (wrap_word f max_width) words st).
Proof.
  revert st.
  induction words as [|w ws IH]; intros st Hws Hst; simpl; [assumption|].
  inversion Hws; subst. apply IH; [assumption|].
  now apply wrap_word_inv.
Qed.

Lemma wrap_paragraph_fits (processed : list string) (line : string) :
  Forall (fits_or_single_word f max_width) processed ->
  Forall (fits_or_single_word f max_width) (wrap_paragraph f max_width processed line).
Proof.
  intros Hp. unfold wrap_paragraph.
  pose proof (wrap_words_inv (PyStr.split line) (processed, [])
                (split_words line)) as Hinv.
  destruct (fold_left (wrap_word f max_width) (PyStr.split line)
              (processed, [])) as [p c].
  destruct Hinv as [Hp' Hc']; [split; [assumption | now left]|].
  simpl in *. case_bool_decide as Hcur; [assumption|].
  apply Forall_app. split; [assumption|].
  constructor; [|constructor]. destruct Hc'; [contradiction | assumption].
Qed.

Lemma wrap_lines_fit (text : string) :
  Forall (fits_or_single_word f max_width) (wrap_lines f text max_width).
Proof.
  unfold wrap_lines.
  assert (forall ls acc, Forall (fits_or_single_word f max_width) acc ->
            Forall (fits_or_single_word f max_width)
              (fold_left (wrap_paragraph f max_width) ls acc)) as Hfold.
  { induction ls as [|l ls IH]; intros acc Hacc; simpl; [assumption|].
    apply IH. now apply wrap_paragraph_fits. }
  apply Hfold. constructor.
Qed.

(** The processed lines only ever grow at the end. *)
Lemma wrap_word_acc (p c : list string) (w : string) :
  wrap_word f max_width (p, c) w
  = (p ++ fst (wrap_word f max_width ([], c) w),
     snd (wrap_word f max_width ([], c) w)).
Proof.
  unfold wrap_word.
  destruct ((max_width <? text_width f (PyStr.join " " (c ++ [w])))
            && negb (bool_decide (c = []))); simpl.
  - reflexivity.
  - now rewrite app_nil_r.
Qed.

Lemma wrap_words_acc (words : list string) (p c : list string) :
  fold_left (wrap_word f max_width) words (p, c)
  = (p ++ fst (fold_left (wrap_word f max_width) words ([], c)),
     snd (fold_left (wrap_word f max_width) words ([], c))).
Proof.
  revert p c.
  induction words as [|w ws IH]; intros p c; cbn [fold_left].
  - simpl. now rewrite app_nil_r.
  - rewrite wrap_word_acc.
    destruct (wrap_word f max_width ([], c) w) as [p1 c1]. simpl.
    rewrite (IH (p ++ p1)), (IH p1). simpl.
    now rewrite app_assoc.
Qed.

Lemma wrap_paragraph_acc (p : list string) (line : string) :
  wrap_paragraph f max_width p line
  = p ++ wrap_paragraph f max_width [] line.
Proof.
  unfold wrap_paragraph. rewrite wrap_words_acc.
  destruct (fold_left (wrap_word f max_width) (PyStr.split line) ([], []))
    as [p' c']. simpl.
  case_bool_decide; [reflexivity | now rewrite app_assoc].
Qed.

Lemma wrap_fold_acc (ls : list string) (acc : list string) :
  fold_left (wrap_paragraph f max_width) ls acc
  = acc ++ fold_left (wrap_paragraph f max_width) ls [].
Proof.
  revert acc.
  induction ls as [|l ls IH]; intros acc; simpl.
  - now rewrite app_nil_r.
  - rewrite IH, (IH (wrap_paragraph f max_width [] l)).
    rewrite wrap_paragraph_acc. now rewrite app_assoc.
Qed.

(** A line break is a hard paragraph boundary. *)
Lemma wrap_lines_break (a b : string) :
  wrap_lines f (a +:+ String newline b) max_width
  = wrap_lines f a max_width ++ wrap_lines f b max_width.
Proof.
  unfold wrap_lines. rewrite split_on_app, fold_left_app.
  now rewrite wrap_fold_acc.
Qed.

Lemma wrap_lines_empty : wrap_lines f EmptyString max_width = [].
Proof. reflexivity. Qed.

Lemma wrap_lines_all_space (text : string) :
  PyStr.all_space text = true -> wrap_lines f text max_width = [].
Proof.
  intros Hs%split_on_all_space. unfold wrap_lines.
  induction Hs as [|p ps Hp Hps IH]; simpl; [reflexivity|].
  unfold wrap_paragraph at 2. rewrite (split_all_space p Hp). simpl.
  exact IH.
Qed.

End WrapFacts.

Section WrapNonEmpty.
Context `{Host}.
Variables (f : font) (max_width : Z).

Lemma join_words_not_empty (ws : list string) :
  ws <> [] -> Forall is_word ws -> PyStr.join " " ws <> EmptyString.
Proof.
  intros Hne Hws. destruct ws as [|w ws]; [contradiction|].
  inversion Hws as [|? ? [Hw _] _]; subst.
  destruct w as [|c w]; [contradiction|].
  destruct ws; simpl; discriminate.
Qed.

Lemma wrap_word_words (st : list string * list string) (word : string) :
  is_word word ->
  Forall (fun l => l <> EmptyString) (fst st) /\ Forall is_word (snd st) ->
  Forall (fun l => l <> EmptyString) (fst (wrap_word f max_width st word))
  /\ Forall is_word (snd (wrap_word f max_width st word)).
Proof.
  intros Hw [Hp Hc]. destruct st as [p c]. simpl in *. unfold wrap_word.
  destruct (max_width <? text_width f (PyStr.join " " (c ++ [word]))); simpl.
  - case_bool_decide as Hcur; simpl.
    + subst c. split; [assumption | now constructor].
    + split; [|constructor; [assumption | constructor]].
      apply Forall_app. split; [assumption|].
      constructor; [|constructor]. now apply join_words_not_empty.
  - split; [assumption|]. apply Forall_app. split; [assumption|].
    constructor; [assumption | constructor].
Qed.

Lemma wrap_paragraph_not_empty (processed : list string) (line : string) :
  Forall (fun l => l <> EmptyString) processed ->
  Forall (fun l => l <> EmptyString) (wrap_paragraph f max_width processed line).
Proof.
  intros Hp. unfold wrap_paragraph.
  assert (forall ws st, Forall is_word ws ->
            Forall (fun l => l <> EmptyString) (fst st) /\ Forall is_word (snd st) ->
            Forall (fun l => l <> EmptyString)
              (fst (fold_left (wrap_word f max_width) ws st))
            /\ Forall is_word (snd (fold_left (wrap_word f max_width) ws st)))
    as Hfold.
  { induction ws as [|w ws IH]; intros st Hws Hst; cbn [fold_left]; [assumption|].
    inversion Hws; subst. apply IH; [assumption|]. now apply wrap_word_words. }
  specialize (Hfold (PyStr.split line) (processed, []) (split_words line)).
  destruct (fold_left (wrap_word f max_width) (PyStr.split line) (processed, []))
    as [p c].
  destruct Hfold as [Hp' Hc']; [split; [assumption | constructor]|].
  simpl in *. case_bool_decide as Hcur; [assumption|].
  apply Forall_app. split; [assumption|].
  constructor; [|constructor]. now apply join_words_not_empty.
Qed.

Lemma wrap_lines_not_empty (text : string) :
  Forall (fun l => l <> EmptyString) (wrap_lines f text max_width).
Proof.
  unfold wrap_lines.
  assert (forall ls acc, Forall (fun l => l <> EmptyString) acc ->
            Forall (fun l => l <> EmptyString)
              (fold_left (wrap_paragraph f max_width) ls acc)) as Hfold.
  { induction ls as [|l ls IH]; intros acc Hacc; simpl; [assumption|].
    apply IH. now apply wrap_paragraph_not_empty. }
  apply Hfold. constructor.
Qed.

End WrapNonEmpty.

Lemma wrap_text_lines `{Host} (rm : ResourceManager) (text name : string)
    (size max_width : Z) :
  fst (_wrap_text rm text name size max_width)
  = wrap_lines (fst (get_pil_font rm name size)) text max_width.
Proof.
  unfold _wrap_text. now destruct (get_pil_font rm name size).
Qed.

(** C1: every line that [_wrap_text] returns measures at most [max_width]
    in the font the call resolves, except a line that is one single word
    (no white space in it), which stands alone on its line and may be
    wider than [max_width]. *)
Theorem wrap_text_lines_fit `{Host} (rm : ResourceManager)
    (text name : string) (size max_width : Z) :
  Forall (fits_or_single_word (fst (get_pil_font rm name size)) max_width)
    (fst (_wrap_text rm text name size max_width)).
Proof.
  rewrite wrap_text_lines. apply wrap_lines_fit.
Qed.

(** C10: [_wrap_text] drops empty paragraphs. A text of white space only
    (the empty text included) wraps to no line at all; a blank paragraph
    between two line breaks adds no line; no returned line is empty; so
    the block height of [_add_text], which counts the returned lines, is
    the same with and without the blank paragraph. *)
Theorem wrap_text_drops_empty_paragraphs `{Host} (rm : ResourceManager)
    (name : string) (size max_width : Z) :
  let wrap text := fst (_wrap_text rm text name size max_width) in
  (forall text, PyStr.all_space text = true -> wrap text = [])
  /\ (forall a b,
        wrap (a +:+ String newline (String newline b)) = wrap a ++ wrap b
        /\ wrap (a +:+ String newline b) = wrap a ++ wrap b)
  /\ (forall text, Forall (fun line => line <> EmptyString) (wrap text))
  /\ (forall self a b line_spacing,
        text_height self (wrap (a +:+ String newline (String newline b)))
          line_spacing
        = text_height self (wrap (a +:+ String newline b)) line_spacing).
Proof.
  intros wrap. subst wrap. cbv beta.
  assert (forall a b,
    fst (_wrap_text rm (a +:+ String newline (String newline b)) name size max_width)
    = fst (_wrap_text rm a name size max_width)
      ++ fst (_wrap_text rm b name size max_width)
    /\ fst (_wrap_text rm (a +:+ String newline b) name size max_width)
       = fst (_wrap_text rm a name size max_width)
         ++ fst (_wrap_text rm b name size max_width)) as Hbreak.
  { intros a b. rewrite !wrap_text_lines. split.
    - rewrite wrap_lines_break.
      change (String newline b) with (EmptyString +:+ String newline b).
      now rewrite wrap_lines_break, wrap_lines_empty.
    - apply wrap_lines_break. }
  split; [|split; [|split]].
  - intros text Hs. rewrite wrap_text_lines. now apply wrap_lines_all_space.
  - exact Hbreak.
  - intros text. rewrite wrap_text_lines. apply wrap_lines_not_empty.
  - intros self a b sp. destruct (Hbreak a b) as [-> ->]. reflexivity.
Qed.

Lemma wrap_text_drops_empty_paragraphs_witness :
  fst (@_wrap_text Demo.plain (@fresh Demo.plain ∅) "   " "Arial" 100 60) = []
  /\ fst (@_wrap_text Demo.plain (@fresh Demo.plain ∅) "" "Arial" 100 60) = []
  /\ fst (@_wrap_text Demo.plain (@fresh Demo.plain ∅)
            ("a" +:+ String newline (String newline "b")) "Arial" 100 60)
     = ["a"; "b"]%string.
Proof.
  pose proof (@wrap_text_drops_empty_paragraphs Demo.plain
                (@fresh Demo.plain ∅) "Arial" 100 60) as Hthm.
  cbv zeta in Hthm. destruct Hthm as [Hspace [Hbreak _]].
  split; [|split].
  - apply Hspace. reflexivity.
  - apply Hspace. reflexivity.
  - rewrite (proj1 (Hbreak "a" "b")%string). reflexivity.
Defined.

Example wrap_greedy :
  @wrap_lines Demo.plain "Arial"%string "aaa bbb cc ddddddddd e"%string 60
  = ["aaa"; "bbb cc"; "ddddddddd"; "e"]%string.
Proof. reflexivity. Qed.

(** ** One font per render *)

Section OneFont.
Context `{Host}.

Lemma lru_find_touch {K V : Type} `{EqDecision K} (k : K) (v : V)
    (memo : list (K * V)) :
  Lru.find k (Lru.touch k v memo) = Some v.
Proof. unfold Lru.touch. cbn. now rewrite decide_True. Qed.

Lemma lru_find_store {K V : Type} `{EqDecision K} (n : nat) (k : K) (v : V)
    (memo : list (K * V)) :
  Lru.find k (Lru.store (S n) k v memo) = Some v.
Proof. unfold Lru.store. cbn. now rewrite decide_True. Qed.

(** A second lookup of the same font is answered from the memo. *)
Lemma get_pil_font_again (rm : ResourceManager) (name : string) (size : Z) :
  fst (get_pil_font (snd (get_pil_font rm name size)) name size)
  = fst (get_pil_font rm name size).
Proof.
  unfold get_pil_font at 2 3.
  destruct (Lru.find (name, size) (get_pil_font_memo rm)) as [f|].
  - cbn [fst snd]. unfold get_pil_font.
    cbn [set_get_pil_font_memo get_pil_font_memo].
    now rewrite lru_find_touch.
  - destruct (get_pil_font_body rm name size) as [f rm1]. cbn [fst snd].
    unfold get_pil_font. cbn [set_get_pil_font_memo get_pil_font_memo].
    now rewrite lru_find_store.
Qed.

(** [_add_text] draws the lines wrapped with the font it draws with. *)
Lemma add_text_one_font (self : ThumbnailGenerator) (rm : ResourceManager)
    (img : canvas) (display_text : string) (width height : Z) :
  fst (_add_text self rm img display_text width height)
  = draw_text_block self img
      (fst (get_pil_font rm (font_name self) (font_size self)))
      (wrap_lines (fst (get_pil_font rm (font_name self) (font_size self)))
         display_text (width - text_margins self * 2))
      width height.
Proof.
  unfold _add_text.
  pose proof (get_pil_font_again rm (font_name self) (font_size self))
    as Hagain.
  pose proof (wrap_text_lines
                (snd (get_pil_font rm (font_name self) (font_size self)))
                display_text (font_name self) (font_size self)
                (width - text_margins self * 2)) as Hwrap.
  destruct (get_pil_font rm (font_name self) (font_size self)) as [f rm1].
  cbn [fst snd] in *.
  destruct (_wrap_text rm1 display_text (font_name self) (font_size self)
              (width - text_margins self * 2)) as [lines rm2].
  cbn [fst] in *. now rewrite Hwrap, Hagain.
Qed.

End OneFont.

(** ** File names *)

Lemma generate_batch_loop_names `{Host} (self : ThumbnailGenerator)
    (text_template filename_base : string) (start_number : Z)
    (indices : list Z) :
  forall rm entries rm',
    generate_batch_loop self rm text_template filename_base start_number indices
    = (Ok entries, rm') ->
    map fst entries
    = map (fun i => batch_filename filename_base (start_number + i)) indices.
Proof.
  induction indices as [|i rest IH]; intros rm entries rm' Hrun;
    cbn [generate_batch_loop] in Hrun.
  - injection Hrun as <- _. reflexivity.
  - destruct (generate_thumbnail self rm _ (start_number + i) 1280 720)
      as [[[thumbnail name]|e] rm1]; [|discriminate].
    destruct (generate_batch_loop self rm1 text_template filename_base
                start_number rest) as [[tail|e] rm2] eqn:Hrest;
      [|discriminate].
    injection Hrun as <- _. cbn [map fst]. f_equal.
    exact (IH _ _ _ Hrest).
Qed.

(** C4, as the code has it: the file name a render call returns is the
    generator's filename base followed by the sequence number in decimal,
    with no substitution of the placeholder; the batch route names each
    archive entry itself, replacing the placeholder in its template by the
    number and appending "_<number>.png". *)
Theorem render_filename_appends_number `{Host} (self : ThumbnailGenerator)
    (rm : ResourceManager) :
  (forall text number width height img filename rm',
      generate_thumbnail self rm text number width height
      = (Ok (img, filename), rm') ->
      filename = filename_base self +:+ PyStr.str number)
  /\ (forall text_template template start_number batch_count entries rm',
        generate_batch self rm text_template template start_number batch_count
        = (Ok entries, rm') ->
        map fst entries
        = map (fun i =>
                 PyStr.replace caret (PyStr.str (start_number + i)) template
                 +:+ "_" +:+ PyStr.str (start_number + i) +:+ ".png")
            (seqZ 0 batch_count)).
Proof.
  split.
  - intros text number width height img filename rm' Hrun.
    unfold generate_thumbnail in Hrun.
    destruct (image_layers self width height) as [base|e]; [|discriminate].
    destruct (_add_text self rm base _ width height) as [[out|e] rm1];
      [|discriminate].
    cbn in Hrun. now injection Hrun as _ <- _.
  - intros text_template template start_number batch_count entries rm' Hrun.
    exact (generate_batch_loop_names _ _ _ _ _ _ _ _ Hrun).
Qed.

(** The generator of the examples: the defaults with the filename base
    "Report^". *)
Lemma render_filename_appends_number_witness :
  (fun r => match r with Ok (_, name) => name | Raise _ => EmptyString end)
    (fst (@generate_thumbnail Demo.plain
            (with_text _initialize_defaults "center" false "Report^")
            (@fresh Demo.plain ∅) "Week ^" 7 8 4))
  = "Report^7"%string.
Proof.
  destruct (fst (@generate_thumbnail Demo.plain
                   (with_text _initialize_defaults "center" false "Report^")
                   (@fresh Demo.plain ∅) "Week ^" 7 8 4))
    as [[img name]|e] eqn:Hrun; [|vm_compute in Hrun; discriminate].
  destruct (@generate_thumbnail Demo.plain
              (with_text _initialize_defaults "center" false "Report^")
              (@fresh Demo.plain ∅) "Week ^" 7 8 4) as [r rm'] eqn:Hfull.
  cbn [fst] in Hrun. subst r.
  exact (proj1 (@render_filename_appends_number Demo.plain _ _)
           _ _ _ _ _ _ _ Hfull).
Defined.

(** C4, as stated, fails: with the filename template "Report^" and the
    sequence number 7 the render call returns "Report^7", not "Report7". *)
Lemma render_filename_not_substituted :
  (fun r => match r with Ok (_, name) => Ok name | Raise e => Raise e end)
    (fst (@generate_thumbnail Demo.plain
            (with_text _initialize_defaults "center" false "Report^")
            (@fresh Demo.plain ∅) "Week ^" 7 8 4))
  <> Ok "Report7"%string.
Proof. vm_compute. discriminate. Qed.

Example batch_filename_report :
  @batch_filename "Report^" 7 = "Report7_7.png"%string.
Proof. reflexivity. Qed.

(** ** The order of the layers *)

(** A run of binds that ends in [Ok] went through [Ok] at every step. *)
Ltac inv_bind H :=
  unfold mbind, result_bind, mret, result_ret in H;
  repeat match type of H with
         | context [match ?m with Ok _ => _ | Raise _ => _ end] =>
             let E := fresh "E" in
             destruct m eqn:E; cbn beta iota in H; try discriminate H
         | context [match ?p with pair _ _ => _ end] =>
             destruct p; cbn beta iota in H; try discriminate H
         end.

Section Layers.
Context `{Host}.
Variable self : ThumbnailGenerator.

Lemma add_background_color_history (img out : canvas) (width height : Z) :
  _add_background_color self img width height = Ok out ->
  history out = history img ++ [BackgroundFill].
Proof.
  unfold _add_background_color. intros Hrun. inv_bind Hrun.
  now injection Hrun as <-.
Qed.

Lemma add_background_image_history (img out : canvas) (width height : Z) :
  _add_background_image self img width height = Ok out ->
  history out
  = history img ++ match background_image self with
                   | Some _ => [BackgroundImage]
                   | None => []
                   end.
Proof.
  unfold _add_background_image. intros Hrun.
  destruct (background_image self) as [bg|].
  - inv_bind Hrun. now injection Hrun as <-.
  - injection Hrun as <-. now rewrite app_nil_r.
Qed.

Lemma add_pattern_history (img out : canvas) (width height : Z) :
  _add_pattern self img width height = Ok out ->
  history out
  = history img ++ match current_pattern self with
                   | Some _ => [PatternOverlay]
                   | None => []
                   end.
Proof.
  unfold _add_pattern. intros Hrun.
  destruct (current_pattern self) as [current|].
  - inv_bind Hrun; now injection Hrun as <-.
  - injection Hrun as <-. now rewrite app_nil_r.
Qed.

Lemma draw_text_box_history (img out : canvas) (lines : list string)
    (max_line_width width height y_position : Z) :
  _draw_text_box self img lines max_line_width width height y_position = Ok out ->
  history out = history img ++ [TextBox].
Proof.
  unfold _draw_text_box. intros Hrun.
  destruct (PIL.alpha (text_box_color self) <? 255);
    inv_bind Hrun; try discriminate Hrun; now injection Hrun as <-.
Qed.

Lemma draw_lines_raise (f : font) (width line_spacing : Z)
    (lines : list string) (e : exn) :
  fold_left (draw_line self f width line_spacing) lines (Raise e) = Raise e.
Proof. induction lines as [|l ls IH]; [reflexivity | exact IH]. Qed.

Lemma draw_lines_history (f : font) (width line_spacing : Z)
    (lines : list string) :
  forall img y out y',
    fold_left (draw_line self f width line_spacing) lines (Ok (img, y))
    = Ok (out, y') ->
    history out = history img ++ replicate (length lines) TextGlyphs.
Proof.
  induction lines as [|l ls IH]; intros img y out y' Hrun;
    cbn [fold_left] in Hrun.
  - injection Hrun as <- _. now rewrite app_nil_r.
  - unfold draw_line at 2 in Hrun. cbn in Hrun.
    destruct (draw_text (pixels img) _ l f _ _ _) as [drawn|e];
      unfold mbind, result_bind, mret, result_ret in Hrun;
      cbn beta iota in Hrun.
    + apply IH in Hrun. rewrite Hrun. unfold painted. cbn.
      now rewrite <- app_assoc.
    + now rewrite draw_lines_raise in Hrun.
Qed.

Lemma draw_text_block_history (img out : canvas) (f : font)
    (lines : list string) (width height : Z) :
  draw_text_block self img f lines width height = Ok out ->
  history out
  = history img ++ (if text_box_enabled self then [TextBox] else [])
    ++ replicate (length lines) TextGlyphs.
Proof.
  unfold draw_text_block. intros Hrun. inv_bind Hrun.
  destruct a1 as [final y']. injection Hrun as <-. cbn [fst].
  apply draw_lines_history in E1. rewrite E1.
  destruct (text_box_enabled self).
  - apply draw_text_box_history in E0. rewrite E0. now rewrite <- app_assoc.
  - now injection E0 as <-.
Qed.

End Layers.

Lemma image_layers_history `{Host} (self : ThumbnailGenerator)
    (width height : Z) (img : canvas) :
  image_layers self width height = Ok img ->
  history img
  = [BackgroundFill]
    ++ match background_image self with
       | Some _ => [BackgroundImage]
       | None => []
       end
    ++ match current_pattern self with
       | Some _ => [PatternOverlay]
       | None => []
       end.
Proof.
  unfold image_layers. intros Hrun.
  destruct (PIL.new width height PIL.transparent) as [base|e];
    [|discriminate].
  cbn in Hrun.
  destruct (_add_background_color self (Canvas base []) width height)
    as [c1|e] eqn:Hfill; [|discriminate].
  cbn in Hrun.
  destruct (_add_background_image self c1 width height)
    as [c2|e] eqn:Himage; [|discriminate].
  cbn in Hrun.
  apply add_pattern_history in Hrun.
  apply add_background_image_history in Himage.
  apply add_background_color_history in Hfill.
  rewrite Hrun, Himage, Hfill. cbn [history app].
  rewrite <- ?app_assoc. reflexivity.
Qed.

(** C2: a render that completes has written the layers onto the canvas
    in the fixed order: the background fill first, then the background
    image (when one is set), then the pattern overlay (when one is set),
    then the text box (when enabled), and last the glyphs, one write per
    wrapped line. *)
Theorem layers_in_fixed_order `{Host} (self : ThumbnailGenerator)
    (rm rm' : ResourceManager) (text filename : string)
    (number width height : Z) (img : canvas) :
  generate_thumbnail self rm text number width height
  = (Ok (img, filename), rm') ->
  history img
  = expected_layers self
      (length
         (fst (_wrap_text
                 (snd (get_pil_font rm (font_name self) (font_size self)))
                 (PyStr.replace caret (PyStr.str number) text)
                 (font_name self) (font_size self)
                 (width - text_margins self * 2)))).
Proof.
  unfold generate_thumbnail, _add_text. intros Hrun.
  destruct (image_layers self width height) as [base|e] eqn:Hbase;
    [|discriminate].
  destruct (get_pil_font rm (font_name self) (font_size self)) as [f rm1].
  cbn [snd].
  destruct (_wrap_text rm1 _ (font_name self) (font_size self) _)
    as [lines rm2].
  cbn [fst].
  destruct (draw_text_block self base f lines width height)
    as [out|e] eqn:Htext; [|discriminate].
  cbn in Hrun. injection Hrun as <- _ _.
  apply draw_text_block_history in Htext.
  apply image_layers_history in Hbase.
  rewrite Htext, Hbase. unfold expected_layers.
  rewrite <- ?app_assoc. reflexivity.
Qed.

Lemma layers_in_fixed_order_witness :
  match fst (@generate_thumbnail Demo.plain all_layers (@fresh Demo.plain ∅)
               "Week ^" 7 8 4) with
  | Ok (img, _) =>
      history img
      = [BackgroundFill; BackgroundImage; PatternOverlay; TextBox;
         TextGlyphs; TextGlyphs]
  | Raise _ => False
  end.
Proof.
  destruct (@generate_thumbnail Demo.plain all_layers (@fresh Demo.plain ∅)
              "Week ^" 7 8 4) as [[[img name]|e] rm'] eqn:Hrun; cbn [fst].
  - rewrite (@layers_in_fixed_order Demo.plain _ _ _ _ _ _ _ _ _ Hrun).
    vm_compute. reflexivity.
  - vm_compute in Hrun. discriminate Hrun.
Defined.

(** ** Pixels *)

Lemma clip8_byte (v : Z) : 0 <= PIL.clip8 v <= 255.
Proof. unfold PIL.clip8. lia. Qed.

Lemma over_clear_source (dst src : PIL.rgba) :
  PIL.alpha src = 0 -> PIL.over dst src = dst.
Proof.
  destruct dst as [[[dr dg] db] da], src as [[[sr sg] sb] sa]. cbn.
  now intros ->.
Qed.

Lemma zip_over_clear (dst src : list PIL.rgba) :
  Forall (fun p => PIL.alpha p = 0) src ->
  (length dst <= length src)%nat ->
  PIL.zip_pixels PIL.over dst src = dst.
Proof.
  intros Hclear. revert dst.
  induction Hclear as [|q src Hq Hsrc IH]; intros [|p dst] Hlen;
    cbn in *; try reflexivity; [lia|].
  rewrite (over_clear_source p q Hq), IH; [reflexivity | lia].
Qed.

(** A fully opaque byte pixel over a fully transparent one is itself. *)
Lemma over_channel_opaque (s : Z) :
  0 <= s <= 255 -> PIL.over_channel 32640 0 s 0 = s.
Proof.
  intros Hs.
  assert (forallb (fun s => PIL.over_channel 32640 0 s 0 =? s) (seqZ 0 256)
          = true) as Hall by (vm_compute; reflexivity).
  rewrite forallb_forall in Hall.
  apply Z.eqb_eq, Hall, list_elem_of_In, elem_of_seqZ. lia.
Qed.

Lemma over_opaque_on_transparent (r g b : Z) :
  0 <= r <= 255 -> 0 <= g <= 255 -> 0 <= b <= 255 ->
  PIL.over (0, 0, 0, 0) (r, g, b, 255) = (r, g, b, 255).
Proof.
  intros Hr Hg Hb. unfold PIL.over.
  change (255 =? 0) with false. cbv iota.
  change (255 * 255 * 255 * Z.shiftl 1 PIL.precision_bits
          / (255 * 255 + 0 * (255 - 255))) with 32640.
  change (255 * Z.shiftl 1 PIL.precision_bits - 32640) with 0.
  rewrite !over_channel_opaque by assumption. reflexivity.
Qed.

Lemma zip_replicate (f : PIL.rgba -> PIL.rgba -> PIL.rgba) (n : nat)
    (p q : PIL.rgba) :
  PIL.zip_pixels f (replicate n p) (replicate n q) = replicate n (f p q).
Proof. induction n as [|n IH]; cbn; [reflexivity | now rewrite IH]. Qed.

Lemma nth_replicate_same {A : Type} (n m : nat) (x : A) :
  nth n (replicate m x) x = x.
Proof.
  revert n. induction m as [|m IH]; intros [|n]; cbn; auto.
Qed.

Lemma point_alpha_zero_clear (im : PIL.image) :
  Forall (fun p => PIL.alpha p = 0)
    (PIL.data (PIL.point_alpha (replicate 256 0) im)).
Proof.
  unfold PIL.point_alpha. cbn [PIL.data]. apply Forall_map, Forall_forall.
  intros [[[r g] b] a] _. cbn [PIL.alpha].
  now rewrite nth_replicate_same.
Qed.

Lemma apply_opacity_zero (im : PIL.image) :
  apply_opacity 0 im = Ok (PIL.point_alpha (replicate 256 0) im).
Proof.
  unfold apply_opacity. change (0 <? 100) with true. cbv iota.
  assert (PyFloat.int_truediv 0 PyFloat.hundred = Ok 0%float) as ->
    by (vm_compute; reflexivity).
  unfold mbind, result_bind. cbv beta iota.
  assert (opacity_lut 0%float = Ok (replicate 256 0)) as ->
    by (vm_compute; reflexivity).
  reflexivity.
Qed.

Lemma image_eta (im : PIL.image) :
  PIL.Image (PIL.width im) (PIL.height im) (PIL.data im) = im.
Proof. now destruct im. Qed.

(** ** The pattern layer at opacity 0 *)

Lemma paste_size (dst src mask : PIL.image) (pos : Z * Z) :
  PIL.width (PIL.paste dst src pos mask) = PIL.width dst
  /\ PIL.height (PIL.paste dst src pos mask) = PIL.height dst
  /\ length (PIL.data (PIL.paste dst src pos mask)) = length (PIL.data dst).
Proof.
  destruct pos as [px py]. unfold PIL.paste. cbn.
  now rewrite length_imap.
Qed.

Lemma tint_size (color : PIL.rgba) (im : PIL.image) :
  PIL.width (PIL.tint color im) = PIL.width im
  /\ PIL.height (PIL.tint color im) = PIL.height im
  /\ length (PIL.data (PIL.tint color im)) = length (PIL.data im).
Proof.
  unfold PIL.tint. destruct (PIL.ink color) as [[[tr tg] tb] ta]. cbn.
  now rewrite length_map.
Qed.

(** Compositing a layer whose alpha was scaled by the factor 0 leaves
    the destination as it was. *)
Lemma composite_opacity_zero (dst layer_canvas : PIL.image) :
  PIL.wf dst ->
  PIL.width layer_canvas = PIL.width dst ->
  PIL.height layer_canvas = PIL.height dst ->
  length (PIL.data layer_canvas) = length (PIL.data dst) ->
  (faded ← apply_opacity 0 layer_canvas; PIL.alpha_composite dst faded)
  = Ok dst.
Proof.
  intros Hwf Hw Hh Hlen. rewrite apply_opacity_zero.
  unfold mbind, result_bind, PIL.alpha_composite. cbn [PIL.point_alpha PIL.width PIL.height].
  rewrite Hw, Hh, !Z.eqb_refl. cbn [andb].
  rewrite zip_over_clear.
  - now rewrite image_eta.
  - apply point_alpha_zero_clear.
  - unfold PIL.point_alpha. cbn [PIL.data]. rewrite length_map. lia.
Qed.

(** C9: on every canvas and for every pattern that scales to a bitmap,
    the pattern layer at opacity 0 completes and leaves every pixel of
    the canvas as it was, which is what the render without a pattern
    does: the alpha of the layer is scaled to 0 and alpha-over with a
    source of alpha 0 copies the destination. *)
Theorem pattern_opacity_zero_is_identity `{Host}
    (self : ThumbnailGenerator) (p : PIL.image) (img : canvas)
    (width height : Z) (scaled : PIL.image * Z * Z) :
  PIL.wf (pixels img) ->
  PIL.width (pixels img) = width ->
  PIL.height (pixels img) = height ->
  scaled_pattern self p = Ok scaled ->
  _add_pattern (with_pattern self (Some p) 0) img width height
  = Ok (painted PatternOverlay img (pixels img))
  /\ _add_pattern (with_pattern self None 0) img width height = Ok img.
Proof.
  intros Hwf Hw Hh Hscaled. split; [|reflexivity].
  unfold _add_pattern. cbn [current_pattern with_pattern pattern_opacity
    pattern_x_offset pattern_y_offset pattern_color_enabled pattern_color].
  change (scaled_pattern (with_pattern self (Some p) 0) p)
    with (scaled_pattern self p).
  rewrite Hscaled. destruct scaled as [[pattern new_width] new_height].
  unfold mbind at 1, result_bind at 1. cbv beta iota.
  pose proof Hwf as (Hw0 & Hh0 & Hlen). rewrite Hw in Hw0. rewrite Hh in Hh0.
  unfold PIL.new.
  replace ((width <? 0) || (height <? 0)) with false
    by (symmetry; apply orb_false_iff; split; apply Z.ltb_ge; lia).
  unfold mbind at 1, result_bind at 1. cbv beta iota.
  match goal with
  | |- context [apply_opacity 0 ?c] =>
      assert (PIL.width c = PIL.width (pixels img)
              /\ PIL.height c = PIL.height (pixels img)
              /\ length (PIL.data c) = length (PIL.data (pixels img)))
        as (Hcw & Hch & Hcl);
      [| pose proof (composite_opacity_zero (pixels img) c Hwf Hcw Hch Hcl)
           as Hcomp ]
  end.
  - destruct (pattern_color_enabled self).
    + destruct (tint_size (clear (pattern_color self))
                  (PIL.paste
                     (PIL.Image width height
                        (replicate (Z.to_nat (width * height))
                           (PIL.ink PIL.transparent)))
                     pattern
                     ((width - new_width) `div` 2 + pattern_x_offset self,
                      (height - new_height) `div` 2 + pattern_y_offset self)
                     pattern)) as (-> & -> & ->).
      destruct (paste_size
                  (PIL.Image width height
                     (replicate (Z.to_nat (width * height))
                        (PIL.ink PIL.transparent)))
                  pattern pattern
                  ((width - new_width) `div` 2 + pattern_x_offset self,
                   (height - new_height) `div` 2 + pattern_y_offset self))
        as (-> & -> & ->).
      cbn. rewrite length_replicate, Hlen, Hw, Hh. auto.
    + destruct (paste_size
                  (PIL.Image width height
                     (replicate (Z.to_nat (width * height))
                        (PIL.ink PIL.transparent)))
                  pattern pattern
                  ((width - new_width) `div` 2 + pattern_x_offset self,
                   (height - new_height) `div` 2 + pattern_y_offset self))
        as (-> & -> & ->).
      cbn. rewrite length_replicate, Hlen, Hw, Hh. auto.
  - unfold mbind, result_bind in Hcomp |- *.
    destruct (apply_opacity 0 _) as [faded|e]; [|discriminate Hcomp].
    rewrite Hcomp. reflexivity.
Qed.

Lemma pattern_opacity_zero_is_identity_witness :
  @_add_pattern Demo.plain
    (with_pattern _initialize_defaults (Some (dot 10 10 (0, 0, 0, 128))) 0)
    (Canvas (dot 8 4 (1, 2, 3, 255)) [BackgroundFill]) 8 4
  = Ok (Canvas (dot 8 4 (1, 2, 3, 255)) [BackgroundFill; PatternOverlay]).
Proof.
  refine (proj1 (@pattern_opacity_zero_is_identity Demo.plain
                   _initialize_defaults (dot 10 10 (0, 0, 0, 128))
                   (Canvas (dot 8 4 (1, 2, 3, 255)) [BackgroundFill]) 8 4
                   (dot 4 4 (0, 0, 0, 128), 4, 4) _ _ _ _)).
  - repeat split; cbn; lia.
  - reflexivity.
  - reflexivity.
  - vm_compute. reflexivity.
Defined.

(** With opacity 30 the same layer does change the canvas. *)
Example pattern_opacity_30_changes :
  @_add_pattern Demo.plain
    (with_pattern _initialize_defaults (Some (dot 10 10 (0, 0, 0, 128))) 30)
    (Canvas (dot 8 4 (200, 100, 50, 255)) [BackgroundFill]) 8 4
  <> Ok (Canvas (dot 8 4 (200, 100, 50, 255)) [BackgroundFill; PatternOverlay]).
Proof. vm_compute. discriminate. Qed.

(** ** The background fill *)

Lemma background_fill_pixels `{Host} (self : ThumbnailGenerator)
    (width height : Z) :
  (base ← PIL.new width height PIL.transparent;
   _add_background_color self (Canvas base []) width height)
  = if (width <? 0) || (height <? 0) then Raise ValueError
    else Ok (Canvas
               (PIL.Image width height
                  (replicate (Z.to_nat (width * height))
                     (PIL.ink (opaque (background_color self)))))
               [BackgroundFill]).
Proof.
  unfold _add_background_color, PIL.new.
  destruct ((width <? 0) || (height <? 0)); [reflexivity|].
  unfold mbind, result_bind, mret, result_ret, PIL.alpha_composite.
  cbn [pixels PIL.width PIL.height PIL.data]. rewrite !Z.eqb_refl.
  cbn [andb]. rewrite zip_replicate.
  destruct (background_color self) as [[[r g] b] a].
  cbn [opaque PIL.ink PIL.transparent].
  change (PIL.clip8 0) with 0. change (PIL.clip8 255) with 255.
  rewrite (over_opaque_on_transparent (PIL.clip8 r) (PIL.clip8 g) (PIL.clip8 b))
    by apply clip8_byte.
  reflexivity.
Qed.

(** C3: without a background image, two renders that differ only in the
    configured background opacity and in the alpha of the configured
    background colour are the same render, canvas and file name; and the
    fill layer puts the colour on every pixel at alpha 255. *)
Theorem background_fill_ignores_opacity `{Host} (self : ThumbnailGenerator)
    (rm : ResourceManager) (text : string) (number width height : Z)
    (r g b a1 a2 opacity1 opacity2 : Z) :
  generate_thumbnail (with_background self None (r, g, b, a1) opacity1)
    rm text number width height
  = generate_thumbnail (with_background self None (r, g, b, a2) opacity2)
      rm text number width height
  /\ (base ← PIL.new width height PIL.transparent;
      img ← _add_background_color
              (with_background self None (r, g, b, a1) opacity1)
              (Canvas base []) width height;
      _add_background_image
        (with_background self None (r, g, b, a1) opacity1) img width height)
     = if (width <? 0) || (height <? 0) then Raise ValueError
       else Ok (Canvas
                  (PIL.Image width height
                     (replicate (Z.to_nat (width * height))
                        (PIL.clip8 r, PIL.clip8 g, PIL.clip8 b, 255)))
                  [BackgroundFill]).
Proof.
  split.
  - unfold generate_thumbnail, image_layers.
    unfold _add_background_color, _add_background_image.
    cbn [with_background background_color background_image opaque].
    reflexivity.
  - pose proof (background_fill_pixels
                  (with_background self None (r, g, b, a1) opacity1)
                  width height) as Hfill.
    unfold mbind, result_bind in Hfill |- *.
    destruct (PIL.new width height PIL.transparent) as [base|e].
    + rewrite Hfill. destruct ((width <? 0) || (height <? 0)); reflexivity.
    + exact Hfill.
Qed.

Example background_fill_10_100 :
  @generate_thumbnail Demo.plain
    (with_background _initialize_defaults None (215, 63, 9, 0) 10)
    (@fresh Demo.plain ∅) "Week ^" 1 8 4
  = @generate_thumbnail Demo.plain
      (with_background _initialize_defaults None (215, 63, 9, 255) 100)
      (@fresh Demo.plain ∅) "Week ^" 1 8 4.
Proof. vm_compute. reflexivity. Qed.

(** ** The position of the text box *)

Section TextBox.
Context `{Host}.
Variables (self : ThumbnailGenerator) (f : font) (width : Z).

(** For the three bare alignments and the two compound right ones the
    box starts one padding left of where the rule of the text puts a
    line as wide as the widest one. *)
Lemma box_x_follows_text_rule (line : string) :
  str_in (text_alignment self)
    ["left"; "center"; "right"; "top_right"; "bottom_right"]%string = true ->
  box_x self (text_width f line) width + text_box_padding self
  = _calculate_text_x_position self line f width (Some (text_alignment self)).
Proof.
  unfold str_in, box_x, _calculate_text_x_position. cbn [existsb].
  rewrite !orb_true_iff.
  intros [Ha|[Ha|[Ha|[Ha|[Ha|Ha]]]]]; try discriminate Ha;
    apply String.eqb_eq in Ha; rewrite Ha; cbn; lia.
Qed.

(** For the four other compound alignments the box is placed by the rule
    of the right group. *)
Lemma box_x_compound_uses_right_rule (max_line_width : Z) :
  str_in (text_alignment self)
    ["top_left"; "top_center"; "bottom_left"; "bottom_center"]%string = true ->
  box_x self max_line_width width
  = width - text_margins self - max_line_width - text_box_padding self
    + text_x_offset self.
Proof.
  unfold str_in, box_x. cbn [existsb]. rewrite !orb_true_iff.
  intros [Ha|[Ha|[Ha|[Ha|Ha]]]]; try discriminate Ha;
    apply String.eqb_eq in Ha; rewrite Ha; reflexivity.
Qed.

End TextBox.

(** C5, at the alignment "top_left": on a 1280 pixel frame with the
    default margin 100 and padding 20, the text line "Week 7" (60 pixels
    wide) is drawn at x = 100 by the rule of the left group, but the box
    is placed at x = 1100 by the rule of the right group, and not at 80,
    one padding left of the text. *)
Theorem text_box_misplaced_for_top_left :
  @_calculate_text_x_position Demo.plain
    (with_text _initialize_defaults "top_left" true "output")
    "Week 7" "Arial"%string 1280 (Some "top_left"%string) = 100
  /\ box_x (with_text _initialize_defaults "top_left" true "output")
       (@text_width Demo.plain "Arial"%string "Week 7") 1280 = 1100
  /\ box_x (with_text _initialize_defaults "left" true "output")
       (@text_width Demo.plain "Arial"%string "Week 7") 1280 = 80.
Proof.
  split; [|split].
  - reflexivity.
  - rewrite box_x_compound_uses_right_rule by reflexivity. reflexivity.
  - pose proof (@box_x_follows_text_rule Demo.plain
                  (with_text _initialize_defaults "left" true "output")
                  "Arial"%string 1280 "Week 7" eq_refl) as Hrule.
    cbn in Hrule. cbn. lia.
Qed.

(** ** Downscaling at load *)

Lemma round_aspect_bounds (num den bound : Z) (le_key : Z -> Z -> bool) :
  0 < den -> 1 <= bound -> num <= bound * den ->
  1 <= PIL.round_aspect num den le_key <= bound.
Proof.
  intros Hden Hbound Hnum. unfold PIL.round_aspect.
  assert (num / den <= bound) as Hfloor.
  { apply Z.div_le_upper_bound; lia. }
  assert (- (- num / den) <= bound) as Hceil.
  { assert (- bound <= - num / den); [|lia].
    apply Z.div_le_lower_bound; lia. }
  destruct (le_key _ _); lia.
Qed.

Lemma thumbnail_size_fits (w h x y w' h' : Z) :
  1 <= x -> 1 <= y ->
  PIL.thumbnail_size w h x y = Ok (Some (w', h')) ->
  1 <= w' <= x /\ 1 <= h' <= y.
Proof.
  intros Hx Hy. unfold PIL.thumbnail_size.
  destruct ((w <=? x) && (h <=? y)); [discriminate|].
  destruct ((h <=? 0) || (y <=? 0)) eqn:Hzero; [discriminate|].
  apply orb_false_iff in Hzero as [Hh _]. apply Z.leb_gt in Hh.
  destruct (w * y <=? x * h) eqn:Haspect.
  - apply Z.leb_le in Haspect. intros [= <- <-]. split; [|lia].
    apply round_aspect_bounds; lia.
  - apply Z.leb_gt in Haspect. intros [= <- <-]. split; [lia|].
    apply round_aspect_bounds; nia.
Qed.

Section Downscale.
Context `{Host}.

Lemma resize_size (im out : PIL.image) (w h : Z) (resample : PIL.Resampling) :
  resize im w h resample = Ok out -> PIL.width out = w /\ PIL.height out = h.
Proof.
  unfold resize.
  destruct ((PIL.width im =? w) && (PIL.height im =? h)) eqn:Hsame.
  - apply andb_true_iff in Hsame as [Hw%Z.eqb_eq Hh%Z.eqb_eq].
    now intros [= <-].
  - destruct ((w <? 1) || (h <? 1)); [discriminate|]. now intros [= <-].
Qed.

(** The guarded call of [thumbnail] that [get_image] and
    [upload_background] share. *)
Lemma guarded_thumbnail_fits (im out : PIL.image) :
  (if (max_size <? PIL.width im) || (max_size <? PIL.height im)
   then thumbnail im max_size max_size PIL.LANCZOS
   else Ok im) = Ok out ->
  fits_max_size out.
Proof.
  unfold fits_max_size.
  destruct ((max_size <? PIL.width im) || (max_size <? PIL.height im))
    eqn:Hbig.
  - unfold thumbnail. intros Hrun.
    destruct (PIL.thumbnail_size (PIL.width im) (PIL.height im)
                max_size max_size) as [[[w h]|]|e] eqn:Hsize;
      cbn in Hrun; try discriminate Hrun.
    + apply thumbnail_size_fits in Hsize; [|unfold max_size; lia..].
      apply resize_size in Hrun as [-> ->]. lia.
    + unfold PIL.thumbnail_size in Hsize.
      destruct ((PIL.width im <=? max_size) && (PIL.height im <=? max_size))
        eqn:Hfit.
      * apply andb_true_iff in Hfit as [Hw%Z.leb_le Hh%Z.leb_le].
        injection Hrun as <-. lia.
      * destruct ((PIL.height im <=? 0) || (max_size <=? 0));
          [discriminate Hsize|].
        destruct (PIL.width im * max_size <=? max_size * PIL.height im);
          discriminate Hsize.
  - apply orb_false_iff in Hbig as [Hw%Z.ltb_ge Hh%Z.ltb_ge].
    intros [= <-]. lia.
Qed.

Lemma load_background_fits (name : string) (im : PIL.image) :
  load_image name "background" = Ok (Some im) -> fits_max_size im.
Proof.
  unfold load_image, mbind, result_bind. intros Hrun.
  destruct (paths ("background" +:+ "s")) as [directory|e];
    [|discriminate].
  destruct (first_existing directory name image_extensions) as [file_path|];
    [|discriminate].
  destruct (open_rgba file_path) as [opened|e]; [|discriminate].
  change (String.eqb "background" "background") with true in Hrun.
  cbv iota in Hrun.
  destruct (if (max_size <? PIL.width opened)
               || (max_size <? PIL.height opened)
            then thumbnail opened max_size max_size PIL.LANCZOS
            else Ok opened) as [scaled|e] eqn:Hscaled; [|discriminate].
  injection Hrun as <-.
  exact (guarded_thumbnail_fits opened scaled Hscaled).
Qed.

Lemma load_pattern_native (name : string) (im : PIL.image) :
  load_image name "pattern" = Ok (Some im) ->
  exists file_path, open_rgba file_path = Ok im.
Proof.
  unfold load_image, mbind, result_bind. intros Hrun.
  destruct (paths ("pattern" +:+ "s")) as [directory|e]; [|discriminate].
  destruct (first_existing directory name image_extensions) as [file_path|];
    [|discriminate].
  exists file_path.
  destruct (open_rgba file_path) as [opened|e]; [|discriminate].
  change (String.eqb "pattern" "background") with false in Hrun.
  cbv iota in Hrun. now injection Hrun as <-.
Qed.

Lemma get_image_body_loaded (rm rm' : ResourceManager)
    (name image_type : string) (im : PIL.image) :
  _images rm !! (image_type +:+ "_" +:+ name) = None ->
  get_image_body rm name image_type = (Some im, rm') ->
  load_image name image_type = Ok (Some im).
Proof.
  unfold get_image_body. intros Hmiss.
  destruct (PyStr.is_empty name || String.eqb name "None"); [discriminate|].
  rewrite Hmiss.
  destruct (load_image name image_type) as [[loaded|]|e];
    [|discriminate..].
  now intros [= <- _].
Qed.

End Downscale.

Section LruFacts.
Context {K V : Type} `{EqDecision K}.

Lemma lru_find_remove_other (k k' : K) (memo : list (K * V)) :
  k' <> k -> Lru.find k' (Lru.remove k memo) = Lru.find k' memo.
Proof.
  intros Hne. induction memo as [|[k0 v0] memo IH]; cbn; [reflexivity|].
  destruct (decide (k = k0)) as [<-|Hk].
  - destruct (decide (k' = k)); [contradiction | reflexivity].
  - cbn. destruct (decide (k' = k0)); [reflexivity | exact IH].
Qed.

Lemma lru_find_take (n : nat) (k : K) (v : V) (memo : list (K * V)) :
  Lru.find k (take n memo) = Some v -> Lru.find k memo = Some v.
Proof.
  revert n. induction memo as [|[k0 v0] memo IH]; intros [|n]; cbn;
    try discriminate.
  destruct (decide (k = k0)); [auto | apply IH].
Qed.

End LruFacts.

Lemma append_s_cancel (t u : string) : t +:+ "s" = u +:+ "s" -> t = u.
Proof.
  revert u. induction t as [|c t IH]; intros [|d u]; cbn; intros Heq.
  - reflexivity.
  - injection Heq as _ Heq. destruct u; discriminate Heq.
  - injection Heq as _ Heq. destruct t; discriminate Heq.
  - injection Heq as -> Heq. f_equal. now apply IH.
Qed.

Section BackgroundsFit.
Context `{Host}.

(** Only three kinds of asset have a directory. *)
Lemma paths_kinds (image_type directory : string) :
  paths (image_type +:+ "s") = Ok directory ->
  image_type = "background"%string \/ image_type = "pattern"%string
  \/ image_type = "font"%string.
Proof.
  unfold paths.
  destruct (String.eqb (image_type +:+ "s") "backgrounds") eqn:Hb.
  { apply String.eqb_eq in Hb. left.
    apply append_s_cancel. exact Hb. }
  destruct (String.eqb (image_type +:+ "s") "patterns") eqn:Hp.
  { apply String.eqb_eq in Hp. right. left.
    apply append_s_cancel. exact Hp. }
  destruct (String.eqb (image_type +:+ "s") "fonts") eqn:Hf.
  { apply String.eqb_eq in Hf. right. right.
    apply append_s_cancel. exact Hf. }
  discriminate.
Qed.

Lemma load_image_kinds (name image_type : string) (im : PIL.image) :
  load_image name image_type = Ok (Some im) ->
  image_type = "background"%string \/ image_type = "pattern"%string
  \/ image_type = "font"%string.
Proof.
  unfold load_image, mbind, result_bind.
  destruct (paths (image_type +:+ "s")) as [directory|e] eqn:Hpaths;
    [|discriminate].
  intros _. exact (paths_kinds _ _ Hpaths).
Qed.

Lemma get_image_body_memo (rm : ResourceManager) (name image_type : string) :
  get_image_memo (snd (get_image_body rm name image_type))
  = get_image_memo rm.
Proof.
  unfold get_image_body.
  destruct (PyStr.is_empty name || String.eqb name "None"); [reflexivity|].
  destruct (_images rm !! (image_type +:+ "_" +:+ name)); [reflexivity|].
  destruct (load_image name image_type) as [[image|]|e]; reflexivity.
Qed.

Lemma get_image_body_fits (rm : ResourceManager) (name : string)
    (im : PIL.image) :
  backgrounds_fit rm ->
  fst (get_image_body rm name "background") = Some im ->
  fits_max_size im.
Proof.
  intros [Himages _]. unfold get_image_body.
  destruct (PyStr.is_empty name || String.eqb name "None"); [discriminate|].
  destruct (_images rm !! ("background" +:+ "_" +:+ name)) as [cached|]
    eqn:Hcached.
  - intros [= <-]. exact (Himages _ _ Hcached).
  - destruct (load_image name "background") as [[image|]|e] eqn:Hload;
      try discriminate.
    intros [= <-]. exact (load_background_fits _ _ Hload).
Qed.

Lemma get_image_body_images_fit (rm : ResourceManager)
    (name image_type : string) :
  backgrounds_fit rm ->
  forall n im,
    _images (snd (get_image_body rm name image_type))
    !! ("background" +:+ "_" +:+ n) = Some im ->
    fits_max_size im.
Proof.
  intros [Himages _] n im. unfold get_image_body.
  destruct (PyStr.is_empty name || String.eqb name "None"); [apply Himages|].
  destruct (_images rm !! (image_type +:+ "_" +:+ name)); [apply Himages|].
  destruct (load_image name image_type) as [[image|]|e] eqn:Hload;
    try apply Himages.
  cbn [snd set_images _images]. rewrite lookup_insert.
  case_decide as Hkey; [|apply Himages].
  intros [= <-].
  destruct (load_image_kinds _ _ _ Hload) as [->|[->| ->]].
  - exact (load_background_fits _ _ Hload).
  - discriminate Hkey.
  - discriminate Hkey.
Qed.

Lemma fresh_backgrounds_fit (font_paths : gmap string string) :
  backgrounds_fit (fresh font_paths).
Proof. split; intros name im; cbn; [rewrite lookup_empty|]; discriminate. Qed.

Lemma get_image_backgrounds_fit (rm : ResourceManager)
    (name image_type : string) :
  backgrounds_fit rm -> backgrounds_fit (snd (get_image rm name image_type)).
Proof.
  intros Hinv. pose proof Hinv as [Himages Hmemo]. unfold get_image.
  destruct (Lru.find (name, image_type) (get_image_memo rm)) as [r|]
    eqn:Hfind.
  - cbn [snd]. split; [exact Himages|].
    intros n im. cbn [set_get_image_memo get_image_memo].
    unfold Lru.touch. cbn [Lru.find].
    destruct (decide ((n, "background"%string) = (name, image_type)))
      as [[= <- <-]|Hne].
    + intros [= ->]. exact (Hmemo _ _ Hfind).
    + rewrite lru_find_remove_other by exact Hne. apply Hmemo.
  - pose proof (get_image_body_images_fit rm name image_type Hinv) as Hbody.
    pose proof (get_image_body_memo rm name image_type) as Hsame.
    destruct (get_image_body rm name image_type) as [r rm1] eqn:Hrun.
    cbn [snd fst] in *. split; [exact Hbody|].
    intros n im. cbn [set_get_image_memo get_image_memo].
    intros Hstored%lru_find_take. cbn [Lru.find] in Hstored.
    destruct (decide ((n, "background"%string) = (name, image_type)))
      as [[= <- <-]|Hne].
    + injection Hstored as ->.
      apply (get_image_body_fits rm n im Hinv). now rewrite Hrun.
    + rewrite Hsame in Hstored. exact (Hmemo _ _ Hstored).
Qed.

Lemma get_background_fits (rm rm' : ResourceManager) (name : string)
    (im : PIL.image) :
  backgrounds_fit rm ->
  get_image rm name "background" = (Some im, rm') ->
  fits_max_size im.
Proof.
  intros Hinv. pose proof Hinv as [_ Hmemo]. unfold get_image.
  destruct (Lru.find (name, "background"%string) (get_image_memo rm))
    as [r|] eqn:Hfind.
  - intros [= -> _]. exact (Hmemo _ _ Hfind).
  - pose proof (get_image_body_fits rm name im Hinv) as Hresult.
    destruct (get_image_body rm name "background") as [r rm1].
    intros [= -> _]. now apply Hresult.
Qed.

End BackgroundsFit.

(** C6, as the code has it: a background image is downscaled at load so
    that neither side exceeds 2048 pixels, whether [get_image] loads it
    from the catalogue or [upload_background] from an uploaded file: the
    manager starts with no image, every call of [get_image] keeps all the
    backgrounds it holds within the bound, and so every background it
    returns is within the bound. A pattern is stored as its file
    decodes, at its native size. *)
Theorem backgrounds_downscaled_patterns_native `{Host} :
  (forall font_paths, backgrounds_fit (fresh font_paths))
  /\ (forall rm name image_type,
        backgrounds_fit rm ->
        backgrounds_fit (snd (get_image rm name image_type)))
  /\ (forall rm rm' name im,
        backgrounds_fit rm ->
        get_image rm name "background" = (Some im, rm') ->
        fits_max_size im)
  /\ (forall filepath im,
        upload_background filepath = Ok im -> fits_max_size im)
  /\ (forall rm rm' name im,
        Lru.find (name, "pattern"%string) (get_image_memo rm) = None ->
        _images rm !! ("pattern" +:+ "_" +:+ name) = None ->
        get_image rm name "pattern" = (Some im, rm') ->
        exists file_path, open_rgba file_path = Ok im).
Proof.
  split; [exact fresh_backgrounds_fit|].
  split; [exact get_image_backgrounds_fit|].
  split; [exact get_background_fits|].
  split.
  - intros filepath im. unfold upload_background, mbind, result_bind.
    destruct (open_rgba filepath) as [opened|e]; [|discriminate].
    apply guarded_thumbnail_fits.
  - intros rm rm' name im Hmemo Hmiss Hrun. unfold get_image in Hrun.
    rewrite Hmemo in Hrun.
    destruct (get_image_body rm name "pattern") as [r rm1] eqn:Hbody.
    injection Hrun as -> _.
    apply load_pattern_native with name.
    exact (get_image_body_loaded _ _ _ _ _ Hmiss Hbody).
Qed.

Lemma backgrounds_downscaled_patterns_native_witness :
  match fst (@get_image wide_assets (@fresh wide_assets ∅) "wide" "background") with
  | Some im => fits_max_size im
  | None => False
  end
  /\ match @upload_background wide_assets "uploads/wide.png" with
     | Ok im => fits_max_size im
     | Raise _ => False
     end.
Proof.
  pose proof (@backgrounds_downscaled_patterns_native wide_assets)
    as (Hfresh & _ & Hget & Hupload & _).
  split.
  - destruct (@get_image wide_assets (@fresh wide_assets ∅) "wide" "background")
      as [[im|] rm'] eqn:Hrun; cbn [fst].
    + exact (Hget _ _ _ _ (Hfresh ∅) Hrun).
    + vm_compute in Hrun. discriminate Hrun.
  - destruct (@upload_background wide_assets "uploads/wide.png")
      as [im|e] eqn:Hrun.
    + exact (Hupload _ _ Hrun).
    + vm_compute in Hrun. discriminate Hrun.
Defined.

(** C6, as stated, fails for patterns: a pattern file 2049 pixels wide is
    loaded at 2049 pixels. *)
Lemma pattern_not_downscaled :
  exists im,
    fst (@get_image wide_assets (@fresh wide_assets ∅) "wide" "pattern")
    = Some im
    /\ ~ fits_max_size im.
Proof.
  exists (dot 2049 1 (9, 9, 9, 255)). split.
  - vm_compute. reflexivity.
  - unfold fits_max_size, max_size. cbn. lia.
Qed.

(** The sizes of the spec's example: 4000 by 3000 becomes 2048 by 1536. *)
Example thumbnail_size_4000_3000 :
  PIL.thumbnail_size 4000 3000 2048 2048 = Ok (Some (2048, 1536)).
Proof. reflexivity. Qed.

Example thumbnail_size_wide :
  PIL.thumbnail_size 2049 1 2048 2048 = Ok (Some (2048, 1)).
Proof. reflexivity. Qed.

(** ** Font resolution *)

Section FontLookup.
Context `{Host}.

Lemma try_fallbacks_skip (missing rest : list string) (size : Z) :
  Forall (fun c => truetype c size = Raise OSError) missing ->
  try_fallbacks (missing ++ rest) size = try_fallbacks rest size.
Proof.
  induction 1 as [|c missing Hc _ IH]; cbn; [reflexivity|].
  now rewrite Hc.
Qed.

Lemma get_pil_font_miss (rm : ResourceManager) (font_name : string)
    (size : Z) :
  Lru.find (font_name, size) (get_pil_font_memo rm) = None ->
  Dict.get (font_name +:+ "_" +:+ PyStr.str size) (_fonts rm) = None ->
  fst (get_pil_font rm font_name size) = load_font rm font_name size.
Proof.
  intros Hmemo Hmiss. unfold get_pil_font, get_pil_font_body.
  now rewrite Hmemo, Hmiss.
Qed.

Lemma lower_impact_fallbacks (font_name : string) :
  PyStr.lower font_name = "impact"%string ->
  (exists rest, _get_platform_fallbacks "windows" font_name
                = "C:/Windows/Fonts/impact.ttf"%string
                  :: "impact.ttf"%string :: rest)
  /\ (exists rest, _get_platform_fallbacks "darwin" font_name
                   = "Impact.ttf"%string :: rest).
Proof.
  intros Hlower. unfold _get_platform_fallbacks. rewrite Hlower. cbn.
  split; eexists; reflexivity.
Qed.

End FontLookup.

(** C7, as the code has it: the lookup always yields a font and never
    raises. On a cache miss the font is: for a name in the custom-font
    index, that file, or the built-in default at once when the file does
    not load; for any other name, the system font of that literal name,
    else the first font of the platform's fallback list that is found
    (on Windows and macOS the Impact files come first when the name
    lower-cases to "impact"; the Linux list has no such override), else
    the built-in default, which is also the result as soon as a load
    fails otherwise than by a missing file. *)
Theorem font_lookup_order `{Host} (rm : ResourceManager) (font_name : string)
    (size : Z) :
  (Lru.find (font_name, size) (get_pil_font_memo rm) = None ->
   Dict.get (font_name +:+ "_" +:+ PyStr.str size) (_fonts rm) = None ->
   fst (get_pil_font rm font_name size) = load_font rm font_name size)
  /\ (forall path,
        _font_paths rm !! font_name = Some path ->
        load_font rm font_name size
        = match truetype path size with
          | Ok f => f
          | Raise _ => load_default
          end)
  /\ (_font_paths rm !! font_name = None ->
      (forall f, truetype font_name size = Ok f ->
                 load_font rm font_name size = f)
      /\ (forall e, truetype font_name size = Raise e -> e <> OSError ->
                    load_font rm font_name size = load_default)
      /\ (truetype font_name size = Raise OSError ->
          (forall missing fallback rest f,
              _get_platform_fallbacks system font_name
              = missing ++ fallback :: rest ->
              Forall (fun c => truetype c size = Raise OSError) missing ->
              truetype fallback size = Ok f ->
              load_font rm font_name size = f)
          /\ (forall missing fallback rest e,
                _get_platform_fallbacks system font_name
                = missing ++ fallback :: rest ->
                Forall (fun c => truetype c size = Raise OSError) missing ->
                truetype fallback size = Raise e -> e <> OSError ->
                load_font rm font_name size = load_default)
          /\ (Forall (fun c => truetype c size = Raise OSError)
                 (_get_platform_fallbacks system font_name) ->
              load_font rm font_name size = load_default)))
  /\ (PyStr.lower font_name = "impact"%string ->
      (exists rest, _get_platform_fallbacks "windows" font_name
                    = "C:/Windows/Fonts/impact.ttf"%string
                      :: "impact.ttf"%string :: rest)
      /\ (exists rest, _get_platform_fallbacks "darwin" font_name
                       = "Impact.ttf"%string :: rest))
  /\ _get_platform_fallbacks "linux" font_name
     = _get_platform_fallbacks "linux" "Arial".
Proof.
  split; [apply get_pil_font_miss|].
  split.
  { intros path Hpath. unfold load_font. rewrite Hpath. reflexivity. }
  split.
  { intros Hnone. unfold load_font, _get_system_font. rewrite Hnone.
    split; [|split].
    - intros f ->. reflexivity.
    - intros e -> Hne. destruct e; try reflexivity. contradiction.
    - intros ->. split; [|split].
      + intros missing fallback rest f -> Hmissing Hfound.
        rewrite try_fallbacks_skip by assumption.
        cbn [try_fallbacks]. now rewrite Hfound.
      + intros missing fallback rest e -> Hmissing Hfails Hne.
        rewrite try_fallbacks_skip by assumption.
        cbn [try_fallbacks]. rewrite Hfails.
        destruct e; try reflexivity. contradiction.
      + intros Hmissing.
        rewrite <- (app_nil_r (_get_platform_fallbacks system font_name)).
        rewrite try_fallbacks_skip by assumption. reflexivity. }
  split; [apply lower_impact_fallbacks | reflexivity].
Qed.

Lemma font_lookup_order_witness :
  fst (@get_pil_font liberation_only (@fresh liberation_only ∅) "Arial" 100)
  = "liberation-sans.ttf"%string.
Proof.
  pose proof (@font_lookup_order liberation_only (@fresh liberation_only ∅)
                "Arial" 100) as (Hmiss & _ & Hsystem & _).
  rewrite (Hmiss eq_refl eq_refl).
  destruct (Hsystem eq_refl) as (_ & _ & Hfallbacks).
  destruct (Hfallbacks eq_refl) as (Hfound & _).
  apply (Hfound ["DejaVuSans.ttf"%string] "liberation-sans.ttf"%string
           ["Ubuntu-R.ttf";
            "/usr/share/fonts/truetype/dejavu/DejaVuSans.ttf";
            "/usr/share/fonts/truetype/liberation/LiberationSans-Regular.ttf"
           ]%string).
  - reflexivity.
  - constructor; [reflexivity | constructor].
  - reflexivity.
Defined.

(** C7, as stated, fails in two places. A custom font whose file does
    not load yields the built-in default although the system font of the
    same name is installed: the steps after the first are not tried. And
    on Linux a request for "impact" gets the same fallback list as any
    other name, headed by DejaVuSans. *)
Lemma font_lookup_skips_system_font :
  fst (@get_pil_font broken_custom_font (@fresh broken_custom_font brand_index)
         "Brand" 100)
  <> @resolution_order_spec broken_custom_font
       (@fresh broken_custom_font brand_index) "Brand" 100
  /\ hd EmptyString (_get_platform_fallbacks "linux" "impact")
     = "DejaVuSans.ttf"%string.
Proof.
  split.
  - vm_compute. discriminate.
  - reflexivity.
Qed.

(** ** Cache bounds *)

Section DictFacts.
Context {V : Type}.

Lemma dict_set_length (k : string) (v : V) (d : list (string * V)) :
  (length (Dict.set k v d) <= S (length d))%nat.
Proof.
  induction d as [|[k' v'] d IH]; cbn; [lia|].
  destruct (String.eqb k k'); cbn; lia.
Qed.

Lemma dict_set_new (k : string) (v : V) (d : list (string * V)) :
  Dict.get k d = None -> Dict.set k v d = d ++ [(k, v)].
Proof.
  induction d as [|[k' v'] d IH]; cbn; [reflexivity|].
  destruct (String.eqb k k'); [discriminate|].
  intros Hmiss. now rewrite IH.
Qed.

End DictFacts.

Section CacheFacts.
Context `{Host}.

(** Deleting the first [n] keys in order deletes the first [n] entries:
    each deletion meets its key at the head. *)
Lemma evict_oldest_drop (n : nat) (d : list (string * font)) :
  evict_oldest n d = drop n d.
Proof.
  unfold evict_oldest. revert d.
  induction n as [|n IH]; intros [|[k v] d]; cbn; try reflexivity.
  rewrite String.eqb_refl. apply IH.
Qed.

Lemma get_pil_font_body_bound (rm : ResourceManager) (font_name : string)
    (size : Z) :
  (length (_fonts rm) <= 150)%nat ->
  (length (_fonts (snd (get_pil_font_body rm font_name size))) <= 150)%nat.
Proof.
  intros Hlen. unfold get_pil_font_body.
  destruct (Dict.get _ (_fonts rm)); [exact Hlen|].
  cbn [snd set_fonts _fonts].
  pose proof (dict_set_length (font_name +:+ "_" +:+ PyStr.str size)
                (load_font rm font_name size) (_fonts rm)) as Hset.
  destruct (150 <? length (Dict.set _ _ (_fonts rm)))%nat eqn:Hfull.
  - rewrite evict_oldest_drop, length_drop. lia.
  - apply Nat.ltb_ge in Hfull. exact Hfull.
Qed.

Lemma lru_store_length {K V : Type} (maxsize : nat) (k : K) (v : V)
    (memo : list (K * V)) :
  (length (Lru.store maxsize k v memo) <= maxsize)%nat.
Proof. unfold Lru.store. rewrite length_take. lia. Qed.

Lemma lru_touch_length {K V : Type} `{EqDecision K} (k : K) (v w : V)
    (memo : list (K * V)) :
  Lru.find k memo = Some w ->
  length (Lru.touch k v memo) = length memo.
Proof.
  unfold Lru.touch. cbn [length]. intros Hfind. f_equal.
  induction memo as [|[k' v'] memo IH]; cbn in *; [discriminate|].
  destruct (decide (k = k')); [reflexivity|].
  cbn. f_equal. now apply IH.
Qed.

Lemma get_image_body_keeps (rm : ResourceManager) (name image_type : string) :
  _images rm ⊆ _images (snd (get_image_body rm name image_type)).
Proof.
  unfold get_image_body.
  destruct (PyStr.is_empty name || String.eqb name "None"); [reflexivity|].
  destruct (_images rm !! (image_type +:+ "_" +:+ name)) eqn:Hmiss;
    [reflexivity|].
  destruct (load_image name image_type) as [[image|]|e]; try reflexivity.
  cbn [snd set_images _images]. now apply insert_subseteq.
Qed.

End CacheFacts.

(** C8, as the code has it: the font cache is bounded with batch
    eviction, the image cache is not. A call of [get_pil_font] keeps the
    font cache at 150 entries or fewer; when an insertion makes it 151
    the 50 oldest-inserted entries are deleted and 101 remain. A call of
    [get_image] never removes an entry of the image cache; only the memos
    of the two decorated functions are bounded, at 128 and 64 calls. *)
Theorem font_cache_bounded_image_cache_grows `{Host} (rm : ResourceManager) :
  (forall font_name size,
      (length (_fonts rm) <= 150)%nat ->
      (length (_fonts (snd (get_pil_font rm font_name size))) <= 150)%nat)
  /\ (forall font_name size,
        Lru.find (font_name, size) (get_pil_font_memo rm) = None ->
        Dict.get (font_name +:+ "_" +:+ PyStr.str size) (_fonts rm) = None ->
        length (_fonts rm) = 150%nat ->
        _fonts (snd (get_pil_font rm font_name size))
        = drop 50 (_fonts rm
                   ++ [(font_name +:+ "_" +:+ PyStr.str size,
                        load_font rm font_name size)]))
  /\ (forall name image_type,
        _images rm ⊆ _images (snd (get_image rm name image_type)))
  /\ (forall font_name size,
        (length (get_pil_font_memo rm) <= 128)%nat ->
        (length (get_pil_font_memo (snd (get_pil_font rm font_name size)))
         <= 128)%nat)
  /\ (forall name image_type,
        (length (get_image_memo rm) <= 64)%nat ->
        (length (get_image_memo (snd (get_image rm name image_type)))
         <= 64)%nat).
Proof.
  split; [|split; [|split; [|split]]].
  - intros font_name size Hlen. unfold get_pil_font.
    destruct (Lru.find _ (get_pil_font_memo rm)); [exact Hlen|].
    pose proof (get_pil_font_body_bound rm font_name size Hlen) as Hbody.
    destruct (get_pil_font_body rm font_name size) as [f rm1]. exact Hbody.
  - intros font_name size Hmemo Hmiss Hlen.
    unfold get_pil_font, get_pil_font_body. rewrite Hmemo, Hmiss.
    cbn [snd set_get_pil_font_memo set_fonts _fonts].
    rewrite (dict_set_new _ _ _ Hmiss).
    replace (150 <? length (_fonts rm ++ _))%nat with true.
    + apply evict_oldest_drop.
    + symmetry. apply Nat.ltb_lt. rewrite length_app. cbn. lia.
  - intros name image_type. unfold get_image.
    destruct (Lru.find _ (get_image_memo rm)); [reflexivity|].
    pose proof (get_image_body_keeps rm name image_type) as Hbody.
    destruct (get_image_body rm name image_type) as [r rm1]. exact Hbody.
  - intros font_name size Hlen. unfold get_pil_font.
    destruct (Lru.find _ (get_pil_font_memo rm)) as [f|] eqn:Hfind.
    + cbn [snd set_get_pil_font_memo get_pil_font_memo].
      now rewrite (lru_touch_length _ _ _ _ Hfind).
    + destruct (get_pil_font_body rm font_name size) as [f rm1].
      cbn [snd set_get_pil_font_memo get_pil_font_memo].
      apply lru_store_length.
  - intros name image_type Hlen. unfold get_image.
    destruct (Lru.find _ (get_image_memo rm)) as [r|] eqn:Hfind.
    + cbn [snd set_get_image_memo get_image_memo].
      now rewrite (lru_touch_length _ _ _ _ Hfind).
    + destruct (get_image_body rm name image_type) as [r rm1].
      cbn [snd set_get_image_memo get_image_memo].
      apply lru_store_length.
Qed.

Lemma font_cache_bounded_image_cache_grows_witness :
  length (_fonts (snd (@get_pil_font Demo.plain full_font_cache "Arial" 100)))
  = 101%nat
  /\ hd_error (_fonts (snd (@get_pil_font Demo.plain full_font_cache "Arial" 100)))
     = Some ("50"%string, "cached"%string).
Proof.
  pose proof (proj1 (proj2 (@font_cache_bounded_image_cache_grows Demo.plain
                              full_font_cache))
                "Arial"%string 100 eq_refl eq_refl eq_refl) as Hevict.
  rewrite Hevict. split; reflexivity.
Defined.

(** C8, as stated, fails for the image cache: after 151 backgrounds are
    loaded it holds 151 entries, above the only ceilings in the code (150
    for fonts, 64 for the memo of [get_image]); nothing was evicted. *)
Lemma image_cache_exceeds_ceiling :
  size (_images (@load_backgrounds many_backgrounds
                   (map PyStr.str (seqZ 0 151))
                   (@fresh many_backgrounds ∅))) = 151%nat
  /\ ~ (size (_images (@load_backgrounds many_backgrounds
                         (map PyStr.str (seqZ 0 151))
                         (@fresh many_backgrounds ∅))) <= 150)%nat.
Proof.
  assert (size (_images (@load_backgrounds many_backgrounds
                           (map PyStr.str (seqZ 0 151))
                           (@fresh many_backgrounds ∅))) = 151%nat) as Hsize
    by (vm_compute; reflexivity).
  split; [exact Hsize | rewrite Hsize; lia].
Qed.

(** * Further properties of the code *)

(** ** Words survive wrapping *)

Lemma append_cons (c : ascii) (s t : string) :
  String c s +:+ t = String c (s +:+ t).
Proof. reflexivity. Qed.

Lemma append_assoc_char (cur w : string) (c : ascii) :
  (cur +:+ String c EmptyString) +:+ w = cur +:+ String c w.
Proof.
  induction cur as [|d cur IH]; [reflexivity|].
  rewrite !append_cons. f_equal. exact IH.
Qed.

Lemma append_empty_r (s : string) : s +:+ EmptyString = s.
Proof.
  induction s as [|c s IH]; [reflexivity|].
  rewrite append_cons. f_equal. exact IH.
Qed.

Lemma has_space_cons (c : ascii) (w : string) :
  PyStr.has_space (String c w) = PyStr.isspace c || PyStr.has_space w.
Proof. reflexivity. Qed.

(** Reading a word moves it into the accumulator. *)
Lemma split_from_word (w cur s : string) :
  PyStr.has_space w = false ->
  PyStr.split_from cur (w +:+ s) = PyStr.split_from (cur +:+ w) s.
Proof.
  revert cur. induction w as [|c w IH]; intros cur Hw.
  - now rewrite append_empty_r.
  - rewrite has_space_cons in Hw. apply orb_false_iff in Hw as [Hc Hw].
    rewrite append_cons. cbn [PyStr.split_from]. rewrite Hc, IH by exact Hw.
    now rewrite append_assoc_char.
Qed.

(** [" ".join(ws).split()] gives the words back. *)
Lemma split_join_words (ws : list string) :
  Forall is_word ws -> PyStr.split (PyStr.join " " ws) = ws.
Proof.
  unfold PyStr.split, PyStr.join.
  induction 1 as [|w ws [Hne Hw] Hws IH]; [reflexivity|].
  destruct ws as [|w' ws].
  - cbn [String.concat]. rewrite <- (append_empty_r w) at 1.
    rewrite split_from_word by exact Hw. cbn [PyStr.split_from].
    destruct w; [contradiction | reflexivity].
  - change (String.concat " " (w :: w' :: ws))
      with (w +:+ String " " (String.concat " " (w' :: ws))).
    rewrite split_from_word by exact Hw. cbn [PyStr.split_from].
    change (PyStr.isspace " ") with true. cbv iota.
    destruct w as [|c w]; [contradiction|].
    change (PyStr.is_empty (EmptyString +:+ String c w)) with false.
    cbv iota. now rewrite IH.
Qed.

Lemma words_of_app (l1 l2 : list string) :
  words_of (l1 ++ l2) = words_of l1 ++ words_of l2.
Proof. unfold words_of. now rewrite map_app, concat_app. Qed.

Lemma words_of_line (line : string) : words_of [line] = PyStr.split line.
Proof. unfold words_of. cbn. now rewrite app_nil_r. Qed.

Section WrapWords.
Context `{Host}.
Variables (f : font) (max_width : Z).

Lemma wrap_word_keeps_words (st : list string * list string)
    (word : string) :
  is_word word -> Forall is_word (snd st) ->
  words_of (fst (wrap_word f max_width st word))
  ++ snd (wrap_word f max_width st word)
  = (words_of (fst st) ++ snd st) ++ [word]
  /\ Forall is_word (snd (wrap_word f max_width st word)).
Proof.
  intros Hw Hc. destruct st as [p c]. cbn [fst snd] in *. unfold wrap_word.
  destruct ((max_width <? text_width f (PyStr.join " " (c ++ [word])))
            && negb (bool_decide (c = []))); cbn [fst snd].
  - split; [|constructor; [assumption | constructor]].
    rewrite words_of_app, words_of_line, split_join_words by assumption.
    reflexivity.
  - split; [now rewrite app_assoc|].
    apply Forall_app. split; [assumption|].
    constructor; [assumption | constructor].
Qed.

Lemma wrap_words_keep_words (words : list string) :
  forall st,
    Forall is_word words -> Forall is_word (snd st) ->
    words_of (fst (fold_left (wrap_word f max_width) words st))
    ++ snd (fold_left (wrap_word f max_width) words st)
    = (words_of (fst st) ++ snd st) ++ words
    /\ Forall is_word (snd (fold_left (wrap_word f max_width) words st)).
Proof.
  induction words as [|w ws IH]; intros st Hws Hc; cbn [fold_left].
  - now rewrite app_nil_r.
  - inversion Hws as [|? ? Hw Hws']; subst.
    destruct (wrap_word_keeps_words st w Hw Hc) as [Hstep Hc'].
    destruct (IH _ Hws' Hc') as [Hrest Hfinal].
    split; [|exact Hfinal].
    rewrite Hrest, Hstep. now rewrite <- app_assoc.
Qed.

Lemma wrap_paragraph_keeps_words (processed : list string) (line : string) :
  words_of (wrap_paragraph f max_width processed line)
  = words_of processed ++ PyStr.split line.
Proof.
  unfold wrap_paragraph.
  destruct (wrap_words_keep_words (PyStr.split line) (processed, [])
              (split_words line) (Forall_nil_2 _)) as [Hwords Hc].
  destruct (fold_left (wrap_word f max_width) (PyStr.split line)
              (processed, [])) as [p c].
  cbn [fst snd] in *. rewrite app_nil_r in Hwords.
  case_bool_decide as Hcur.
  - subst c. now rewrite app_nil_r in Hwords.
  - rewrite words_of_app, words_of_line, split_join_words by assumption.
    exact Hwords.
Qed.

Lemma wrap_lines_keep_words (text : string) :
  words_of (wrap_lines f text max_width)
  = words_of (PyStr.split_on newline text).
Proof.
  unfold wrap_lines.
  assert (forall ls acc,
            words_of (fold_left (wrap_paragraph f max_width) ls acc)
            = words_of acc ++ words_of ls) as Hfold.
  { induction ls as [|l ls IH]; intros acc; cbn [fold_left].
    - unfold words_of at 3. cbn. now rewrite app_nil_r.
    - rewrite IH, wrap_paragraph_keeps_words.
      change (l :: ls) with ([l] ++ ls).
      now rewrite (words_of_app [l] ls), words_of_line, app_assoc. }
  apply Hfold.
Qed.

End WrapWords.

(** X1: wrapping neither loses, adds, splits nor reorders a word: the
    words of the lines [_wrap_text] returns, read in order, are the words
    of the paragraphs of the text. *)
Theorem wrap_text_keeps_words `{Host} (rm : ResourceManager)
    (text name : string) (size max_width : Z) :
  words_of (fst (_wrap_text rm text name size max_width))
  = words_of (PyStr.split_on newline text).
Proof.
  rewrite wrap_text_lines. apply wrap_lines_keep_words.
Qed.

(** ** The frame is kept by the image layers *)

Lemma zip_pixels_length (g : PIL.rgba -> PIL.rgba -> PIL.rgba)
    (l1 l2 : list PIL.rgba) :
  length (PIL.zip_pixels g l1 l2) = Nat.min (length l1) (length l2).
Proof.
  revert l2. induction l1 as [|p l1 IH]; intros [|q l2]; cbn; auto.
Qed.

Lemma new_frame (w h : Z) (color : PIL.rgba) (im : PIL.image) :
  PIL.new w h color = Ok im ->
  PIL.width im = w /\ PIL.height im = h /\ PIL.wf im.
Proof.
  unfold PIL.new, PIL.wf.
  destruct ((w <? 0) || (h <? 0)) eqn:Hneg; [discriminate|].
  apply orb_false_iff in Hneg as [Hw%Z.ltb_ge Hh%Z.ltb_ge].
  intros [= <-]. cbn. rewrite length_replicate. auto.
Qed.

Lemma alpha_composite_frame (dst src out : PIL.image) :
  PIL.wf dst -> length (PIL.data src) = length (PIL.data dst) ->
  PIL.alpha_composite dst src = Ok out ->
  PIL.width out = PIL.width dst /\ PIL.height out = PIL.height dst
  /\ PIL.wf out.
Proof.
  unfold PIL.alpha_composite, PIL.wf. intros (Hw & Hh & Hlen) Hsrc.
  destruct ((PIL.width dst =? PIL.width src)
            && (PIL.height dst =? PIL.height src)); [|discriminate].
  intros [= <-]. cbn. rewrite zip_pixels_length, Hsrc, Nat.min_id. auto.
Qed.

Lemma point_alpha_length (lut : list Z) (im : PIL.image) :
  length (PIL.data (PIL.point_alpha lut im)) = length (PIL.data im).
Proof. unfold PIL.point_alpha. cbn. apply length_map. Qed.

Lemma apply_opacity_length (opacity : Z) (im out : PIL.image) :
  apply_opacity opacity im = Ok out ->
  length (PIL.data out) = length (PIL.data im).
Proof.
  unfold apply_opacity. destruct (opacity <? 100).
  - intros Hrun. inv_bind Hrun. injection Hrun as <-.
    apply point_alpha_length.
  - now intros [= <-].
Qed.

Section Frame.
Context `{Host}.
Variable self : ThumbnailGenerator.

Lemma painted_framed (l : layer) (img : canvas) (dst out : PIL.image)
    (width height : Z) :
  framed width height img -> dst = pixels img ->
  PIL.width out = PIL.width dst /\ PIL.height out = PIL.height dst
  /\ PIL.wf out ->
  framed width height (painted l img out).
Proof.
  intros (Hw & Hh & Hwf) -> (Hw' & Hh' & Hwf'). unfold framed, painted.
  cbn [pixels]. rewrite Hw', Hh'. auto.
Qed.

Lemma layer_canvas_length (width height : Z) (color : PIL.rgba)
    (base : PIL.image) (img : canvas) :
  framed width height img ->
  PIL.new width height color = Ok base ->
  length (PIL.data base) = length (PIL.data (pixels img)).
Proof.
  intros (Hw & Hh & _ & _ & Hlen) (Hbw & Hbh & _ & _ & Hblen)%new_frame.
  now rewrite Hlen, Hblen, Hw, Hh, Hbw, Hbh.
Qed.

Lemma add_background_color_framed (img out : canvas) (width height : Z) :
  framed width height img ->
  _add_background_color self img width height = Ok out ->
  framed width height out.
Proof.
  intros Hframed Hrun. unfold _add_background_color in Hrun.
  inv_bind Hrun. injection Hrun as <-.
  eapply painted_framed; [exact Hframed | reflexivity|].
  match goal with
  | Hc : PIL.alpha_composite _ ?src = Ok _ |- _ =>
      apply (alpha_composite_frame _ src); [apply Hframed | | exact Hc]
  end.
  eapply layer_canvas_length; eassumption.
Qed.

Lemma add_background_image_framed (img out : canvas) (width height : Z) :
  framed width height img ->
  _add_background_image self img width height = Ok out ->
  framed width height out.
Proof.
  intros Hframed Hrun. unfold _add_background_image in Hrun.
  destruct (background_image self) as [bg|]; [|now injection Hrun as <-].
  inv_bind Hrun. injection Hrun as <-.
  eapply painted_framed; [exact Hframed | reflexivity|].
  match goal with
  | Hc : PIL.alpha_composite _ ?src = Ok _ |- _ =>
      apply (alpha_composite_frame _ src); [apply Hframed | | exact Hc]
  end.
  match goal with
  | Hop : apply_opacity _ _ = Ok _ |- _ =>
      rewrite (apply_opacity_length _ _ _ Hop)
  end.
  rewrite (proj2 (proj2 (paste_size _ _ _ _))).
  eapply layer_canvas_length; eassumption.
Qed.

Lemma add_pattern_framed (img out : canvas) (width height : Z) :
  framed width height img ->
  _add_pattern self img width height = Ok out ->
  framed width height out.
Proof.
  intros Hframed Hrun. unfold _add_pattern in Hrun.
  destruct (current_pattern self) as [current|]; [|now injection Hrun as <-].
  inv_bind Hrun; injection Hrun as <-.
  eapply painted_framed; [exact Hframed | reflexivity|].
  match goal with
  | Hc : PIL.alpha_composite _ ?src = Ok _ |- _ =>
      apply (alpha_composite_frame _ src); [apply Hframed | | exact Hc]
  end.
  match goal with
  | Hop : apply_opacity _ _ = Ok _ |- _ =>
      rewrite (apply_opacity_length _ _ _ Hop)
  end.
  destruct (pattern_color_enabled self).
  - rewrite (proj2 (proj2 (tint_size _ _))).
    rewrite (proj2 (proj2 (paste_size _ _ _ _))).
    eapply layer_canvas_length; eassumption.
  - rewrite (proj2 (proj2 (paste_size _ _ _ _))).
    eapply layer_canvas_length; eassumption.
Qed.

End Frame.

(** X2: the three image layers keep the frame: each of them turns a
    canvas of the frame's size, with all its pixels, into such a canvas
    again, whatever the sizes, scales and offsets of the background image
    and of the pattern; so does their sequence from the blank canvas. *)
Theorem image_layers_keep_frame `{Host} (self : ThumbnailGenerator)
    (width height : Z) :
  (forall img out,
      framed width height img ->
      _add_background_color self img width height = Ok out
      \/ _add_background_image self img width height = Ok out
      \/ _add_pattern self img width height = Ok out ->
      framed width height out)
  /\ (forall img, image_layers self width height = Ok img ->
                  framed width height img).
Proof.
  assert (forall img out,
            framed width height img ->
            _add_background_color self img width height = Ok out
            \/ _add_background_image self img width height = Ok out
            \/ _add_pattern self img width height = Ok out ->
            framed width height out) as Hlayer.
  { intros img out Hframed [Hrun|[Hrun|Hrun]].
    - exact (add_background_color_framed self img out width height Hframed Hrun).
    - exact (add_background_image_framed self img out width height Hframed Hrun).
    - exact (add_pattern_framed self img out width height Hframed Hrun). }
  split; [exact Hlayer|].
  intros img Hrun. unfold image_layers in Hrun.
  destruct (PIL.new width height PIL.transparent) as [base|e] eqn:Hbase;
    [|discriminate].
  cbn in Hrun.
  destruct (_add_background_color self (Canvas base []) width height)
    as [c1|e] eqn:Hfill; [|discriminate].
  cbn in Hrun.
  destruct (_add_background_image self c1 width height)
    as [c2|e] eqn:Himage; [|discriminate].
  cbn in Hrun.
  apply (Hlayer c2 img); [|auto].
  apply (Hlayer c1 c2); [|auto].
  apply (Hlayer (Canvas base []) c1); [|auto].
  exact (new_frame _ _ _ _ Hbase).
Qed.

Lemma image_layers_keep_frame_witness :
  match @image_layers Demo.plain all_layers 8 4 with
  | Ok img => framed 8 4 img
  | Raise _ => False
  end.
Proof.
  destruct (@image_layers Demo.plain all_layers 8 4) as [img|e] eqn:Hrun.
  - exact (proj2 (@image_layers_keep_frame Demo.plain all_layers 8 4) img Hrun).
  - vm_compute in Hrun. discriminate Hrun.
Defined.

(** ** The text box and the lines *)

Lemma max_line_width_bounds `{Host} (f : font) (lines : list string) :
  forall m0,
    m0 <= fold_left (fun m line => Z.max m (text_width f line)) lines m0
    /\ forall line, In line lines ->
         text_width f line
         <= fold_left (fun m line => Z.max m (text_width f line)) lines m0.
Proof.
  induction lines as [|l ls IH]; intros m0; cbn [fold_left].
  - split; [lia | intros line []].
  - destruct (IH (Z.max m0 (text_width f l))) as [Hm Hin].
    split; [lia|]. intros line [<-|Hline]; [lia | now apply Hin].
Qed.

(** X3: for the alignments left, center, right, top_right and
    bottom_right, and a padding that is not negative, the text box spans
    every wrapped line from side to side: it starts at or left of the
    x position of the line and ends at or right of the line's end. *)
Theorem text_box_spans_lines `{Host} (self : ThumbnailGenerator) (f : font)
    (lines : list string) (width : Z) (line : string) :
  0 <= text_box_padding self ->
  str_in (text_alignment self)
    ["left"; "center"; "right"; "top_right"; "bottom_right"]%string = true ->
  In line lines ->
  let max_line_width :=
    fold_left (fun m line => Z.max m (text_width f line)) lines 0 in
  let box_width := max_line_width + 2 * text_box_padding self in
  let x_position :=
    _calculate_text_x_position self line f width (Some (text_alignment self)) in
  box_x self max_line_width width <= x_position
  /\ x_position + text_width f line
     <= box_x self max_line_width width + box_width.
Proof.
  intros Hpad Halign Hline. cbv zeta.
  destruct (max_line_width_bounds f lines 0) as [_ Hmax].
  specialize (Hmax line Hline).
  set (m := fold_left _ lines 0) in *.
  set (l := text_width f line) in *.
  unfold str_in in Halign. cbn [existsb] in Halign.
  rewrite !orb_true_iff in Halign.
  unfold box_x, _calculate_text_x_position. fold l. clearbody m l.
  destruct Halign as [Ha|[Ha|[Ha|[Ha|[Ha|Ha]]]]]; try discriminate Ha;
    apply String.eqb_eq in Ha; rewrite Ha; cbn;
    Z.div_mod_to_equations; lia.
Qed.

Lemma text_box_spans_lines_witness :
  box_x (with_text _initialize_defaults "center" true "output") 40 1280
  <= @_calculate_text_x_position Demo.plain
       (with_text _initialize_defaults "center" true "output")
       "7" "Arial"%string 1280 (Some "center"%string)
  /\ @_calculate_text_x_position Demo.plain
       (with_text _initialize_defaults "center" true "output")
       "7" "Arial"%string 1280 (Some "center"%string) + 10
     <= box_x (with_text _initialize_defaults "center" true "output") 40 1280
        + (40 + 2 * 20).
Proof.
  exact (@text_box_spans_lines Demo.plain
           (with_text _initialize_defaults "center" true "output")
           "Arial"%string ["Week"; "7"]%string 1280 "7"%string
           ltac:(cbn; lia) eq_refl (or_intror (or_introl eq_refl))).
Defined.

(** ** Failing renders *)

(** X4: a render on a frame of negative width or height raises the
    error of the first bitmap allocation, returns no canvas and leaves the
    resource manager as it was: no font is looked up. *)
Theorem render_negative_frame_raises `{Host} (self : ThumbnailGenerator)
    (rm : ResourceManager) (text : string) (number width height : Z) :
  width < 0 \/ height < 0 ->
  generate_thumbnail self rm text number width height
  = (Raise ValueError, rm).
Proof.
  intros Hneg. unfold generate_thumbnail, image_layers, PIL.new.
  replace ((width <? 0) || (height <? 0)) with true; [reflexivity|].
  symmetry. apply orb_true_iff.
  destruct Hneg; [left | right]; now apply Z.ltb_lt.
Qed.

Lemma render_negative_frame_raises_witness :
  @generate_thumbnail Demo.plain _initialize_defaults (@fresh Demo.plain ∅)
    "Week ^" 1 (-1) 720
  = (Raise ValueError, @fresh Demo.plain ∅).
Proof.
  apply (@render_negative_frame_raises Demo.plain). left. lia.
Defined.

(** ** The placeholder *)

Lemma has_char_app (c : ascii) (s t : string) :
  has_char c (s +:+ t) = has_char c s || has_char c t.
Proof.
  unfold has_char. induction s as [|d s IH]; [reflexivity|].
  rewrite append_cons. cbn. rewrite IH. now rewrite orb_assoc.
Qed.

Lemma uint_string_no_caret (d : Decimal.uint) :
  has_char caret (NilEmpty.string_of_uint d) = false.
Proof. induction d; cbn; auto. Qed.

Lemma str_no_caret (n : Z) : has_char caret (PyStr.str n) = false.
Proof.
  unfold PyStr.str, NilZero.string_of_int, NilZero.string_of_uint.
  destruct (Z.to_int n) as [d|d]; destruct d; cbn; auto;
    apply uint_string_no_caret.
Qed.

Lemma replace_removes (c : ascii) (r s : string) :
  has_char c r = false -> has_char c (PyStr.replace c r s) = false.
Proof.
  intros Hr. induction s as [|d s IH]; [reflexivity|].
  cbn [PyStr.replace]. destruct (Ascii.eqb d c) eqn:Hd.
  - now rewrite has_char_app, Hr, IH.
  - unfold has_char in *. cbn. rewrite IH.
    rewrite Ascii.eqb_sym, Hd. reflexivity.
Qed.

Lemma replace_absent (c : ascii) (r s : string) :
  has_char c s = false -> PyStr.replace c r s = s.
Proof.
  unfold has_char. induction s as [|d s IH]; [reflexivity|].
  cbn. intros [Hd Hs]%orb_false_iff.
  rewrite Ascii.eqb_sym, Hd. f_equal. now apply IH.
Qed.

(** X5: after the substitution no placeholder is left in the text,
    whatever the number; a text without a placeholder is drawn as it is;
    and the batch route, which substitutes before it calls the render,
    gets the render of the template itself: the second substitution
    finds nothing to replace. *)
Theorem placeholder_substituted_once `{Host} (self : ThumbnailGenerator)
    (rm : ResourceManager) (text : string) (number width height : Z) :
  has_char caret (PyStr.replace caret (PyStr.str number) text) = false
  /\ (has_char caret text = false ->
      PyStr.replace caret (PyStr.str number) text = text)
  /\ generate_thumbnail self rm
       (PyStr.replace caret (PyStr.str number) text) number width height
     = generate_thumbnail self rm text number width height.
Proof.
  split; [apply replace_removes, str_no_caret|].
  split; [apply replace_absent|].
  unfold generate_thumbnail.
  rewrite (replace_absent caret (PyStr.str number)
             (PyStr.replace caret (PyStr.str number) text))
    by apply replace_removes, str_no_caret.
  reflexivity.
Qed.

Lemma placeholder_substituted_once_witness :
  PyStr.replace caret (PyStr.str 12) "Week 3" = "Week 3"%string.
Proof.
  exact (proj1 (proj2 (@placeholder_substituted_once Demo.plain
                         _initialize_defaults (@fresh Demo.plain ∅)
                         "Week 3" 12 8 4)) eq_refl).
Defined.

Example placeholder_twice :
  PyStr.replace caret (PyStr.str (-4)) "^ to ^" = "-4 to -4"%string.
Proof. reflexivity. Qed.

(** ** The archive of a batch *)

Lemma uint_string_no_underscore (d : Decimal.uint) :
  has_char "_" (NilEmpty.string_of_uint d) = false.
Proof. induction d; cbn; auto. Qed.

Lemma str_no_underscore (n : Z) : has_char "_" (PyStr.str n) = false.
Proof.
  unfold PyStr.str, NilZero.string_of_int, NilZero.string_of_uint.
  destruct (Z.to_int n) as [d|d]; destruct d; cbn; auto;
    apply uint_string_no_underscore.
Qed.

Lemma uint_string_no_dot (d : Decimal.uint) :
  has_char "." (NilEmpty.string_of_uint d) = false.
Proof. induction d; cbn; auto. Qed.

Lemma str_no_dot (n : Z) : has_char "." (PyStr.str n) = false.
Proof.
  unfold PyStr.str, NilZero.string_of_int, NilZero.string_of_uint.
  destruct (Z.to_int n) as [d|d]; destruct d; cbn; auto;
    apply uint_string_no_dot.
Qed.

(** [str] is one to one: two ints with the same decimal text are equal. *)
Lemma str_inj (n m : Z) : PyStr.str n = PyStr.str m -> n = m.
Proof.
  unfold PyStr.str. intros Heq. apply DecimalZ.to_int_inj.
  assert (forall k, NilZero.int_of_string (NilZero.string_of_int (Z.to_int k))
                    = Some (Z.to_int k)) as Hparse.
  { intros k. apply NilZero.isi; destruct k; cbn; try discriminate;
      intros [= Hnil]; exact (Unsigned.to_uint_nonnil _ Hnil). }
  pose proof (Hparse n) as Hn. rewrite Heq, Hparse in Hn.
  now injection Hn as <-.
Qed.

(** The text after the last separator [c] of a string. *)
Lemma last_segment (c : ascii) (a1 a2 u1 u2 : string) :
  has_char c u1 = false -> has_char c u2 = false ->
  a1 +:+ String c u1 = a2 +:+ String c u2 -> u1 = u2.
Proof.
  intros Hu1 Hu2. revert a2.
  assert (forall a u, has_char c (a +:+ String c u) = true) as Hin.
  { intros a u. rewrite has_char_app. unfold has_char at 2. cbn.
    rewrite Ascii.eqb_refl. apply orb_true_r. }
  induction a1 as [|d a1 IH]; intros [|e a2]; rewrite ?append_cons;
    change (EmptyString +:+ ?s) with s; intros Heq.
  - now injection Heq.
  - injection Heq as _ Heq. rewrite Heq, Hin in Hu1. discriminate Hu1.
  - injection Heq as _ Heq. rewrite <- Heq, Hin in Hu2. discriminate Hu2.
  - injection Heq as _ Heq. exact (IH _ Heq).
Qed.

(** The text before the first separator [c] of a string. *)
Lemma first_segment (c : ascii) (s1 s2 t1 t2 : string) :
  has_char c s1 = false -> has_char c s2 = false ->
  s1 +:+ String c t1 = s2 +:+ String c t2 -> s1 = s2.
Proof.
  unfold has_char. revert s2.
  induction s1 as [|d s1 IH]; intros [|e s2]; rewrite ?append_cons;
    change (EmptyString +:+ ?s) with s; cbn; intros Hs1 Hs2 Heq.
  - reflexivity.
  - injection Heq as <- _. rewrite Ascii.eqb_refl in Hs2. discriminate Hs2.
  - injection Heq as -> _. rewrite Ascii.eqb_refl in Hs1. discriminate Hs1.
  - injection Heq as <- Heq.
    apply orb_false_iff in Hs1 as [_ Hs1], Hs2 as [_ Hs2].
    f_equal. exact (IH _ Hs1 Hs2 Heq).
Qed.

Lemma batch_filename_inj (filename_base : string) (n m : Z) :
  batch_filename filename_base n = batch_filename filename_base m -> n = m.
Proof.
  unfold batch_filename. intros Heq.
  apply last_segment in Heq.
  - apply str_inj. apply (first_segment "." _ _ "png" "png").
    + apply str_no_dot.
    + apply str_no_dot.
    + exact Heq.
  - rewrite has_char_app, str_no_underscore. reflexivity.
  - rewrite has_char_app, str_no_underscore. reflexivity.
Qed.

Lemma generate_batch_loop_length `{Host} (self : ThumbnailGenerator)
    (text_template filename_base : string) (start_number : Z)
    (indices : list Z) :
  forall rm entries rm',
    generate_batch_loop self rm text_template filename_base start_number indices
    = (Ok entries, rm') ->
    length entries = length indices.
Proof.
  intros rm entries rm' Hrun.
  apply generate_batch_loop_names in Hrun.
  apply (f_equal (@length string)) in Hrun.
  now rewrite !length_map in Hrun.
Qed.

(** X6: a batch that completes holds exactly [batch_count] entries (none
    when the count is zero or negative) and no two entries have the same
    name, whatever the filename template: the suffix "_<number>.png"
    tells them apart. *)
Theorem batch_entries_distinct `{Host} (self : ThumbnailGenerator)
    (rm rm' : ResourceManager) (text_template filename_base : string)
    (start_number batch_count : Z) (entries : list (string * canvas)) :
  generate_batch self rm text_template filename_base start_number batch_count
  = (Ok entries, rm') ->
  length entries = Z.to_nat batch_count /\ NoDup (map fst entries).
Proof.
  unfold generate_batch. intros Hrun. split.
  - rewrite (generate_batch_loop_length _ _ _ _ _ _ _ _ Hrun).
    apply length_seqZ.
  - rewrite (generate_batch_loop_names _ _ _ _ _ _ _ _ Hrun).
    change (NoDup ((fun i => batch_filename filename_base (start_number + i))
                   <$> seqZ 0 batch_count)).
    apply NoDup_fmap_2; [|apply NoDup_seqZ].
    intros i j Heq. apply batch_filename_inj in Heq. lia.
Qed.

Lemma batch_entries_distinct_witness :
  match fst (@generate_batch Demo.plain _initialize_defaults
               (@fresh Demo.plain ∅) "Week ^" "Report^" 3 2) with
  | Ok entries => length entries = 2%nat /\ NoDup (map fst entries)
  | Raise _ => False
  end.
Proof.
  destruct (@generate_batch Demo.plain _initialize_defaults
              (@fresh Demo.plain ∅) "Week ^" "Report^" 3 2)
    as [[entries|e] rm'] eqn:Hrun; cbn [fst].
  - exact (@batch_entries_distinct Demo.plain _ _ _ _ _ _ _ _ Hrun).
  - assert (is_ok (fst (@generate_batch Demo.plain _initialize_defaults
                          (@fresh Demo.plain ∅) "Week ^" "Report^" 3 2))
            = true) as Hok by (lazy; reflexivity).
    rewrite Hrun in Hok. discriminate Hok.
Defined.

(** ** The background image at opacity 0 *)

(** X7: a background image at opacity 0 leaves every pixel of the canvas
    as it was, whatever its scale and offsets, provided the scaled image
    can be built (the scale is a finite number and the scaled size is not
    empty). *)
Theorem background_image_opacity_zero `{Host} (self : ThumbnailGenerator)
    (bg resized : PIL.image) (img : canvas) (width height : Z)
    (scale_factor : float) (bg_width bg_height : Z) :
  framed width height img ->
  PyFloat.int_truediv (bg_image_scale self) PyFloat.hundred = Ok scale_factor ->
  PyFloat.int_of_mul width scale_factor = Ok bg_width ->
  PyFloat.int_of_mul height scale_factor = Ok bg_height ->
  resize bg bg_width bg_height
    (if PrimFloat.ltb scale_factor PyFloat.one
     then PIL.LANCZOS else PIL.BILINEAR) = Ok resized ->
  _add_background_image
    (with_background self (Some bg) (background_color self) 0)
    img width height
  = Ok (painted BackgroundImage img (pixels img)).
Proof.
  intros (Hw & Hh & Hwf) Hscale Hbw Hbh Hresize.
  unfold _add_background_image.
  cbn [background_image with_background bg_image_scale bg_image_x_offset
       bg_image_y_offset background_opacity].
  rewrite Hscale. unfold mbind at 1, result_bind at 1. cbv beta iota.
  rewrite Hbw. unfold mbind at 1, result_bind at 1. cbv beta iota.
  rewrite Hbh. unfold mbind at 1, result_bind at 1. cbv beta iota.
  rewrite Hresize. unfold mbind at 1, result_bind at 1. cbv beta iota.
  pose proof Hwf as (Hw0 & Hh0 & Hlen). rewrite Hw in Hw0. rewrite Hh in Hh0.
  unfold PIL.new.
  replace ((width <? 0) || (height <? 0)) with false
    by (symmetry; apply orb_false_iff; split; apply Z.ltb_ge; lia).
  unfold mbind at 1, result_bind at 1. cbv beta iota.
  match goal with
  | |- context [apply_opacity 0 ?c] =>
      pose proof (composite_opacity_zero (pixels img) c Hwf) as Hcomp
  end.
  destruct (paste_size
              (PIL.Image width height
                 (replicate (Z.to_nat (width * height))
                    (PIL.ink PIL.transparent)))
              resized resized
              ((width - bg_width) `div` 2 + bg_image_x_offset self,
               (height - bg_height) `div` 2 + bg_image_y_offset self))
    as (Hpw & Hph & Hpl).
  rewrite Hpw, Hph, Hpl in Hcomp. cbn [PIL.width PIL.height PIL.data] in Hcomp.
  rewrite length_replicate, Hlen, Hw, Hh in Hcomp.
  specialize (Hcomp eq_refl eq_refl eq_refl).
  unfold mbind, result_bind in Hcomp |- *.
  destruct (apply_opacity 0 _) as [faded|e]; [|discriminate Hcomp].
  rewrite Hcomp. reflexivity.
Qed.

Lemma background_image_opacity_zero_witness :
  @_add_background_image Demo.plain
    (with_background _initialize_defaults (Some (dot 2 2 (10, 20, 30, 255)))
       (215, 63, 9, 255) 0)
    (Canvas (dot 8 4 (200, 100, 50, 255)) [BackgroundFill]) 8 4
  = Ok (Canvas (dot 8 4 (200, 100, 50, 255)) [BackgroundFill; BackgroundImage]).
Proof.
  refine (@background_image_opacity_zero Demo.plain _initialize_defaults
            (dot 2 2 (10, 20, 30, 255)) (dot 8 4 (10, 20, 30, 255))
            (Canvas (dot 8 4 (200, 100, 50, 255)) [BackgroundFill]) 8 4
            1%float 8 4 _ _ _ _ _).
  - repeat split; cbn; lia.
  - vm_compute. reflexivity.
  - vm_compute. reflexivity.
  - vm_compute. reflexivity.
  - vm_compute. reflexivity.
Defined.

Example background_image_opacity_50_changes :
  @_add_background_image Demo.plain
    (with_background _initialize_defaults (Some (dot 2 2 (10, 20, 30, 255)))
       (215, 63, 9, 255) 50)
    (Canvas (dot 8 4 (200, 100, 50, 255)) [BackgroundFill]) 8 4
  <> Ok (Canvas (dot 8 4 (200, 100, 50, 255)) [BackgroundFill; BackgroundImage]).
Proof. vm_compute. discriminate. Qed.

(** ** Repeated lookups *)

(** X8: the font lookup is repeatable: asking again for the same name
    and size returns the same handle and leaves the font cache as the
    first call left it; [_add_text], which looks the font up once itself
    and once more inside [_wrap_text], therefore measures, wraps and
    draws with one and the same font. *)
Theorem font_lookup_repeatable `{Host} (self : ThumbnailGenerator)
    (rm : ResourceManager) (name : string) (size : Z) (img : canvas)
    (display_text : string) (width height : Z) :
  fst (get_pil_font (snd (get_pil_font rm name size)) name size)
  = fst (get_pil_font rm name size)
  /\ _fonts (snd (get_pil_font (snd (get_pil_font rm name size)) name size))
     = _fonts (snd (get_pil_font rm name size))
  /\ fst (_add_text self rm img display_text width height)
     = draw_text_block self img
         (fst (get_pil_font rm (font_name self) (font_size self)))
         (wrap_lines (fst (get_pil_font rm (font_name self) (font_size self)))
            display_text (width - text_margins self * 2))
         width height.
Proof.
  split; [apply get_pil_font_again|]. split; [|apply add_text_one_font].
  unfold get_pil_font at 2 3.
  destruct (Lru.find (name, size) (get_pil_font_memo rm)) as [f|].
  - cbn [snd]. unfold get_pil_font.
    cbn [set_get_pil_font_memo get_pil_font_memo].
    now rewrite lru_find_touch.
  - destruct (get_pil_font_body rm name size) as [f rm1]. cbn [snd].
    unfold get_pil_font. cbn [set_get_pil_font_memo get_pil_font_memo].
    now rewrite lru_find_store.
Qed.

Section Lookups.
Context `{Host}.

Lemma dict_get_app_new {V : Type} (k : string) (v : V)
    (d : list (string * V)) :
  Dict.get k d = None -> Dict.get k (d ++ [(k, v)]) = Some v.
Proof.
  induction d as [|[k' v'] d IH]; cbn.
  - now rewrite String.eqb_refl.
  - destruct (String.eqb k k'); [discriminate | exact IH].
Qed.

Lemma dict_get_drop_none {V : Type} (k : string) (n : nat)
    (d : list (string * V)) :
  Dict.get k d = None -> Dict.get k (drop n d) = None.
Proof.
  revert n. induction d as [|[k' v'] d IH]; intros [|n]; cbn; auto.
  destruct (String.eqb k k'); [discriminate | apply IH].
Qed.

End Lookups.

(** X9: a font that was not in the memo is in the font cache under its
    key "<name>_<size>" when the lookup returns, whether it was already
    there or has just been loaded: the batch eviction, when it runs,
    never drops the entry that triggered it. *)
Theorem font_cached_after_lookup `{Host} (rm : ResourceManager)
    (name : string) (size : Z) :
  Lru.find (name, size) (get_pil_font_memo rm) = None ->
  Dict.get (name +:+ "_" +:+ PyStr.str size)
    (_fonts (snd (get_pil_font rm name size)))
  = Some (fst (get_pil_font rm name size)).
Proof.
  intros Hmemo. unfold get_pil_font, get_pil_font_body. rewrite Hmemo.
  destruct (Dict.get (name +:+ "_" +:+ PyStr.str size) (_fonts rm))
    as [f|] eqn:Hcached; cbn [fst snd set_get_pil_font_memo set_fonts _fonts].
  - exact Hcached.
  - rewrite (dict_set_new _ _ _ Hcached).
    destruct (150 <? length (_fonts rm ++ _))%nat eqn:Hfull.
    + rewrite evict_oldest_drop.
      apply Nat.ltb_lt in Hfull. rewrite length_app in Hfull. cbn in Hfull.
      rewrite drop_app_le by lia.
      assert (forall (d : list (string * font)) k v,
                Dict.get k d = None -> Dict.get k (d ++ [(k, v)]) = Some v)
        as Hnew by (intros; now apply dict_get_app_new).
      apply Hnew. now apply dict_get_drop_none.
    + now apply dict_get_app_new.
Qed.

Lemma font_cached_after_lookup_witness :
  Dict.get "Arial_100"
    (_fonts (snd (@get_pil_font Demo.plain full_font_cache "Arial" 100)))
  = Some "Arial"%string.
Proof.
  exact (@font_cached_after_lookup Demo.plain full_font_cache "Arial" 100
           eq_refl).
Defined.

(** X10: the image lookup is repeatable: asking again for the same name
    and kind returns the same answer, found or not found, and leaves the
    image cache as the first call left it; the file system is read on the
    first call only. *)
Theorem image_lookup_repeatable `{Host} (rm : ResourceManager)
    (name image_type : string) :
  fst (get_image (snd (get_image rm name image_type)) name image_type)
  = fst (get_image rm name image_type)
  /\ _images (snd (get_image (snd (get_image rm name image_type))
                     name image_type))
     = _images (snd (get_image rm name image_type)).
Proof.
  unfold get_image at 2 3 5 6.
  destruct (Lru.find (name, image_type) (get_image_memo rm)) as [r|].
  - cbn [fst snd]. unfold get_image.
    cbn [set_get_image_memo get_image_memo].
    rewrite lru_find_touch. split; reflexivity.
  - destruct (get_image_body rm name image_type) as [r rm1]. cbn [fst snd].
    unfold get_image. cbn [set_get_image_memo get_image_memo].
    rewrite lru_find_store. split; reflexivity.
Qed.

(** ** Images that are not there *)

Lemma load_image_unavailable `{Host} (name image_type : string) :
  (exists e, paths (image_type +:+ "s") = Raise e)
  \/ (exists directory,
        paths (image_type +:+ "s") = Ok directory
        /\ (first_existing directory name image_extensions = None
            \/ exists file_path e,
                 first_existing directory name image_extensions
                 = Some file_path
                 /\ open_rgba file_path = Raise e)) ->
  forall image, load_image name image_type <> Ok (Some image).
Proof.
  unfold load_image, mbind, result_bind.
  intros [[e ->]|(directory & -> & [-> | (file_path & e & -> & ->)])] image;
    discriminate.
Qed.

(** X11: an image that is not available (empty name or "None", a kind
    without a directory, no file with one of the four extensions, or a
    file that does not decode) is answered by no image, without an error,
    and nothing is added to the image cache. *)
Theorem image_unavailable_returns_none `{Host} (rm : ResourceManager)
    (name image_type : string) :
  image_unavailable name image_type ->
  Lru.find (name, image_type) (get_image_memo rm) = None ->
  _images rm !! (image_type +:+ "_" +:+ name) = None ->
  fst (get_image rm name image_type) = None
  /\ _images (snd (get_image rm name image_type)) = _images rm.
Proof.
  intros Hcause Hmemo Hmiss. unfold get_image, get_image_body.
  rewrite Hmemo.
  destruct (PyStr.is_empty name || String.eqb name "None") eqn:Hname;
    [split; reflexivity|].
  rewrite Hmiss.
  destruct Hcause as [Hbad|Hcause];
    [rewrite Hname in Hbad; discriminate Hbad|].
  pose proof (load_image_unavailable name image_type Hcause) as Hload.
  destruct (load_image name image_type) as [[image|]|e];
    [now destruct (Hload image) | split; reflexivity..].
Qed.

Lemma image_unavailable_returns_none_witness :
  fst (@get_image Demo.plain (@fresh Demo.plain ∅) "sunset" "background")
  = None
  /\ _images (snd (@get_image Demo.plain (@fresh Demo.plain ∅)
                     "sunset" "background"))
     = ∅.
Proof.
  apply (@image_unavailable_returns_none Demo.plain).
  - right. right. eexists. split; [reflexivity|]. left. reflexivity.
  - reflexivity.
  - reflexivity.
Defined.

(** X12: an image that [get_image] returns on a miss of its memo is in
    the image cache under the key "<kind>_<name>" when the call returns,
    so the next miss of the memo is served without reading the file. *)
Theorem image_cached_after_load `{Host} (rm rm' : ResourceManager)
    (name image_type : string) (im : PIL.image) :
  Lru.find (name, image_type) (get_image_memo rm) = None ->
  get_image rm name image_type = (Some im, rm') ->
  _images rm' !! (image_type +:+ "_" +:+ name) = Some im.
Proof.
  intros Hmemo. unfold get_image, get_image_body. rewrite Hmemo.
  destruct (PyStr.is_empty name || String.eqb name "None"); [discriminate|].
  destruct (_images rm !! (image_type +:+ "_" +:+ name)) as [cached|]
    eqn:Hcached.
  - intros [= <- <-]. exact Hcached.
  - destruct (load_image name image_type) as [[image|]|e]; try discriminate.
    intros [= <- <-]. cbn [set_get_image_memo set_images _images].
    apply lookup_insert_eq.
Qed.

Lemma image_cached_after_load_witness :
  match @get_image wide_assets (@fresh wide_assets ∅) "wide" "pattern" with
  | (Some im, rm') => _images rm' !! "pattern_wide"%string = Some im
  | (None, _) => False
  end.
Proof.
  destruct (@get_image wide_assets (@fresh wide_assets ∅) "wide" "pattern")
    as [[im|] rm'] eqn:Hrun.
  - exact (@image_cached_after_load wide_assets (@fresh wide_assets ∅) rm'
             "wide" "pattern" im eq_refl Hrun).
  - vm_compute in Hrun. discriminate Hrun.
Defined.

(** ** The preview cache *)

Section DictMore.
Context {V : Type}.

Lemma dict_get_none_keys (k : string) (d : list (string * V)) :
  Dict.get k d = None <-> ~ In k (Dict.keys d).
Proof.
  induction d as [|[k' v'] d IH]; cbn.
  - tauto.
  - destruct (String.eqb_spec k k') as [->|Hne].
    + split; [discriminate | intros Hnot; exfalso; apply Hnot; now left].
    + rewrite IH. intuition congruence.
Qed.

Lemma dict_keys_set (k : string) (v : V) (d : list (string * V)) :
  Dict.keys (Dict.set k v d)
  = match Dict.get k d with
    | Some _ => Dict.keys d
    | None => Dict.keys d ++ [k]
    end.
Proof.
  unfold Dict.keys.
  induction d as [|[k' v'] d IH]; cbn; [reflexivity|].
  destruct (String.eqb_spec k k') as [->|Hne]; cbn; [reflexivity|].
  rewrite IH. now destruct (Dict.get k d).
Qed.

Lemma dict_get_set_same (k : string) (v : V) (d : list (string * V)) :
  Dict.get k (Dict.set k v d) = Some v.
Proof.
  induction d as [|[k' v'] d IH]; cbn.
  - now rewrite String.eqb_refl.
  - destruct (String.eqb k k') eqn:Hk; cbn.
    + now rewrite String.eqb_refl.
    + now rewrite Hk.
Qed.

Lemma dict_keys_del_in (k k0 : string) (d : list (string * V)) :
  In k0 (Dict.keys (Dict.del k d)) -> In k0 (Dict.keys d).
Proof.
  induction d as [|[k' v'] d IH]; cbn; [tauto|].
  destruct (String.eqb k k'); cbn; tauto.
Qed.

Lemma dict_del_nodup (k : string) (d : list (string * V)) :
  List.NoDup (Dict.keys d) ->
  List.NoDup (Dict.keys (Dict.del k d)) /\ Dict.get k (Dict.del k d) = None.
Proof.
  induction d as [|[k' v'] d IH]; cbn; intros Hnd.
  - split; [constructor | reflexivity].
  - inversion Hnd as [|? ? Hnotin Hnd']; subst.
    destruct (String.eqb_spec k k') as [->|Hne].
    + split; [assumption|]. now apply dict_get_none_keys.
    + destruct (IH Hnd') as [Hnd'' Hgone]. cbn. split.
      * constructor; [|assumption].
        intros Hin. apply Hnotin. eapply dict_keys_del_in. exact Hin.
      * destruct (String.eqb_spec k k'); [contradiction | exact Hgone].
Qed.

Lemma dict_set_nodup (k : string) (v : V) (d : list (string * V)) :
  List.NoDup (Dict.keys d) -> List.NoDup (Dict.keys (Dict.set k v d)).
Proof.
  intros Hnd. rewrite dict_keys_set.
  destruct (Dict.get k d) eqn:Hget; [assumption|].
  apply dict_get_none_keys in Hget.
  apply NoDup_ListNoDup, NoDup_app. repeat split.
  - now apply NoDup_ListNoDup.
  - intros x Hx Hx'. apply list_elem_of_In in Hx.
    apply list_elem_of_singleton in Hx'. now subst.
  - apply NoDup_singleton.
Qed.

Lemma dict_del_length (k : string) (d : list (string * V)) (v : V) :
  Dict.get k d = Some v -> S (length (Dict.del k d)) = length d.
Proof.
  induction d as [|[k' v'] d IH]; cbn; [discriminate|].
  destruct (String.eqb k k'); [reflexivity|].
  intros Hget. cbn. f_equal. now apply IH.
Qed.

End DictMore.

Section DictKeys.
Context {V W : Type}.

Lemma dict_get_aligned (k : string) (c : list (string * V))
    (a : list (string * W)) :
  Dict.keys c = Dict.keys a ->
  (Dict.get k c = None <-> Dict.get k a = None).
Proof.
  intros Hkeys.
  split; intros Hn%dict_get_none_keys; apply dict_get_none_keys;
    [rewrite <- Hkeys | rewrite Hkeys]; exact Hn.
Qed.

Lemma dict_set_aligned (k : string) (v : V) (w : W)
    (c : list (string * V)) (a : list (string * W)) :
  Dict.keys c = Dict.keys a ->
  Dict.keys (Dict.set k v c) = Dict.keys (Dict.set k w a).
Proof.
  revert a. induction c as [|[k1 v1] c IH]; intros [|[k2 w2] a];
    cbn; try discriminate; [reflexivity|].
  intros [= <- Hkeys]. destruct (String.eqb k k1); cbn; f_equal; auto.
  now apply IH.
Qed.

Lemma dict_del_aligned (k : string) (c : list (string * V))
    (a : list (string * W)) :
  Dict.keys c = Dict.keys a ->
  Dict.keys (Dict.del k c) = Dict.keys (Dict.del k a).
Proof.
  revert a. induction c as [|[k1 v1] c IH]; intros [|[k2 w2] a];
    cbn; try discriminate; [reflexivity|].
  intros [= <- Hkeys]. destruct (String.eqb k k1); cbn; [|f_equal]; auto.
  now apply IH.
Qed.

End DictKeys.


Section PreviewCache.
Context {V : Type}.
Implicit Types (self : SimpleCache.t V) (key : string) (v : V).

Lemma min_from_in (best : string) (best_time : float)
    (rest : list (string * float)) :
  In (SimpleCache.min_from best best_time rest) (best :: Dict.keys rest).
Proof.
  revert best best_time.
  induction rest as [|[k time] rest IH]; intros best best_time; cbn.
  - now left.
  - destruct (PrimFloat.ltb time best_time).
    + destruct (IH k time) as [<-|Hin]; [right; now left | right; now right].
    + destruct (IH best best_time) as [<-|Hin]; [now left | right; now right].
Qed.

Lemma oldest_key_in (times : list (string * float)) (oldest : string) :
  SimpleCache.oldest_key times = Ok oldest -> In oldest (Dict.keys times).
Proof.
  destruct times as [|[k time] rest]; cbn; [discriminate|].
  intros [= <-]. apply min_from_in.
Qed.

Lemma delitem_present {W : Type} (k : string) (d : list (string * W)) :
  In k (Dict.keys d) -> SimpleCache.delitem k d = Ok (Dict.del k d).
Proof.
  intros Hin. unfold SimpleCache.delitem.
  destruct (Dict.get k d) eqn:Hget; [reflexivity|].
  now apply dict_get_none_keys in Hget.
Qed.

Lemma aligned_del self key :
  SimpleCache.aligned self ->
  SimpleCache.aligned
    (SimpleCache.with_dicts self (Dict.del key (SimpleCache.cache self))
       (Dict.del key (SimpleCache.access_times self))).
Proof.
  intros [Hkeys Hnd]. split; cbn.
  - now apply dict_del_aligned.
  - apply NoDup_ListNoDup. apply NoDup_ListNoDup in Hnd.
    now apply dict_del_nodup.
Qed.

Lemma aligned_set self key v (now : float) :
  SimpleCache.aligned self ->
  SimpleCache.aligned
    (SimpleCache.with_dicts self (Dict.set key v (SimpleCache.cache self))
       (Dict.set key now (SimpleCache.access_times self))).
Proof.
  intros [Hkeys Hnd]. split; cbn.
  - now apply dict_set_aligned.
  - apply NoDup_ListNoDup. apply NoDup_ListNoDup in Hnd.
    now apply dict_set_nodup.
Qed.

Lemma aligned_with_dicts self (c : list (string * V))
    (a : list (string * float)) :
  SimpleCache.aligned (SimpleCache.with_dicts self c a)
  <-> Dict.keys c = Dict.keys a /\ NoDup (Dict.keys c).
Proof. reflexivity. Qed.

(** What [get] does, case by case, on a cache whose dicts are aligned. *)
Lemma get_cases self key (now now' : float) :
  SimpleCache.aligned self ->
  match Dict.get key (SimpleCache.cache self),
        Dict.get key (SimpleCache.access_times self) with
  | Some v, Some accessed =>
      SimpleCache.get self key now now'
      = if PrimFloat.ltb (PrimFloat.sub now accessed) (SimpleCache.ttl self)
        then (Ok (Some v),
              SimpleCache.with_dicts self (SimpleCache.cache self)
                (Dict.set key now' (SimpleCache.access_times self)))
        else (Ok None,
              SimpleCache.with_dicts self
                (Dict.del key (SimpleCache.cache self))
                (Dict.del key (SimpleCache.access_times self)))
  | None, None => SimpleCache.get self key now now' = (Ok None, self)
  | _, _ => False
  end.
Proof.
  intros [Hkeys Hnd]. unfold SimpleCache.get, SimpleCache.item.
  pose proof (dict_get_aligned key _ _ Hkeys) as Hsame.
  destruct (Dict.get key (SimpleCache.cache self)) as [v|] eqn:Hc;
    destruct (Dict.get key (SimpleCache.access_times self)) as [t|] eqn:Ht;
    try (now destruct Hsame as [H1 H2]; (discriminate (H1 eq_refl)
                                         || discriminate (H2 eq_refl))).
  - destruct (PrimFloat.ltb _ _); [reflexivity|].
    unfold SimpleCache.delitem. now rewrite Hc, Ht.
  - reflexivity.
Qed.

End PreviewCache.

(** What [set] does once the eviction, if any, went through. *)
Lemma set_cases {V : Type} (self : SimpleCache.t V) (key : string) (v : V)
    (now : float) :
  SimpleCache.aligned self ->
  0 < SimpleCache.max_size self \/ SimpleCache.cache self <> [] ->
  exists c a,
    SimpleCache.set self key v now
    = (Ok tt, SimpleCache.with_dicts self (Dict.set key v c)
                (Dict.set key now a))
    /\ Dict.keys c = Dict.keys a /\ NoDup (Dict.keys c)
    /\ (length c <= length (SimpleCache.cache self))%nat
    /\ (SimpleCache.max_size self
        <= Z.of_nat (length (SimpleCache.cache self)) ->
        S (length c) = length (SimpleCache.cache self)).
Proof.
  intros Haligned Hroom. pose proof Haligned as [Hkeys Hnd].
  unfold SimpleCache.set.
  destruct (Z.of_nat (length (SimpleCache.cache self))
            >=? SimpleCache.max_size self) eqn:Hfull.
  - apply Z.geb_le in Hfull.
    assert (SimpleCache.cache self <> []) as Hne.
    { destruct Hroom as [Hpos|Hne]; [|exact Hne].
      intros Hnil. rewrite Hnil in Hfull. cbn in Hfull. lia. }
    destruct (SimpleCache.oldest_key (SimpleCache.access_times self))
      as [oldest|e] eqn:Hold.
    + apply oldest_key_in in Hold.
      assert (In oldest (Dict.keys (SimpleCache.cache self))) as Hin
        by now rewrite Hkeys.
      rewrite (delitem_present _ _ Hin), (delitem_present _ _ Hold).
      exists (Dict.del oldest (SimpleCache.cache self)),
             (Dict.del oldest (SimpleCache.access_times self)).
      destruct (aligned_del self oldest Haligned) as [Hk' Hnd'].
      cbn in Hk', Hnd'.
      destruct (Dict.get oldest (SimpleCache.cache self)) as [w|] eqn:Hget;
        [|now apply dict_get_none_keys in Hget].
      pose proof (dict_del_length _ _ _ Hget) as Hlen.
      repeat split; try assumption; lia.
    + exfalso. destruct (SimpleCache.access_times self) as [|[k t] rest];
        [|discriminate Hold].
      destruct (SimpleCache.cache self); [now apply Hne | discriminate Hkeys].
  - rewrite Z.geb_leb in Hfull. apply Z.leb_gt in Hfull.
    exists (SimpleCache.cache self), (SimpleCache.access_times self).
    repeat split; try assumption; lia.
Qed.

Lemma classic_room {V : Type} (self : SimpleCache.t V) :
  (0 < SimpleCache.max_size self \/ SimpleCache.cache self <> [])
  \/ (SimpleCache.max_size self <= 0 /\ SimpleCache.cache self = []).
Proof.
  destruct (SimpleCache.cache self); [|left; right; discriminate].
  destruct (Z_lt_le_dec 0 (SimpleCache.max_size self));
    [left; now left | right; split; [assumption | reflexivity]].
Qed.

(** An empty cache of no capacity: [min] of no key raises. *)
Lemma set_no_room {V : Type} (self : SimpleCache.t V) (key : string) (v : V)
    (now : float) :
  SimpleCache.aligned self ->
  SimpleCache.max_size self <= 0 /\ SimpleCache.cache self = [] ->
  SimpleCache.set self key v now = (Raise ValueError, self).
Proof.
  intros [Hkeys _] [Hmax Hnil]. unfold SimpleCache.set.
  rewrite Hnil in *. cbn [length].
  replace (Z.of_nat 0 >=? SimpleCache.max_size self) with true
    by (symmetry; apply Z.geb_le; lia).
  destruct (SimpleCache.access_times self); [reflexivity | discriminate Hkeys].
Qed.

(** X13: the two dicts of the preview cache stay aligned (the same
    keys, in the same order, each once) under [get], [set] and [clear],
    starting from the empty cache; on an aligned cache [get] never raises,
    and [set] raises only in the one case of an empty cache whose capacity
    is zero or negative. *)
Theorem preview_cache_stays_aligned {V : Type} (self : SimpleCache.t V)
    (key : string) (v : V) (now now' : float) :
  SimpleCache.aligned self ->
  SimpleCache.aligned (snd (SimpleCache.get self key now now'))
  /\ is_ok (fst (SimpleCache.get self key now now')) = true
  /\ SimpleCache.aligned (snd (SimpleCache.set self key v now))
  /\ (0 < SimpleCache.max_size self \/ SimpleCache.cache self <> [] ->
      fst (SimpleCache.set self key v now) = Ok tt)
  /\ SimpleCache.aligned (SimpleCache.clear self)
  /\ SimpleCache.aligned
       (SimpleCache.init (V := V) (SimpleCache.max_size self)
          (SimpleCache.ttl self)).
Proof.
  intros Haligned.
  assert (SimpleCache.aligned (SimpleCache.clear self)
          /\ SimpleCache.aligned
               (SimpleCache.init (V := V) (SimpleCache.max_size self)
                  (SimpleCache.ttl self))) as Hempty.
  { split; (split; [reflexivity | apply NoDup_nil_2]). }
  pose proof (get_cases self key now now' Haligned) as Hget.
  destruct (Dict.get key (SimpleCache.cache self)) as [w|] eqn:Hc;
    destruct (Dict.get key (SimpleCache.access_times self)) as [t|] eqn:Ht;
    try contradiction.
  - split; [|split].
    + rewrite Hget. destruct (PrimFloat.ltb _ _); cbn [snd].
      * apply aligned_with_dicts. split; [|apply Haligned].
        rewrite dict_keys_set, Ht. apply Haligned.
      * now apply aligned_del.
    + rewrite Hget. now destruct (PrimFloat.ltb _ _).
    + split; [|split; [|exact Hempty]].
      * destruct (classic_room self) as [Hroom|Hnoroom].
        -- destruct (set_cases self key v now Haligned Hroom)
             as (c & a & -> & Hk & Hnd & _).
           cbn [snd]. split; cbn;
             [now apply dict_set_aligned
             | apply NoDup_ListNoDup, dict_set_nodup;
               now apply NoDup_ListNoDup].
        -- rewrite (set_no_room self key v now Haligned Hnoroom). exact Haligned.
      * intros Hroom.
        now destruct (set_cases self key v now Haligned Hroom)
          as (c & a & -> & _).
  - split; [|split].
    + now rewrite Hget.
    + now rewrite Hget.
    + split; [|split; [|exact Hempty]].
      * destruct (classic_room self) as [Hroom|Hnoroom].
        -- destruct (set_cases self key v now Haligned Hroom)
             as (c & a & -> & Hk & Hnd & _).
           cbn [snd]. split; cbn;
             [now apply dict_set_aligned
             | apply NoDup_ListNoDup, dict_set_nodup;
               now apply NoDup_ListNoDup].
        -- rewrite (set_no_room self key v now Haligned Hnoroom). exact Haligned.
      * intros Hroom.
        now destruct (set_cases self key v now Haligned Hroom)
          as (c & a & -> & _).
Qed.

Lemma preview_cache_stays_aligned_witness :
  SimpleCache.aligned
    (snd (SimpleCache.set (SimpleCache.init (V := Z) 1 300%float)
            "a" 7 1000%float))
  /\ fst (SimpleCache.set (SimpleCache.init (V := Z) 1 300%float)
            "a" 7 1000%float) = Ok tt.
Proof.
  assert (SimpleCache.aligned (SimpleCache.init (V := Z) 1 300%float))
    as Hinit by (split; [reflexivity | apply NoDup_nil_2]).
  pose proof (preview_cache_stays_aligned
                (SimpleCache.init (V := Z) 1 300%float) "a" 7
                1000%float 1000%float Hinit)
    as (_ & _ & Hset & Hok & _).
  split; [exact Hset | apply Hok; left; cbn; lia].
Defined.

Section DictLookup.
Context {V : Type}.

Lemma dict_get_in (k : string) (v : V) (d : list (string * V)) :
  Dict.get k d = Some v -> In (k, v) d.
Proof.
  induction d as [|[k' v'] d IH]; cbn; [discriminate|].
  destruct (String.eqb_spec k k') as [->|Hne].
  - intros [= ->]. now left.
  - intros Hget. right. now apply IH.
Qed.

Lemma dict_in_get (k : string) (v : V) (d : list (string * V)) :
  List.NoDup (Dict.keys d) -> In (k, v) d -> Dict.get k d = Some v.
Proof.
  induction d as [|[k' v'] d IH]; cbn; [tauto|].
  intros Hnd [[= -> ->]|Hin].
  - now rewrite String.eqb_refl.
  - inversion Hnd as [|? ? Hnotin Hnd']; subst.
    destruct (String.eqb_spec k k') as [->|Hne]; [|now apply IH].
    exfalso. apply Hnotin. unfold Dict.keys.
    change k' with (fst (k', v)). now apply in_map.
Qed.

Lemma dict_get_del_other (k k0 : string) (d : list (string * V)) :
  k0 <> k -> Dict.get k0 (Dict.del k d) = Dict.get k0 d.
Proof.
  intros Hne. induction d as [|[k' v'] d IH]; cbn; [reflexivity|].
  destruct (String.eqb_spec k k') as [->|Hk]; cbn.
  - destruct (String.eqb_spec k0 k'); [contradiction | reflexivity].
  - destruct (String.eqb k0 k'); [reflexivity | exact IH].
Qed.

Lemma dict_get_set_other (k k0 : string) (v : V) (d : list (string * V)) :
  k0 <> k -> Dict.get k0 (Dict.set k v d) = Dict.get k0 d.
Proof.
  intros Hne. induction d as [|[k' v'] d IH]; cbn.
  - destruct (String.eqb_spec k0 k); [contradiction | reflexivity].
  - destruct (String.eqb_spec k k') as [->|Hk]; cbn.
    + destruct (String.eqb_spec k0 k'); [contradiction | reflexivity].
    + destruct (String.eqb k0 k'); [reflexivity | exact IH].
Qed.

End DictLookup.

(** X14: a preview cache of positive capacity that holds at most
    [max_size] entries still does after [set], whatever the key, and [get]
    never adds an entry. *)
Theorem preview_cache_bounded {V : Type} (self : SimpleCache.t V)
    (key : string) (v : V) (now now' : float) :
  SimpleCache.aligned self ->
  0 < SimpleCache.max_size self ->
  Z.of_nat (length (SimpleCache.cache self)) <= SimpleCache.max_size self ->
  Z.of_nat (length (SimpleCache.cache (snd (SimpleCache.set self key v now))))
  <= SimpleCache.max_size self
  /\ (length (SimpleCache.cache (snd (SimpleCache.get self key now now')))
      <= length (SimpleCache.cache self))%nat.
Proof.
  intros Haligned Hpos Hbound. split.
  - destruct (set_cases self key v now Haligned (or_introl Hpos))
      as (c & a & -> & _ & _ & Hle & Hfull).
    cbn [snd SimpleCache.with_dicts SimpleCache.cache SimpleCache.max_size].
    pose proof (dict_set_length key v c) as Hset.
    destruct (Z_lt_le_dec (Z.of_nat (length (SimpleCache.cache self)))
                (SimpleCache.max_size self)) as [Hroom|Hnoroom].
    + lia.
    + specialize (Hfull Hnoroom). lia.
  - pose proof (get_cases self key now now' Haligned) as Hget.
    destruct (Dict.get key (SimpleCache.cache self)) as [w|] eqn:Hc;
      destruct (Dict.get key (SimpleCache.access_times self)) as [t|];
      try contradiction; rewrite Hget; [|cbn; lia].
    destruct (PrimFloat.ltb _ _); cbn; [lia|].
    pose proof (dict_del_length _ _ _ Hc). lia.
Qed.

Lemma preview_cache_bounded_witness :
  Z.of_nat
    (length
       (SimpleCache.cache
          (snd (SimpleCache.set
                  (snd (SimpleCache.set (SimpleCache.init (V := Z) 1 300%float)
                          "a" 7 1000%float))
                  "b" 8 1001%float)))) <= 1.
Proof.
  assert (SimpleCache.aligned
            (snd (SimpleCache.set (SimpleCache.init (V := Z) 1 300%float)
                    "a" 7 1000%float))) as Haligned
    by (split; [reflexivity | apply NoDup_singleton]).
  refine (proj1 (preview_cache_bounded
                   (snd (SimpleCache.set
                           (SimpleCache.init (V := Z) 1 300%float)
                           "a" 7 1000%float))
                   "b" 8 1001%float 1001%float Haligned _ _));
    vm_compute; [reflexivity | discriminate].
Defined.

(** X15: a value stored by [set] is what [get] returns for that key as
    long as the clock at the lookup is less than [ttl] past the clock at
    the store. *)
Theorem preview_cache_set_then_get {V : Type} (self : SimpleCache.t V)
    (key : string) (v : V) (now now1 now2 : float) :
  SimpleCache.aligned self ->
  0 < SimpleCache.max_size self \/ SimpleCache.cache self <> [] ->
  PrimFloat.ltb (PrimFloat.sub now1 now) (SimpleCache.ttl self) = true ->
  fst (SimpleCache.set self key v now) = Ok tt
  /\ fst (SimpleCache.get (snd (SimpleCache.set self key v now))
            key now1 now2) = Ok (Some v).
Proof.
  intros Haligned Hroom Hfresh.
  destruct (set_cases self key v now Haligned Hroom) as (c & a & -> & _).
  split; [reflexivity|].
  cbn [snd]. unfold SimpleCache.get, SimpleCache.item.
  cbn [SimpleCache.with_dicts SimpleCache.cache SimpleCache.access_times
       SimpleCache.ttl].
  now rewrite !dict_get_set_same, Hfresh.
Qed.

Lemma preview_cache_set_then_get_witness :
  fst (SimpleCache.get
         (snd (SimpleCache.set (SimpleCache.init (V := Z) 100 300%float)
                 "a" 7 1000%float))
         "a" 1299%float 1299%float) = Ok (Some 7).
Proof.
  refine (proj2 (preview_cache_set_then_get
                   (SimpleCache.init (V := Z) 100 300%float) "a" 7
                   1000%float 1299%float 1299%float _ _ _)).
  - split; [reflexivity | apply NoDup_nil_2].
  - left. cbn. lia.
  - vm_compute. reflexivity.
Defined.

(** X16: a lookup of an entry whose last access is not less than [ttl]
    before the clock returns nothing and deletes the entry from both
    dicts; every other entry stays. *)
Theorem preview_cache_expired_entry_removed {V : Type}
    (self : SimpleCache.t V) (key : string) (v : V)
    (accessed now now' : float) :
  SimpleCache.aligned self ->
  Dict.get key (SimpleCache.cache self) = Some v ->
  Dict.get key (SimpleCache.access_times self) = Some accessed ->
  PrimFloat.ltb (PrimFloat.sub now accessed) (SimpleCache.ttl self) = false ->
  let after := snd (SimpleCache.get self key now now') in
  fst (SimpleCache.get self key now now') = Ok None
  /\ Dict.get key (SimpleCache.cache after) = None
  /\ Dict.get key (SimpleCache.access_times after) = None
  /\ S (length (SimpleCache.cache after)) = length (SimpleCache.cache self)
  /\ forall k, k <> key ->
       Dict.get k (SimpleCache.cache after)
       = Dict.get k (SimpleCache.cache self)
       /\ Dict.get k (SimpleCache.access_times after)
          = Dict.get k (SimpleCache.access_times self).
Proof.
  intros Haligned Hc Ht Hold after. subst after.
  pose proof (get_cases self key now now' Haligned) as Hget.
  rewrite Hc, Ht, Hold in Hget. rewrite Hget.
  cbn [fst snd SimpleCache.with_dicts SimpleCache.cache
       SimpleCache.access_times].
  destruct Haligned as [Hkeys Hnd]. apply NoDup_ListNoDup in Hnd.
  split; [reflexivity|]. split; [now apply dict_del_nodup|].
  split; [apply dict_del_nodup; now rewrite <- Hkeys|].
  split; [now apply (dict_del_length _ _ v)|].
  intros k Hne. now rewrite !dict_get_del_other.
Qed.

Lemma preview_cache_expired_entry_removed_witness :
  fst (SimpleCache.get
         (snd (SimpleCache.set (SimpleCache.init (V := Z) 100 300%float)
                 "a" 7 1000%float))
         "a" 1300%float 1300%float) = Ok None.
Proof.
  pose proof (preview_cache_expired_entry_removed
                (snd (SimpleCache.set (SimpleCache.init (V := Z) 100 300%float)
                        "a" 7 1000%float))
                "a" 7 1000%float 1300%float 1300%float) as Hexpired.
  apply Hexpired.
  - split; [reflexivity | apply NoDup_singleton].
  - reflexivity.
  - reflexivity.
  - vm_compute. reflexivity.
Defined.

(** ** The order of access times *)

Lemma SFltb_irrefl (x : spec_float) : SFltb x x = false.
Proof.
  unfold SFltb, SFcompare.
  destruct x as [s| s | |s m e]; try destruct s; try reflexivity.
  - rewrite Z.compare_refl, Pos.compare_cont_refl. reflexivity.
  - rewrite Z.compare_refl, Pos.compare_cont_refl. reflexivity.
Qed.

Lemma SFltb_trans (x y z : spec_float) :
  SFltb x y = true -> SFltb y z = true -> SFltb x z = true.
Proof.
  unfold SFltb, SFcompare.
  destruct x as [sx|sx| |sx mx ex], y as [sy|sy| |sy my ey],
    z as [sz|sz| |sz mz ez];
    try destruct sx; try destruct sy; try destruct sz;
    try reflexivity; try discriminate.
  - destruct (Z.compare_spec ex ey), (Z.compare_spec ey ez),
      (Z.compare_spec ex ez); try reflexivity; try discriminate; try lia.
    subst. fold (Pos.compare mx my) (Pos.compare my mz) (Pos.compare mx mz).
    destruct (Pos.compare_spec mx my), (Pos.compare_spec my mz),
      (Pos.compare_spec mx mz); try reflexivity; try discriminate; lia.
  - destruct (Z.compare_spec ex ey), (Z.compare_spec ey ez),
      (Z.compare_spec ex ez); try reflexivity; try discriminate; try lia.
    subst. fold (Pos.compare mx my) (Pos.compare my mz) (Pos.compare mx mz).
    destruct (Pos.compare_spec mx my), (Pos.compare_spec my mz),
      (Pos.compare_spec mx mz); try reflexivity; try discriminate; lia.
Qed.

Lemma ltb_irrefl (x : float) : PrimFloat.ltb x x = false.
Proof. rewrite ltb_spec. apply SFltb_irrefl. Qed.

Lemma ltb_trans (x y z : float) :
  PrimFloat.ltb x y = true -> PrimFloat.ltb y z = true ->
  PrimFloat.ltb x z = true.
Proof. rewrite !ltb_spec. apply SFltb_trans. Qed.

Lemma ltb_asym (x y : float) :
  PrimFloat.ltb x y = true -> PrimFloat.ltb y x = false.
Proof.
  intros Hxy. destruct (PrimFloat.ltb y x) eqn:Hyx; [|reflexivity].
  now rewrite <- (ltb_irrefl x), (ltb_trans x y x Hxy Hyx).
Qed.

(** [min] returns a key no key's time is less than. *)
Lemma min_from_least (best : string) (best_time : float)
    (rest : list (string * float)) :
  exists least,
    In (SimpleCache.min_from best best_time rest, least)
      ((best, best_time) :: rest)
    /\ (least = best_time \/ PrimFloat.ltb least best_time = true)
    /\ forall k time, In (k, time) rest -> PrimFloat.ltb time least = false.
Proof.
  revert best best_time.
  induction rest as [|[k time] rest IH]; intros best best_time.
  - exists best_time. cbn. split; [now left|]. split; [now left | tauto].
  - cbn [SimpleCache.min_from].
    destruct (PrimFloat.ltb time best_time) eqn:Hlt.
    + destruct (IH k time) as (least & Hin & Hleast & Hrest).
      exists least. split; [now right|]. split.
      * right. destruct Hleast as [->|Hless]; [exact Hlt|].
        exact (ltb_trans _ _ _ Hless Hlt).
      * intros k0 t0 [[= -> ->]|Hin0]; [|now apply (Hrest k0)].
        destruct Hleast as [->|Hless];
          [apply ltb_irrefl | now apply ltb_asym].
    + destruct (IH best best_time) as (least & Hin & Hleast & Hrest).
      exists least. split.
      * destruct Hin as [Hin|Hin]; [now left | right; now right].
      * split; [exact Hleast|].
        intros k0 t0 [[= -> ->]|Hin0]; [|now apply (Hrest k0)].
        destruct Hleast as [->|Hless]; [exact Hlt|].
        destruct (PrimFloat.ltb t0 least) eqn:Hbad; [|reflexivity].
        now rewrite (ltb_trans _ _ _ Hbad Hless) in Hlt.
Qed.

Lemma oldest_key_least (times : list (string * float)) :
  times <> [] ->
  exists oldest accessed,
    SimpleCache.oldest_key times = Ok oldest
    /\ In (oldest, accessed) times
    /\ forall k time, In (k, time) times ->
         PrimFloat.ltb time accessed = false.
Proof.
  destruct times as [|[k0 t0] rest]; [congruence|]. intros _.
  destruct (min_from_least k0 t0 rest) as (least & Hin & Hleast & Hrest).
  exists (SimpleCache.min_from k0 t0 rest), least.
  split; [reflexivity|]. split; [exact Hin|].
  intros k time [[= -> ->]|Hin']; [|now apply (Hrest k)].
  destruct Hleast as [->|Hless]; [apply ltb_irrefl | now apply ltb_asym].
Qed.

(** X17: [set] on a full cache evicts an entry that was accessed least
    recently: no entry's access time is less than the evicted one's.  The
    evicted key is gone from the cache unless it is the key being stored,
    and every key other than these two keeps its value; this also happens
    when the key being stored is already in the cache. *)
Theorem preview_cache_evicts_oldest {V : Type} (self : SimpleCache.t V)
    (key : string) (v : V) (now : float) :
  SimpleCache.aligned self ->
  SimpleCache.cache self <> [] ->
  SimpleCache.max_size self <= Z.of_nat (length (SimpleCache.cache self)) ->
  let after := snd (SimpleCache.set self key v now) in
  exists oldest accessed,
    Dict.get oldest (SimpleCache.access_times self) = Some accessed
    /\ (forall k time,
          Dict.get k (SimpleCache.access_times self) = Some time ->
          PrimFloat.ltb time accessed = false)
    /\ (oldest <> key -> Dict.get oldest (SimpleCache.cache after) = None)
    /\ Dict.get key (SimpleCache.cache after) = Some v
    /\ forall k, k <> oldest -> k <> key ->
         Dict.get k (SimpleCache.cache after)
         = Dict.get k (SimpleCache.cache self).
Proof.
  intros Haligned Hne Hfull after. subst after.
  pose proof Haligned as [Hkeys Hnd]. apply NoDup_ListNoDup in Hnd.
  assert (SimpleCache.access_times self <> []) as Hne'.
  { intros Hnil. rewrite Hnil in Hkeys.
    destruct (SimpleCache.cache self); [now apply Hne | discriminate Hkeys]. }
  destruct (oldest_key_least _ Hne') as (oldest & accessed & Hold & Hin & Hmin).
  exists oldest, accessed.
  assert (List.NoDup (Dict.keys (SimpleCache.access_times self))) as Hnd'
    by now rewrite <- Hkeys.
  split; [now apply dict_in_get|].
  split; [intros k time Hget; apply (Hmin k), dict_get_in, Hget|].
  unfold SimpleCache.set.
  replace (Z.of_nat (length (SimpleCache.cache self))
           >=? SimpleCache.max_size self) with true
    by (symmetry; apply Z.geb_le; lia).
  rewrite Hold.
  assert (In oldest (Dict.keys (SimpleCache.access_times self))) as Hkin
    by (change oldest with (fst (oldest, accessed)); now apply in_map).
  rewrite (delitem_present oldest (SimpleCache.cache self))
    by now rewrite Hkeys.
  rewrite (delitem_present oldest (SimpleCache.access_times self)) by exact Hkin.
  cbn [snd SimpleCache.with_dicts SimpleCache.cache].
  split; [|split].
  - intros Hother. rewrite dict_get_set_other by exact Hother.
    now apply dict_del_nodup.
  - apply dict_get_set_same.
  - intros k Hk1 Hk2. now rewrite dict_get_set_other, dict_get_del_other.
Qed.

Lemma preview_cache_evicts_oldest_witness :
  let full :=
    snd (SimpleCache.set
           (snd (SimpleCache.set (SimpleCache.init (V := Z) 2 300%float)
                   "a" 7 1000%float))
           "b" 8 1001%float) in
  let after := snd (SimpleCache.set full "b" 9 1002%float) in
  Dict.get "a" (SimpleCache.cache after) = None
  /\ Dict.get "b" (SimpleCache.cache after) = Some 9.
Proof.
  intros full after.
  assert (SimpleCache.aligned full) as Haligned.
  { split; [reflexivity|]. apply NoDup_ListNoDup. vm_compute.
    repeat constructor; cbn; intuition discriminate. }
  destruct (preview_cache_evicts_oldest full "b" 9 1002%float Haligned)
    as (oldest & accessed & Hget & Hmin & Hgone & Hnew & _).
  - discriminate.
  - vm_compute. discriminate.
  - split; [|exact Hnew].
    assert (oldest = "a"%string) as ->.
    { destruct (String.eqb_spec oldest "a") as [->|Hna]; [reflexivity|].
      destruct (String.eqb_spec oldest "b") as [->|Hnb].
      - specialize (Hmin "a"%string 1000%float eq_refl).
        injection Hget as <-. vm_compute in Hmin. discriminate Hmin.
      - exfalso.
        change (SimpleCache.access_times full)
          with [("a"%string, 1000%float); ("b"%string, 1001%float)] in Hget.
        cbn [Dict.get] in Hget.
        apply String.eqb_neq in Hna, Hnb. rewrite Hna, Hnb in Hget.
        discriminate Hget. }
    apply Hgone. discriminate.
Defined.

(** ** Reading numbers and colours of a form *)

Lemma from_string_raises (limit base : Z) (s : string) (e : exn) :
  PyInt.from_string limit base s = Raise e -> e = ValueError.
Proof.
  unfold PyInt.from_string.
  destruct (PyInt.sign (PyInt.skip_space s)) as [negative s1].
  destruct (PyInt.leading_underscore _); [congruence|].
  destruct (PyInt.scan _ _ _ _ _) as [[[value digits] rest]|]; [|congruence].
  destruct (digits =? 0); [congruence|].
  destruct (negb _); [congruence|].
  destruct (PyInt.too_many_digits _ _ _); [congruence | discriminate].
Qed.

Lemma of_str_raises (limit base : Z) (s : string) (e : exn) :
  PyInt.of_str limit base s = Raise e -> e = ValueError.
Proof. apply from_string_raises. Qed.

Lemma safe_int_returns `{Interpreter} (value : option string) (default : Z) :
  exists n, safe_int value default = Ok n.
Proof.
  destruct value as [s|]; cbn; [|now exists default].
  destruct (PyInt.of_str int_max_str_digits 10 s) as [n|e] eqn:Hint;
    [now exists n|].
  apply of_str_raises in Hint as ->. now exists default.
Qed.

Lemma digit_value_bounds (c : ascii) : 0 <= PyInt.digit_value c <= 37.
Proof.
  unfold PyInt.digit_value.
  pose proof (N_ascii_bounded c) as Hc.
  repeat case_match; lia.
Qed.

(** The scan reads at most one digit per character, and [digits] digits
    in base [base] make a number below [base ^ digits]. *)
Lemma scan_bound (base : Z) (s : string) :
  1 < base ->
  forall prev value digits value' digits' rest,
    PyInt.scan base prev value digits s = Some (value', digits', rest) ->
    0 <= value ->
    0 <= digits' - digits <= Z.of_nat (String.length s)
    /\ 0 <= value'
    /\ value' + 1 <= (value + 1) * base ^ (digits' - digits).
Proof.
  intros Hbase.
  induction s as [|c s IH]; intros prev value digits value' digits' rest;
    cbn [PyInt.scan String.length].
  - destruct prev; [discriminate|]. intros [= <- <- <-] Hvalue.
    rewrite Z.sub_diag. cbn. lia.
  - destruct (Ascii.eqb c "_").
    + destruct prev; [discriminate|]. intros Hscan Hvalue.
      destruct (IH _ _ _ _ _ _ Hscan Hvalue) as (Hd & Hv & Hle).
      repeat split; try lia.
    + destruct (PyInt.digit_value c <? base) eqn:Hdigit.
      * apply Z.ltb_lt in Hdigit. pose proof (digit_value_bounds c) as Hc.
        intros Hscan Hvalue.
        destruct (IH _ _ _ _ _ _ Hscan) as (Hd & Hv & Hle); [nia|].
        replace (digits' - digits) with (Z.succ (digits' - (digits + 1)))
          by lia.
        rewrite Z.pow_succ_r by lia.
        repeat split; try lia.
        assert (0 < base ^ (digits' - (digits + 1))) by (apply Z.pow_pos_nonneg; lia).
        nia.
      * destruct prev; [discriminate|]. intros [= <- <- <-] Hvalue.
        rewrite Z.sub_diag. cbn. lia.
Qed.

Lemma skip_space_length (s : string) :
  (String.length (PyInt.skip_space s) <= String.length s)%nat.
Proof.
  induction s as [|c s IH]; cbn; [lia|].
  destruct (PyInt.c_isspace c); cbn; lia.
Qed.

Lemma prefix_length (base : Z) (s : string) :
  (String.length (PyInt.prefix base s) <= String.length s)%nat.
Proof.
  unfold PyInt.prefix.
  repeat (case_match; subst; cbn [String.length]; try lia).
Qed.

Lemma sign_length (s s' : string) (negative : bool) :
  PyInt.sign s = (negative, s') ->
  (String.length s' + (if negative then 1 else 0) <= String.length s)%nat.
Proof.
  unfold PyInt.sign.
  destruct s as [|c s0]; [intros [= <- <-]; cbn; lia|].
  destruct c as [[] [] [] [] [] [] [] []]; intros [= <- <-];
    cbn [String.length]; lia.
Qed.

Lemma transform_length (s : string) :
  (String.length (PyInt.transform s) <= String.length s)%nat.
Proof.
  induction s as [|c s IH]; cbn; [lia|].
  repeat case_match; cbn; lia.
Qed.

Lemma to_ascii_length (s : string) :
  (String.length (PyInt.to_ascii s) <= String.length s)%nat.
Proof.
  unfold PyInt.to_ascii. destruct (PyInt.is_ascii s); [lia|].
  apply transform_length.
Qed.

(** A literal of [k] characters denotes a number below [base ^ k], and
    above [- base ^ (k - 1)]: the sign takes one character. *)
Lemma from_string_bound (limit base : Z) (s : string) (n : Z) :
  1 < base ->
  PyInt.from_string limit base s = Ok n ->
  - base ^ (Z.of_nat (String.length s) - 1) < n
    < base ^ Z.of_nat (String.length s).
Proof.
  intros Hbase. unfold PyInt.from_string.
  destruct (PyInt.sign (PyInt.skip_space s)) as [negative s1] eqn:Hsign.
  apply sign_length in Hsign.
  pose proof (skip_space_length s) as Hskip.
  pose proof (prefix_length base s1) as Hprefix.
  destruct (PyInt.leading_underscore _); [discriminate|].
  destruct (PyInt.scan _ _ _ _ _) as [[[value digits] rest]|] eqn:Hscan;
    [|discriminate].
  destruct (scan_bound base _ Hbase _ _ _ _ _ _ Hscan) as (Hd & Hv & Hle);
    [lia|].
  rewrite Z.sub_0_r in Hd, Hle.
  destruct (Z.eqb_spec digits 0) as [|Hne]; [discriminate|].
  destruct (negb _); [discriminate|].
  destruct (PyInt.too_many_digits _ _ _); [discriminate|].
  intros [= <-].
  assert (forall a b, 0 <= a <= b -> base ^ a <= base ^ b) as Hmono
    by (intros a b Hab; apply Z.pow_le_mono_r; lia).
  assert (0 < base ^ (Z.of_nat (String.length s) - 1))
    by (apply Z.pow_pos_nonneg; lia).
  destruct negative.
  - pose proof (Hmono digits (Z.of_nat (String.length s) - 1)).
    pose proof (Hmono (Z.of_nat (String.length s) - 1)
                  (Z.of_nat (String.length s))). lia.
  - pose proof (Hmono digits (Z.of_nat (String.length s))). lia.
Qed.

Lemma substring_length (i k : nat) (s : string) :
  (String.length (String.substring i k s) <= k)%nat.
Proof.
  revert i k. induction s as [|c s IH]; intros [|i] [|k]; cbn; try lia.
  - specialize (IH 0%nat k). lia.
  - apply (IH i 0%nat).
  - apply (IH i (S k)).
Qed.

Lemma hex_channel_bound `{Interpreter} (i : nat) (s : string) (n : Z) :
  PyInt.of_str int_max_str_digits 16 (slice i (i + 2) s) = Ok n ->
  -15 <= n <= 255.
Proof.
  intros Hint. unfold PyInt.of_str in Hint.
  apply from_string_bound in Hint; [|lia].
  pose proof (to_ascii_length (slice i (i + 2) s)) as Hascii.
  pose proof (substring_length i (i + 2 - i) s) as Hslice.
  fold (slice i (i + 2) s) in Hslice.
  replace (i + 2 - i)%nat with 2%nat in Hslice by lia.
  set (k := String.length (PyInt.to_ascii (slice i (i + 2) s))) in *.
  clearbody k.
  assert (k = 0 \/ k = 1 \/ k = 2)%nat as [-> | [-> | ->]] by lia;
    cbn in Hint; lia.
Qed.

(** X18: [hex_to_rgba] returns a colour for every string, never an
    error; its alpha is 255 and each of its channels lies between -15 and
    255: a channel is read from two characters, one of which may be a
    sign. *)
Theorem hex_to_rgba_total `{Interpreter} (hex_color : string) :
  exists r g b,
    hex_to_rgba hex_color = Ok (r, g, b, 255)
    /\ -15 <= r <= 255 /\ -15 <= g <= 255 /\ -15 <= b <= 255.
Proof.
  assert (exists r g b,
             Ok white = Ok (r, g, b, 255)
             /\ -15 <= r <= 255 /\ -15 <= g <= 255 /\ -15 <= b <= 255)
    as Hwhite by (exists 255, 255, 255; repeat split; lia).
  unfold hex_to_rgba.
  destruct hex_color as [|c rest]; [exact Hwhite|].
  destruct (Ascii.eqb_spec c "#") as [->|Hne].
  - destruct (PyInt.of_str _ 16 (slice 0 2 rest)) as [r|e] eqn:Hr;
      [|apply of_str_raises in Hr as ->; exact Hwhite].
    destruct (PyInt.of_str _ 16 (slice 2 4 rest)) as [g|e] eqn:Hg;
      [|apply of_str_raises in Hg as ->; exact Hwhite].
    destruct (PyInt.of_str _ 16 (slice 4 6 rest)) as [b|e] eqn:Hb;
      [|apply of_str_raises in Hb as ->; exact Hwhite].
    exists r, g, b. split; [reflexivity|].
    split; [exact (hex_channel_bound 0 rest r Hr)|].
    split; [exact (hex_channel_bound 2 rest g Hg)|].
    exact (hex_channel_bound 4 rest b Hb).
  - destruct c as [[] [] [] [] [] [] [] []]; try exact Hwhite.
    now contradiction Hne.
Qed.

Lemma hex_digit_cases (c : ascii) :
  PyInt.digit_value c < 16 ->
  In c (list_ascii_of_string "0123456789abcdefABCDEF").
Proof.
  destruct c as [[] [] [] [] [] [] [] []]; intros Hlt;
    vm_compute in Hlt; try discriminate Hlt;
    cbn; repeat ((left; reflexivity) || right).
Qed.

Lemma of_str_two_hex_digits (limit : Z) (c1 c2 : ascii) :
  PyInt.digit_value c1 < 16 -> PyInt.digit_value c2 < 16 ->
  PyInt.of_str limit 16 (String c1 (String c2 ""))
  = Ok (16 * PyInt.digit_value c1 + PyInt.digit_value c2).
Proof.
  intros H1%hex_digit_cases H2%hex_digit_cases. cbn in H1, H2.
  repeat match goal with
         | H : _ \/ _ |- _ => destruct H as [<-|H]
         | H : False |- _ => destruct H
         end; vm_compute; reflexivity.
Qed.

(** X19: a colour written as "#" and six hexadecimal digits is read as
    the three numbers its pairs of digits denote, with alpha 255; what
    follows the six digits, such as an alpha pair, is ignored. *)
Theorem hex_to_rgba_reads_digits `{Interpreter} (r1 r2 g1 g2 b1 b2 : ascii)
    (rest : string) :
  Forall (fun c => PyInt.digit_value c < 16) [r1; r2; g1; g2; b1; b2] ->
  hex_to_rgba
    (String "#" (String r1 (String r2 (String g1 (String g2
       (String b1 (String b2 rest)))))))
  = Ok (16 * PyInt.digit_value r1 + PyInt.digit_value r2,
        16 * PyInt.digit_value g1 + PyInt.digit_value g2,
        16 * PyInt.digit_value b1 + PyInt.digit_value b2, 255).
Proof.
  intros Hdigits.
  repeat match goal with
         | H : Forall _ (_ :: _) |- _ =>
             apply Forall_cons in H; destruct H as [? H]
         end.
  unfold hex_to_rgba.
  set (digits := String r1 (String r2 (String g1 (String g2
                   (String b1 (String b2 rest)))))).
  change (slice 0 2 digits) with (String r1 (String r2 "")).
  change (slice 2 4 digits) with (String g1 (String g2 "")).
  replace (slice 4 6 digits) with (String b1 (String b2 ""))
    by (now destruct rest).
  now rewrite !of_str_two_hex_digits by assumption.
Qed.

Lemma hex_to_rgba_reads_digits_witness :
  @hex_to_rgba {| int_max_str_digits := 4300 |} "#d73f09ff"
  = Ok (215, 63, 9, 255).
Proof.
  apply (@hex_to_rgba_reads_digits {| int_max_str_digits := 4300 |}
           "d" "7" "3" "f" "0" "9" "ff").
  repeat constructor.
Defined.

(** ** [int] reads what [str] writes *)

Ltac scan_digit :=
  cbn [PyInt.scan];
  match goal with
  | |- context [Ascii.eqb ?c "_"] =>
      let b := eval vm_compute in (Ascii.eqb c "_") in
      change (Ascii.eqb c "_") with b
  end;
  match goal with
  | |- context [PyInt.digit_value ?c] =>
      let v := eval vm_compute in (PyInt.digit_value c) in
      change (PyInt.digit_value c) with v
  end;
  match goal with
  | |- context [?a <? 10] =>
      let b := eval vm_compute in (a <? 10) in change (a <? 10) with b
  end;
  cbv iota.

Lemma scan_uint_acc (l : Decimal.uint) :
  forall (acc : positive) (digits : Z),
    PyInt.scan 10 false (Z.pos acc) digits (NilEmpty.string_of_uint l)
    = Some (Z.pos (Pos.of_uint_acc l acc),
            digits + Z.of_nat (String.length (NilEmpty.string_of_uint l)),
            ""%string).
Proof.
  induction l; intros acc digits;
    cbn [NilEmpty.string_of_uint Pos.of_uint_acc String.length];
    [cbn; now rewrite Z.add_0_r|..];
    scan_digit;
    match goal with
    | |- PyInt.scan 10 false ?v _ _
         = Some (Z.pos (Pos.of_uint_acc _ ?a), _, _) =>
        replace v with (Z.pos a) by lia
    end;
    rewrite Nat2Z.inj_succ, <- Z.add_1_l, Z.add_assoc; apply IHl.
Qed.

Lemma scan_uint (l : Decimal.uint) :
  forall digits : Z,
    PyInt.scan 10 false 0 digits (NilEmpty.string_of_uint l)
    = Some (Z.of_N (Pos.of_uint l),
            digits + Z.of_nat (String.length (NilEmpty.string_of_uint l)),
            ""%string).
Proof.
  induction l; intros digits;
    cbn [NilEmpty.string_of_uint Pos.of_uint String.length];
    [cbn; now rewrite Z.add_0_r|..];
    scan_digit;
    rewrite Nat2Z.inj_succ, <- Z.add_1_l, Z.add_assoc;
    [change (0 * 10 + 0) with 0; apply IHl|..];
    match goal with
    | |- PyInt.scan 10 false ?v _ _
         = Some (Z.of_N (N.pos (Pos.of_uint_acc _ ?a)), _, _) =>
        change v with (Z.pos a)
    end;
    apply scan_uint_acc.
Qed.

Lemma of_uint_acc_lower (l : Decimal.uint) :
  forall acc : positive,
    Z.pos acc * 10 ^ Z.of_nat (String.length (NilEmpty.string_of_uint l))
    <= Z.pos (Pos.of_uint_acc l acc).
Proof.
  induction l; intros acc;
    cbn [NilEmpty.string_of_uint Pos.of_uint_acc String.length];
    [cbn; lia|..];
    rewrite Nat2Z.inj_succ, Z.pow_succ_r by lia;
    (etransitivity; [|apply IHl]);
    assert (0 < 10 ^ Z.of_nat (String.length (NilEmpty.string_of_uint l)))
      by (apply Z.pow_pos_nonneg; lia);
    nia.
Qed.

Lemma is_ascii_uint (l : Decimal.uint) :
  PyInt.is_ascii (NilEmpty.string_of_uint l) = true.
Proof. induction l; cbn; auto. Qed.

(** The decimal digits of a positive number: at least one, the first not
    a zero, and no more than the size of the number allows. *)
Lemma to_uint_digits (p : positive) :
  Pos.to_uint p <> Decimal.Nil
  /\ (forall l, Pos.to_uint p <> Decimal.D0 l)
  /\ 10 ^ (Z.of_nat (String.length
                       (NilEmpty.string_of_uint (Pos.to_uint p))) - 1)
     <= Z.pos p.
Proof.
  pose proof (DecimalPos.Unsigned.to_uint_nonnil p) as Hnil.
  pose proof (DecimalPos.Unsigned.of_to p) as Hof.
  assert (forall l, Pos.to_uint p <> Decimal.D0 l) as Hzero.
  { intros l Heq.
    pose proof (DecimalPos.Unsigned.to_of (Pos.to_uint p)) as Hto.
    rewrite Hof in Hto. cbn [N.to_uint] in Hto.
    pose proof (DecimalPos.Unsigned.to_uint_nonzero p) as Hnz.
    assert (Decimal.nzhead (Pos.to_uint p) <> Decimal.Nil) as Hhead.
    { intros Hhead. apply DecimalFacts.unorm_0 in Hhead. congruence. }
    rewrite (DecimalFacts.unorm_nzhead _ Hhead) in Hto.
    apply (DecimalFacts.nzhead_nonzero (Pos.to_uint p) l). congruence. }
  split; [exact Hnil|]. split; [exact Hzero|].
  destruct (Pos.to_uint p) as [|l|l|l|l|l|l|l|l|l|l] eqn:Hu;
    [congruence | now contradiction (Hzero l) |..];
    cbn [Pos.of_uint] in Hof; injection Hof as <-;
    cbn [NilEmpty.string_of_uint String.length];
    rewrite Nat2Z.inj_succ;
    replace (Z.succ (Z.of_nat (String.length (NilEmpty.string_of_uint l))) - 1)
      with (Z.of_nat (String.length (NilEmpty.string_of_uint l))) by lia;
    (etransitivity; [|apply of_uint_acc_lower]); lia.
Qed.

Lemma digit_head (c : ascii) (s : string) :
  0 < PyInt.digit_value c < 10 ->
  PyInt.skip_space (String c s) = String c s
  /\ PyInt.sign (String c s) = (false, String c s)
  /\ PyInt.prefix 10 (String c s) = String c s
  /\ PyInt.leading_underscore (String c s) = false.
Proof.
  destruct c as [[] [] [] [] [] [] [] []]; intros [Hpos Hlt];
    vm_compute in Hpos, Hlt; try discriminate Hpos; try discriminate Hlt;
    repeat split.
Qed.

Lemma uint_head (u : Decimal.uint) :
  u <> Decimal.Nil -> (forall l, u <> Decimal.D0 l) ->
  exists c s,
    NilEmpty.string_of_uint u = String c s /\ 0 < PyInt.digit_value c < 10.
Proof.
  intros Hnil Hzero.
  destruct u as [|l|l|l|l|l|l|l|l|l|l];
    [congruence | now contradiction (Hzero l) |..];
    eexists _, _; (split; [reflexivity | vm_compute; split; reflexivity]).
Qed.

Lemma from_string_uint (limit : Z) (negative : bool) (u : Decimal.uint) :
  u <> Decimal.Nil -> (forall l, u <> Decimal.D0 l) ->
  Z.of_nat (String.length (NilEmpty.string_of_uint u)) <= 640 ->
  PyInt.from_string limit 10
    (if negative then String "-" (NilEmpty.string_of_uint u)
     else NilEmpty.string_of_uint u)
  = Ok (if negative then - Z.of_N (Pos.of_uint u)
        else Z.of_N (Pos.of_uint u)).
Proof.
  intros Hnil Hzero Hlen.
  destruct (uint_head u Hnil Hzero) as (c & s & Hs & Hc).
  destruct (digit_head c s Hc) as (Hskip & Hsign & Hprefix & Hunder).
  assert (PyInt.sign
            (PyInt.skip_space
               (if negative then String "-" (NilEmpty.string_of_uint u)
                else NilEmpty.string_of_uint u))
          = (negative, String c s)) as Hhead.
  { destruct negative; rewrite Hs; [reflexivity|]. now rewrite Hskip. }
  unfold PyInt.from_string. rewrite Hhead, Hprefix, Hunder.
  rewrite <- Hs, scan_uint.
  assert (0 < Z.of_nat (String.length (NilEmpty.string_of_uint u))) as Hsome
    by (rewrite Hs; cbn [String.length]; lia).
  destruct (Z.eqb_spec (0 + Z.of_nat (String.length
                                        (NilEmpty.string_of_uint u))) 0);
    [lia|].
  cbn [PyInt.skip_space PyStr.is_empty negb].
  unfold PyInt.too_many_digits, PyInt.max_str_digits_threshold.
  replace (640 <? 0 + Z.of_nat (String.length (NilEmpty.string_of_uint u)))
    with false by (symmetry; apply Z.ltb_ge; lia).
  reflexivity.
Qed.

(** X20: [safe_int] reads back what [str] writes: for every int below
    10 ^ 640 in absolute value, the decimal text of the int is parsed to
    that int, whatever the limit on the digits of a literal is set to. *)
Theorem safe_int_reads_str `{Interpreter} (n default : Z) :
  Z.abs n < 10 ^ 640 ->
  safe_int (Some (PyStr.str n)) default = Ok n.
Proof.
  intros Hsize. unfold safe_int, PyInt.of_str, PyStr.str.
  assert (forall p, Z.pos p < 10 ^ 640 ->
            Z.of_nat (String.length
                        (NilEmpty.string_of_uint (Pos.to_uint p))) <= 640)
    as Hdigits.
  { intros p Hp. destruct (to_uint_digits p) as (_ & _ & Hlow).
    assert (10 ^ (Z.of_nat (String.length
                              (NilEmpty.string_of_uint (Pos.to_uint p))) - 1)
            < 10 ^ 640) as Hpow by lia.
    apply Z.pow_lt_mono_r_iff in Hpow; lia. }
  destruct n as [|p|p]; [reflexivity|..]; cbn [Z.to_int Z.abs] in *.
  - destruct (to_uint_digits p) as (Hnil & Hzero & _).
    assert (NilZero.string_of_int (Decimal.Pos (Pos.to_uint p))
            = NilEmpty.string_of_uint (Pos.to_uint p)) as ->
      by (cbn; now destruct (Pos.to_uint p)).
    unfold PyInt.to_ascii. rewrite is_ascii_uint.
    rewrite (from_string_uint _ false _ Hnil Hzero (Hdigits p Hsize)).
    now rewrite DecimalPos.Unsigned.of_to.
  - destruct (to_uint_digits p) as (Hnil & Hzero & _).
    assert (NilZero.string_of_int (Decimal.Neg (Pos.to_uint p))
            = String "-" (NilEmpty.string_of_uint (Pos.to_uint p))) as ->
      by (cbn; now destruct (Pos.to_uint p)).
    unfold PyInt.to_ascii. cbn [PyInt.is_ascii]. rewrite is_ascii_uint.
    cbn [andb].
    change (Z.of_N (N_of_ascii "-") <? 128) with true. cbv iota.
    rewrite (from_string_uint _ true _ Hnil Hzero (Hdigits p Hsize)).
    now rewrite DecimalPos.Unsigned.of_to.
Qed.

Lemma safe_int_reads_str_witness :
  @safe_int {| int_max_str_digits := 4300 |} (Some "-120"%string) 100
  = Ok (-120).
Proof.
  apply (@safe_int_reads_str {| int_max_str_digits := 4300 |} (-120) 100).
  cbn [Z.abs]. apply Z.lt_trans with (10 ^ 3);
    [reflexivity | apply Z.pow_lt_mono_r; lia].
Defined.

(** ** The settings of a request *)

Lemma hex_to_rgba_returns `{Interpreter} (hex_color : string) :
  exists rgba, hex_to_rgba hex_color = Ok rgba.
Proof.
  unfold hex_to_rgba.
  destruct hex_color as [|c rest]; [now eexists|].
  destruct c as [[] [] [] [] [] [] [] []]; try (now eexists).
  destruct (PyInt.of_str _ 16 (slice 0 2 rest)) as [r|e] eqn:Hr;
    [|apply of_str_raises in Hr as ->; now eexists].
  destruct (PyInt.of_str _ 16 (slice 2 4 rest)) as [g|e] eqn:Hg;
    [|apply of_str_raises in Hg as ->; now eexists].
  destruct (PyInt.of_str _ 16 (slice 4 6 rest)) as [b|e] eqn:Hb;
    [|apply of_str_raises in Hb as ->; now eexists].
  now eexists.
Qed.

Ltac parse_step :=
  match goal with
  | |- context [hex_to_rgba ?s] =>
      let rgba := fresh "rgba" in
      let Hrgba := fresh "Hrgba" in
      destruct (hex_to_rgba_returns s) as [rgba Hrgba]; rewrite Hrgba;
      clear Hrgba
  | |- context [safe_int ?v ?d] =>
      let n := fresh "n" in
      let Hn := fresh "Hn" in
      destruct (safe_int_returns v d) as [n Hn]; rewrite Hn; clear Hn
  end;
  cbn [mbind result_bind].

(** X21: a form never makes [parse_settings] raise anything but an
    [OverflowError], and that one only through a line spacing whose
    number is too large for a float; every other missing or malformed
    field is replaced by its default. *)
Theorem parse_settings_raises_only_overflow `{Interpreter}
    (form_data : gmap string string) (e : exn) :
  parse_settings form_data = Raise e ->
  e = OverflowError
  /\ exists s n,
       form_data !! "line_spacing_factor"%string = Some s
       /\ PyInt.of_str int_max_str_digits 10 s = Ok n
       /\ PyFloat.of_int n = Raise OverflowError.
Proof.
  unfold parse_settings.
  destruct (safe_int_returns (form_data !! "line_spacing_factor"%string) 30)
    as [line_spacing Hspacing].
  rewrite Hspacing. repeat parse_step.
  destruct (PyFloat.int_truediv line_spacing PyFloat.hundred)
    as [factor|e'] eqn:Hfactor; cbn [mbind result_bind]; [discriminate|].
  intros [= ->].
  unfold PyFloat.int_truediv in Hfactor.
  destruct (PyFloat.of_int line_spacing) as [x|e'] eqn:Hfloat;
    cbn [mbind result_bind] in Hfactor; [discriminate Hfactor|].
  injection Hfactor as ->.
  assert (e = OverflowError) as ->.
  { unfold PyFloat.of_int in Hfloat.
    destruct (PrimFloat.is_infinity _); congruence. }
  split; [reflexivity|].
  unfold safe_int in Hspacing.
  destruct (form_data !! "line_spacing_factor"%string) as [s|] eqn:Hfield.
  - destruct (PyInt.of_str int_max_str_digits 10 s) as [m|e'] eqn:Hint.
    + injection Hspacing as ->. now exists s, line_spacing.
    + apply of_str_raises in Hint as ->. injection Hspacing as <-.
      vm_compute in Hfloat. discriminate Hfloat.
  - injection Hspacing as <-. vm_compute in Hfloat. discriminate Hfloat.
Qed.

Lemma parse_settings_raises_only_overflow_witness :
  exists s n,
    huge_spacing_form !! "line_spacing_factor"%string = Some s
    /\ PyInt.of_str 4300 10 s = Ok n
    /\ PyFloat.of_int n = Raise OverflowError.
Proof.
  refine (proj2 (@parse_settings_raises_only_overflow python_3_11
                   huge_spacing_form OverflowError _)).
  vm_compute. reflexivity.
Defined.

Lemma apply_settings_forgets `{Host} (settings : Settings.t)
    (g1 g2 : ThumbnailGenerator) (names : ResourceLists)
    (rm : ResourceManager) :
  fst (fst (apply_settings settings g1 names rm))
  = fst (fst (apply_settings settings g2 names rm))
  /\ snd (apply_settings settings g1 names rm)
     = snd (apply_settings settings g2 names rm)
  /\ (fst (fst (apply_settings settings g1 names rm)) = Ok tt ->
      snd (fst (apply_settings settings g1 names rm))
      = snd (fst (apply_settings settings g2 names rm))).
Proof.
  unfold apply_settings.
  destruct (box_alpha (Settings.text_box_opacity settings)) as [alpha|e];
    [|cbn; repeat split; discriminate].
  destruct (chosen_background settings names rm) as [background rm1].
  destruct (chosen_pattern settings rm1) as [pattern rm2].
  cbn. repeat split.
Qed.

(** X22: a preview is a function of the posted form and the resource
    manager alone: [apply_settings] assigns every attribute of the
    generator that a render reads, so whatever the generator held before,
    an uploaded background included, leaves no trace in the answer, in the
    resource manager, or, when the preview succeeds, in the generator. *)
Theorem preview_forgets_generator `{Host} `{Interpreter}
    (form_data : gmap string string) (g1 g2 : ThumbnailGenerator)
    (names : ResourceLists) (rm : ResourceManager) :
  fst (fst (preview form_data g1 names rm))
  = fst (fst (preview form_data g2 names rm))
  /\ snd (preview form_data g1 names rm) = snd (preview form_data g2 names rm)
  /\ (is_ok (fst (fst (preview form_data g1 names rm))) = true ->
      snd (fst (preview form_data g1 names rm))
      = snd (fst (preview form_data g2 names rm))).
Proof.
  unfold preview.
  destruct (parse_settings form_data) as [settings|e];
    [|cbn; repeat split; discriminate].
  destruct (apply_settings_forgets settings g1 g2 names rm)
    as (Houtcome & Hrm & Hgenerator).
  destruct (apply_settings settings g1 names rm) as [[[[]|e1] g1'] rm1],
    (apply_settings settings g2 names rm) as [[[[]|e2] g2'] rm2];
    cbn [fst snd] in Houtcome, Hrm, Hgenerator;
    try discriminate Houtcome; subst rm2.
  - rewrite <- (Hgenerator eq_refl).
    destruct (generate_thumbnail g1' rm1 (Settings.text settings) 1 1280 720)
      as [r rm']. cbn. repeat split.
  - cbn. repeat split; [congruence | discriminate].
Qed.

Lemma box_alpha_in_range (opacity : Z) :
  0 <= opacity <= 100 -> box_alpha opacity = Ok (255 * opacity / 100).
Proof.
  intros Hrange.
  assert (forallb
            (fun o => match box_alpha o with
                      | Ok alpha => alpha =? 255 * o / 100
                      | Raise _ => false
                      end) (seqZ 0 101) = true) as Hall
    by (vm_compute; reflexivity).
  rewrite forallb_forall in Hall.
  specialize (Hall opacity).
  destruct (box_alpha opacity) as [alpha|e].
  - f_equal. apply Z.eqb_eq, Hall, list_elem_of_In, elem_of_seqZ. lia.
  - discriminate Hall. apply list_elem_of_In, elem_of_seqZ. lia.
Qed.

(** X23: for a text box opacity from 0 to 100, [apply_settings] succeeds
    and gives the box colour the alpha 255 * opacity // 100, a byte that
    grows with the opacity from 0 to 255; the colour channels are those
    of the form. *)
Theorem text_box_alpha_follows_opacity `{Host} (settings : Settings.t)
    (generator : ThumbnailGenerator) (names : ResourceLists)
    (rm : ResourceManager) :
  0 <= Settings.text_box_opacity settings <= 100 ->
  let alpha := 255 * Settings.text_box_opacity settings / 100 in
  fst (fst (apply_settings settings generator names rm)) = Ok tt
  /\ text_box_color (snd (fst (apply_settings settings generator names rm)))
     = (let '(r, g, b, _) := Settings.text_box_color settings in
        (r, g, b, alpha))
  /\ 0 <= alpha <= 255.
Proof.
  intros Hrange alpha. unfold apply_settings.
  rewrite (box_alpha_in_range _ Hrange).
  destruct (chosen_background settings names rm) as [background rm1].
  destruct (chosen_pattern settings rm1) as [pattern rm2].
  cbn [fst snd text_box_color]. split; [reflexivity|].
  split; [reflexivity|].
  subst alpha. split; [apply Z.div_pos; lia|].
  apply Z.div_le_upper_bound; lia.
Qed.

Lemma text_box_alpha_follows_opacity_witness :
  text_box_color
    (snd (fst (@apply_settings (Demo.host [] "linux" []) default_settings
                 _initialize_defaults no_resources
                 (@fresh (Demo.host [] "linux" []) ∅))))
  = (0, 0, 0, 255).
Proof.
  refine (proj1 (proj2 (@text_box_alpha_follows_opacity
                          (Demo.host [] "linux" []) default_settings
                          _initialize_defaults no_resources
                          (@fresh (Demo.host [] "linux" []) ∅) _))).
  cbn. lia.
Defined.

Example parse_settings_defaults :
  @parse_settings python_3_11 ∅ = Ok default_settings.
Proof. vm_compute. reflexivity. Qed.

(** X24: the batch route reads the start number and the count with
    [int], not with [safe_int]: a form whose start number or count is no
    int literal is answered by an error, where the preview of the same
    form takes the default, and the generator and the resource manager
    stay as they were. *)
Theorem batch_route_rejects_malformed_number `{Host} `{Interpreter}
    (form_data : gmap string string) (generator : ThumbnailGenerator)
    (names : ResourceLists) (rm : ResourceManager) (key s : string) :
  key = "start_number"%string \/ key = "batch_count"%string ->
  form_data !! key = Some s ->
  is_ok (PyInt.of_str int_max_str_digits 10 s) = false ->
  (exists e,
      generate_batch_route form_data generator names rm
      = (Raise e, generator, rm))
  /\ (forall default, safe_int (form_data !! key) default = Ok default).
Proof.
  intros Hkey Hfield Hbad.
  destruct (PyInt.of_str int_max_str_digits 10 s) as [n|e] eqn:Hint;
    [discriminate Hbad|].
  pose proof (of_str_raises _ _ _ _ Hint) as ->.
  split.
  - unfold generate_batch_route.
    destruct (parse_settings form_data) as [settings|e];
      cbn [mbind result_bind]; [|now exists e].
    unfold form_int.
    destruct Hkey as [-> | ->]; rewrite Hfield, Hint; cbn [mbind result_bind].
    + now exists ValueError.
    + destruct (form_data !! "start_number"%string) as [s'|];
        [destruct (PyInt.of_str int_max_str_digits 10 s') as [n'|e']|];
        cbn [mbind result_bind]; now eexists.
  - intros default. unfold safe_int. now rewrite Hfield, Hint.
Qed.

Lemma batch_route_rejects_malformed_number_witness :
  exists e,
    @generate_batch_route (Demo.host [] "linux" []) python_3_11
      malformed_count_form _initialize_defaults no_resources
      (@fresh (Demo.host [] "linux" []) ∅)
    = (Raise e, _initialize_defaults, @fresh (Demo.host [] "linux" []) ∅).
Proof.
  refine (proj1 (@batch_route_rejects_malformed_number
                   (Demo.host [] "linux" []) python_3_11
                   malformed_count_form _ _ _ "batch_count" "3.0" _ _ _)).
  - now right.
  - reflexivity.
  - vm_compute. reflexivity.
Defined.

(** ** Scanning the resource directories *)

Lemma str_le_total : Total str_le.
Proof. intros a b. apply String.leb_total. Qed.

Lemma splits_bounds (name : string) (i : nat) :
  Pathlib.splits name = Some i ->
  (0 < i < String.length name - 1)%nat.
Proof.
  unfold Pathlib.splits.
  destruct (Pathlib.rfind_dot name) as [j|]; [|discriminate].
  destruct (0 <? j)%nat eqn:Hpos; [|discriminate].
  destruct (j <? String.length name - 1)%nat eqn:Hlt; [|discriminate].
  intros [= <-]. apply Nat.ltb_lt in Hpos, Hlt. lia.
Qed.

Lemma substring_split (s : string) :
  forall i : nat,
    (i <= String.length s)%nat ->
    String.substring 0 i s +:+ String.substring i (String.length s - i) s = s.
Proof.
  induction s as [|c s IH]; intros [|i] Hi; cbn [String.length] in *;
    try lia.
  - reflexivity.
  - change (String.substring 0 0 (String c s)) with ""%string.
    change ("" +:+ ?x)%string with x.
    rewrite Nat.sub_0_r.
    change (String.substring 0 (S (String.length s)) (String c s))
      with (String c (String.substring 0 (String.length s) s)).
    f_equal. specialize (IH 0%nat ltac:(lia)).
    rewrite Nat.sub_0_r in IH.
    replace (String.substring 0 0 s) with ""%string in IH
      by (now destruct s).
    exact IH.
  - change (String.substring 0 (S i) (String c s))
      with (String c (String.substring 0 i s)).
    change (String.substring (S i) (S (String.length s) - S i) (String c s))
      with (String.substring i (String.length s - i) s).
    rewrite append_cons. f_equal. apply IH. lia.
Qed.

(** [stem + suffix == name] *)
Lemma stem_suffix (name : string) :
  Pathlib.stem name +:+ Pathlib.suffix name = name.
Proof.
  unfold Pathlib.stem, Pathlib.suffix.
  destruct (Pathlib.splits name) as [i|] eqn:Hsplits.
  - apply splits_bounds in Hsplits. apply substring_split. lia.
  - apply append_empty_r.
Qed.

Lemma scan_names_spec `{Host} (files extensions : list string) (n : string) :
  In n (scan_names files extensions)
  <-> exists file_name,
        In file_name files
        /\ str_in (PyStr.lower (Pathlib.suffix file_name)) extensions = true
        /\ n = Pathlib.stem file_name.
Proof.
  unfold scan_names. rewrite in_map_iff. split.
  - intros (file_name & <- & Hin).
    apply list_elem_of_In, list_elem_of_filter in Hin as [Hext Hin].
    exists file_name. split; [now apply list_elem_of_In|].
    split; [now apply Is_true_true | reflexivity].
  - intros (file_name & Hin & Hext & ->).
    exists file_name. split; [reflexivity|].
    apply list_elem_of_In, list_elem_of_filter.
    split; [now apply Is_true_true | now apply list_elem_of_In].
Qed.

(** X25: the names [_scan_directory] returns are in ascending order, and
    they are the stems of the listed files whose suffix, in lower case, is
    one of the extensions: each returned name followed by the suffix of
    its file is the name of that file, and a directory that does not exist
    gives no name. *)
Theorem scan_directory_lists_stems `{Host} `{Listing}
    (directory_path : string) (extensions : list string) :
  Sorted str_le (_scan_directory directory_path extensions)
  /\ forall n,
       In n (_scan_directory directory_path extensions)
       <-> path_exists directory_path = true
           /\ exists file_name,
                In file_name (glob directory_path)
                /\ str_in (PyStr.lower (Pathlib.suffix file_name))
                     extensions = true
                /\ n = Pathlib.stem file_name
                /\ file_name = n +:+ Pathlib.suffix file_name.
Proof.
  unfold _scan_directory, sorted. split.
  - apply Sorted_merge_sort, str_le_total.
  - intros n. rewrite <- list_elem_of_In, merge_sort_Permutation.
    rewrite list_elem_of_In.
    destruct (path_exists directory_path).
    + rewrite scan_names_spec. split.
      * intros (file_name & Hin & Hext & ->). split; [reflexivity|].
        exists file_name. now rewrite stem_suffix.
      * intros (_ & file_name & Hin & Hext & -> & _). now exists file_name.
    + split; [intros [] | intros [Hexists _]; discriminate Hexists].
Qed.

Lemma first_existing_finds `{Host} (directory_path name : string)
    (extensions : list string) (ext : string) :
  In ext extensions ->
  path_exists (joinpath directory_path (name +:+ ext)) = true ->
  exists file_path,
    first_existing directory_path name extensions = Some file_path
    /\ path_exists file_path = true.
Proof.
  induction extensions as [|ext' extensions IH]; [intros []|].
  intros Hin Hexists. cbn [first_existing].
  destruct (path_exists (joinpath directory_path (name +:+ ext'))) eqn:Hfirst.
  - now eexists.
  - destruct Hin as [->|Hin]; [congruence|]. now apply IH.
Qed.

Lemma str_in_In (s : string) (l : list string) :
  str_in s l = true <-> In s l.
Proof.
  unfold str_in. rewrite existsb_exists. split.
  - intros (x & Hin & Heq). apply String.eqb_eq in Heq. now subst.
  - intros Hin. exists s. split; [exact Hin | apply String.eqb_refl].
Qed.

(** X26: a file that the scan lists is found again by the lookup that
    loads it: if a listed file exists under its listed name and its
    suffix is one of the extensions as they are written, in lower case,
    then its stem is among the scanned names and [first_existing], the
    probe of [get_image] and of the font index, finds an existing file for
    that stem. *)
Theorem scanned_name_is_found `{Host} `{Listing}
    (directory_path file_name : string) (extensions : list string) :
  path_exists directory_path = true ->
  In file_name (glob directory_path) ->
  path_exists (joinpath directory_path file_name) = true ->
  str_in (Pathlib.suffix file_name) extensions = true ->
  PyStr.lower (Pathlib.suffix file_name) = Pathlib.suffix file_name ->
  In (Pathlib.stem file_name) (_scan_directory directory_path extensions)
  /\ exists file_path,
       first_existing directory_path (Pathlib.stem file_name) extensions
       = Some file_path
       /\ path_exists file_path = true.
Proof.
  intros Hdirectory Hlisted Hexists Hext Hlower. split.
  - unfold _scan_directory, sorted.
    rewrite <- list_elem_of_In, merge_sort_Permutation, list_elem_of_In.
    rewrite Hdirectory. apply scan_names_spec.
    exists file_name. now rewrite Hlower.
  - apply (first_existing_finds _ _ _ (Pathlib.suffix file_name)).
    + now apply str_in_In.
    + now rewrite stem_suffix.
Qed.

Lemma scanned_name_is_found_witness :
  In "Lato"%string
    (@_scan_directory (Demo.host [] "linux" demo_font_files) demo_listing
       "/srv/app/static/fonts" font_extensions)
  /\ exists file_path,
       @first_existing (Demo.host [] "linux" demo_font_files)
         "/srv/app/static/fonts" "Lato" font_extensions = Some file_path
       /\ @path_exists (Demo.host [] "linux" demo_font_files) file_path
          = true.
Proof.
  apply (@scanned_name_is_found (Demo.host [] "linux" demo_font_files)
           demo_listing "/srv/app/static/fonts" "Lato.otf" font_extensions).
  - reflexivity.
  - cbn. tauto.
  - reflexivity.
  - reflexivity.
  - reflexivity.
Defined.

Example upper_case_extension_listed_not_found :
  In "Bebas"%string
    (@_scan_directory (Demo.host [] "linux" demo_font_files) demo_listing
       "/srv/app/static/fonts" font_extensions)
  /\ @first_existing (Demo.host [] "linux" demo_font_files)
       "/srv/app/static/fonts" "Bebas" font_extensions = None.
Proof. split; [vm_compute; tauto | reflexivity]. Qed.

Section FontIndex.
Context `{Host}.

Lemma store_font_path_other (font_paths : gmap string string)
    (font_name name : string) :
  name <> font_name ->
  store_font_path font_paths font_name !! name = font_paths !! name.
Proof.
  intros Hne. unfold store_font_path.
  destruct (first_existing _ _ _); [|reflexivity].
  now rewrite lookup_insert_ne.
Qed.

Lemma store_font_path_same (font_paths : gmap string string)
    (font_name : string) :
  store_font_path font_paths font_name !! font_name
  = match first_existing (directory "fonts") font_name font_extensions with
    | Some font_path => Some font_path
    | None => font_paths !! font_name
    end.
Proof.
  unfold store_font_path.
  destruct (first_existing _ _ _); [|reflexivity].
  now rewrite lookup_insert_eq.
Qed.

(** The index after the loop over the font names. *)
Lemma font_index_lookup (font_names : list string) :
  forall (font_paths : gmap string string) (name : string),
    fold_left store_font_path font_names font_paths !! name
    = match first_existing (directory "fonts") name font_extensions with
      | Some font_path =>
          if str_in name font_names then Some font_path
          else font_paths !! name
      | None => font_paths !! name
      end.
Proof.
  induction font_names as [|font_name font_names IH];
    intros font_paths name; cbn [fold_left].
  - cbn [str_in existsb]. now destruct (first_existing _ _ _).
  - rewrite IH. unfold str_in. cbn [existsb]. fold (str_in name font_names).
    destruct (String.eqb_spec name font_name) as [->|Hne]; cbn [orb].
    + rewrite store_font_path_same.
      destruct (first_existing _ _ _); [|reflexivity].
      now destruct (str_in font_name font_names).
    + now rewrite store_font_path_other by exact Hne.
Qed.

End FontIndex.

(** X27: [refresh_resources] empties the image cache, the font cache and
    both memos, and indexes every scanned font that has a ".ttf" or
    ".otf" file under the first of the two that exists; but it never
    forgets a font path: a font that was indexed before stays indexed,
    under its old path if no file of it is found any more. *)
Theorem refresh_keeps_font_paths `{Host} `{Listing} (rm : ResourceManager) :
  let names := fst (refresh_resources rm) in
  let rm' := snd (refresh_resources rm) in
  _images rm' = ∅ /\ _fonts rm' = []
  /\ get_image_memo rm' = [] /\ get_pil_font_memo rm' = []
  /\ (forall name font_path,
        In name (_font_names names) ->
        first_existing (directory "fonts") name font_extensions
        = Some font_path ->
        _font_paths rm' !! name = Some font_path)
  /\ (forall name font_path,
        _font_paths rm !! name = Some font_path ->
        is_Some (_font_paths rm' !! name)
        /\ (first_existing (directory "fonts") name font_extensions = None ->
            _font_paths rm' !! name = Some font_path)).
Proof.
  unfold refresh_resources, _scan_resources.
  cbn [fst snd _images _fonts get_image_memo get_pil_font_memo _font_paths
       set_get_pil_font_memo set_get_image_memo set_font_paths set_fonts
       set_images _font_names].
  do 4 (split; [reflexivity|]). split.
  - intros name font_path Hin%str_in_In Hfound.
    now rewrite font_index_lookup, Hfound, Hin.
  - intros name font_path Hold. rewrite font_index_lookup, Hold.
    destruct (first_existing _ _ _) as [found|].
    + split; [|discriminate]. destruct (str_in _ _); now eexists.
    + split; [now eexists | reflexivity].
Qed.

(** ** The placement of the text *)

(** X28: every line [_add_text] draws lies between the two margins,
    shifted by the horizontal offset, whatever the alignment; the one
    exception is a line that is a single word wider than the space
    between the margins. *)
Theorem drawn_lines_within_margins `{Host} (self : ThumbnailGenerator)
    (rm : ResourceManager) (display_text : string) (width : Z)
    (line : string) :
  let f := fst (get_pil_font rm (font_name self) (font_size self)) in
  let max_text_width := width - text_margins self * 2 in
  In line
    (fst (_wrap_text rm display_text (font_name self) (font_size self)
            max_text_width)) ->
  let x_position :=
    _calculate_text_x_position self line f width
      (Some (text_alignment self)) in
  (text_margins self + text_x_offset self <= x_position
   /\ x_position + text_width f line
      <= width - text_margins self + text_x_offset self)
  \/ (is_word line /\ max_text_width < text_width f line).
Proof.
  intros f max_text_width Hline x_position.
  rewrite wrap_text_lines in Hline. fold f in Hline.
  pose proof (wrap_lines_fit f max_text_width display_text) as Hfit.
  rewrite Forall_forall in Hfit.
  destruct (Hfit line) as [Hfits|Hword];
    [now apply list_elem_of_In | left | now right].
  subst x_position max_text_width. unfold _calculate_text_x_position.
  set (line_width := text_width f line) in *. clearbody line_width.
  repeat case_match; split; try lia;
    Z.div_mod_to_equations; lia.
Qed.

Lemma drawn_lines_within_margins_witness :
  let self := with_text _initialize_defaults "right" false "output" in
  let x_position :=
    @_calculate_text_x_position Demo.plain self "Week 7" "Arial"%string 1280
      (Some "right"%string) in
  (100 <= x_position /\ x_position + 60 <= 1180)
  \/ (is_word "Week 7" /\ 1080 < 60).
Proof.
  exact (@drawn_lines_within_margins Demo.plain
           (with_text _initialize_defaults "right" false "output")
           (@fresh Demo.plain ∅) "Week 7" 1280 "Week 7"
           (or_introl eq_refl)).
Defined.

(** ** The scaling of the alpha band *)

Lemma Forall2_map_self {A B : Type} (P : A -> B -> Prop) (g : A -> B)
    (l : list A) :
  Forall (fun x => P x (g x)) l -> Forall2 P l (map g l).
Proof. induction 1; cbn; constructor; assumption. Qed.

(** The table of every opacity from 0 to 99: 256 entries, the entry of
    [i] being the quotient [i * opacity // 100] or one less. *)
Lemma opacity_lut_entries (opacity : Z) :
  0 <= opacity < 100 ->
  exists lut,
    (opacity_factor ← PyFloat.int_truediv opacity PyFloat.hundred;
     opacity_lut opacity_factor) = Ok lut
    /\ forall a, 0 <= a <= 255 ->
         let entry := nth (Z.to_nat a) lut 0 in
         0 <= entry
         /\ a * opacity / 100 - 1 <= entry <= a * opacity / 100.
Proof.
  intros Hrange.
  assert (forallb
            (fun o =>
               match (opacity_factor ← PyFloat.int_truediv o PyFloat.hundred;
                      opacity_lut opacity_factor) with
               | Ok lut =>
                   forallb
                     (fun i =>
                        let entry := nth i lut 0 in
                        let q := Z.of_nat i * o / 100 in
                        (0 <=? entry) && (q - 1 <=? entry) && (entry <=? q))
                     (seq 0 256)
               | Raise _ => false
               end) (seqZ 0 100) = true) as Hall
    by (vm_compute; reflexivity).
  rewrite forallb_forall in Hall.
  specialize (Hall opacity ltac:(apply list_elem_of_In, elem_of_seqZ; lia)).
  destruct (opacity_factor ← PyFloat.int_truediv opacity PyFloat.hundred;
            opacity_lut opacity_factor) as [lut|e]; [|discriminate Hall].
  exists lut. split; [reflexivity|].
  intros a Ha entry. subst entry.
  rewrite forallb_forall in Hall.
  specialize (Hall (Z.to_nat a) ltac:(apply in_seq; lia)).
  cbv zeta in Hall. rewrite Z2Nat.id in Hall by lia.
  apply andb_true_iff in Hall as [Hall Hupper].
  apply andb_true_iff in Hall as [Hzero Hlower].
  apply Z.leb_le in Hzero, Hlower, Hupper. lia.
Qed.

(** X29: lowering the opacity of a layer never raises the alpha of a
    pixel and leaves its colour alone: for an opacity from 0 to 99 the new
    alpha is [alpha * opacity // 100] or, where the float product falls
    short of the quotient, one less; from 100 on the layer is left as it
    is. *)
Theorem opacity_never_raises_alpha (opacity : Z) (im : PIL.image) :
  0 <= opacity ->
  Forall (fun p => 0 <= PIL.alpha p <= 255) (PIL.data im) ->
  exists out,
    apply_opacity opacity im = Ok out
    /\ Forall2
         (fun p q : PIL.rgba =>
            fst p = fst q
            /\ 0 <= PIL.alpha q <= PIL.alpha p
            /\ (opacity < 100 ->
                PIL.alpha p * opacity / 100 - 1 <= PIL.alpha q
                <= PIL.alpha p * opacity / 100))
         (PIL.data im) (PIL.data out).
Proof.
  intros Hopacity Hbytes. unfold apply_opacity.
  destruct (Z.ltb_spec opacity 100) as [Hlow|Hhigh].
  - destruct (opacity_lut_entries opacity ltac:(lia)) as (lut & Hlut & Hentry).
    unfold mbind, result_bind in Hlut |- *.
    destruct (PyFloat.int_truediv opacity PyFloat.hundred) as [factor|e];
      [|discriminate Hlut].
    rewrite Hlut. eexists. split; [reflexivity|].
    unfold PIL.point_alpha. cbn [PIL.data].
    apply Forall2_map_self.
    eapply Forall_impl; [exact Hbytes|].
    intros [[[r g] b] a] Ha. cbn [PIL.alpha fst snd] in *.
    destruct (Hentry a Ha) as (Hzero & Hbounds).
    assert (a * opacity / 100 <= a) as Hquot
      by (apply Z.div_le_upper_bound; nia).
    unfold PIL.clip8. split; [reflexivity|]. lia.
  - exists im. split; [reflexivity|].
    apply Forall2_same_length_lookup_2; [reflexivity|].
    intros i p q Hp Hq. rewrite Hp in Hq. injection Hq as <-.
    rewrite Forall_lookup in Hbytes. specialize (Hbytes i p Hp).
    cbn beta in Hbytes. split; [reflexivity|]. lia.
Qed.

Lemma opacity_never_raises_alpha_witness :
  apply_opacity 29 (PIL.Image 1 1 [(10, 20, 30, 100)])
  = Ok (PIL.Image 1 1 [(10, 20, 30, 28)]).
Proof.
  destruct (opacity_never_raises_alpha 29 (PIL.Image 1 1 [(10, 20, 30, 100)]))
    as (out & Hrun & _).
  - lia.
  - repeat constructor; cbn; lia.
  - rewrite Hrun. vm_compute in Hrun. now injection Hrun as <-.
Defined.

(** ** The height of the text block *)

Lemma draw_lines_advance `{Host} (self : ThumbnailGenerator) (f : font)
    (width line_spacing : Z) (lines : list string) :
  forall img y out y',
    fold_left (draw_line self f width line_spacing) lines (Ok (img, y))
    = Ok (out, y') ->
    y' = y + Z.of_nat (length lines) * (font_size self + line_spacing).
Proof.
  induction lines as [|l ls IH]; intros img y out y' Hrun;
    cbn [fold_left] in Hrun.
  - injection Hrun as _ <-. cbn. lia.
  - unfold draw_line at 2 in Hrun. cbn in Hrun.
    destruct (draw_text (pixels img) _ l f _ _ _) as [drawn|e];
      unfold mbind, result_bind, mret, result_ret in Hrun;
      cbn beta iota in Hrun.
    + apply IH in Hrun. rewrite Hrun. cbn [length]. lia.
    + now rewrite draw_lines_raise in Hrun.
Qed.

(** X30: the height [_add_text] computes for the block is the height the
    drawing loop covers: after the last line the loop stands one line
    spacing below the computed bottom of the block. So a top alignment
    puts the first line at the top margin, a bottom alignment puts the
    bottom of the block at the bottom margin, and any other alignment
    centres the block, with at most one pixel more below than above; all
    three shifted by the vertical offset. *)
Theorem text_block_placement `{Host} (self : ThumbnailGenerator) (f : font)
    (lines : list string) (width height line_spacing : Z)
    (img out : canvas) (y_end : Z) :
  let block := text_height self lines line_spacing in
  let y_position := first_y_position self block height in
  fold_left (draw_line self f width line_spacing) lines
    (Ok (img, y_position)) = Ok (out, y_end) ->
  y_end - line_spacing = y_position + block
  /\ (str_in (text_alignment self)
        ["top_left"; "top_center"; "top_right"]%string = true ->
      y_position = text_margins self + text_y_offset self)
  /\ (str_in (text_alignment self)
        ["top_left"; "top_center"; "top_right";
         "bottom_left"; "bottom_center"; "bottom_right"]%string = false ->
      let above := y_position - text_y_offset self in
      let below := height - (above + block) in
      above <= below <= above + 1)
  /\ (str_in (text_alignment self)
        ["bottom_left"; "bottom_center"; "bottom_right"]%string = true ->
      y_position + block = height - text_margins self + text_y_offset self).
Proof.
  intros block y_position Hrun.
  apply draw_lines_advance in Hrun.
  split; [subst block; unfold text_height; lia|].
  subst y_position. unfold first_y_position.
  clearbody block.
  destruct (str_in (text_alignment self)
              ["top_left"; "top_center"; "top_right"]%string) eqn:Htop.
  - split; [reflexivity|]. split.
    + intros Hother. unfold str_in in Htop, Hother.
      cbn [existsb] in Htop, Hother.
      repeat (apply orb_false_iff in Hother as [? Hother]).
      repeat (apply orb_true_iff in Htop as [Htop|Htop]; [congruence|]).
      discriminate Htop.
    + intros Hbottom. unfold str_in in Htop, Hbottom.
      cbn [existsb] in Htop, Hbottom.
      destruct (String.eqb_spec (text_alignment self) "top_left") as [Heq|_];
        [rewrite Heq in Hbottom; discriminate Hbottom|].
      destruct (String.eqb_spec (text_alignment self) "top_center") as [Heq|_];
        [rewrite Heq in Hbottom; discriminate Hbottom|].
      destruct (String.eqb_spec (text_alignment self) "top_right") as [Heq|_];
        [rewrite Heq in Hbottom; discriminate Hbottom|].
      discriminate Htop.
  - split; [discriminate|].
    destruct (str_in (text_alignment self)
                ["bottom_left"; "bottom_center"; "bottom_right"]%string)
      eqn:Hbottom.
    + split; [|intros _; lia].
      intros Hother. unfold str_in in Hbottom, Hother.
      cbn [existsb] in Hbottom, Hother.
      repeat (apply orb_false_iff in Hother as [? Hother]).
      repeat (apply orb_true_iff in Hbottom as [Hbottom|Hbottom];
              [congruence|]).
      discriminate Hbottom.
    + split; [|discriminate].
      intros _. cbv zeta. Z.div_mod_to_equations. lia.
Qed.

Lemma text_block_placement_witness :
  let self := with_text _initialize_defaults "bottom_center" false "output" in
  let block := text_height self ["Week"; "7"]%string 30 in
  first_y_position self block 720 + block = 720 - 100 + 0.
Proof.
  intros self block.
  destruct (@fold_left (result (canvas * Z)) string
              (@draw_line Demo.plain self "Arial"%string 1280 30)
              ["Week"; "7"]%string
              (Ok (Canvas (PIL.Image 1 1 [PIL.transparent]) [],
                  first_y_position self block 720)))
    as [[out y_end]|e] eqn:Hrun.
  - exact (proj2 (proj2 (proj2
             (@text_block_placement Demo.plain self "Arial"%string
                ["Week"; "7"]%string 1280 720 30
                (Canvas (PIL.Image 1 1 [PIL.transparent]) []) out y_end
                Hrun))) eq_refl).
  - cbn in Hrun. discriminate Hrun.
Defined.
